(** * protoc-gen-jsonschema: the descriptor-to-schema translation, verified

    A shallow embedding of [main.go]: the package registry ([registerType],
    [lookupType] and the relative lookups), the type converter
    ([convertField], [convertMessageType], [convertEnumType]), the file
    converter ([convertFile]), the session driver ([convert]) and the
    parameter parser ([commandLineParameter]).

    Modelling choices, all taken from the Go source:
    - message descriptors are reached through pointers and are mutated in
      place ([EnumType] is appended to), so they live in a store indexed by
      addresses; an address that is not allocated plays the role of the nil
      pointer: the generated getters answer with zero values there, direct
      field access panics;
    - a [*ProtoPackage] is a position in the tree rooted at [globalPkg]; it
      is kept as the list of path segments from the node up to the root, so
      that the [parent] pointer is the tail of the list;
    - Go slices are lists: every [append] in the program assigns its result
      back to the only variable that holds the slice, so sharing of backing
      arrays is never observable; a nil slice and an empty one are both [[]];
    - Go maps are [gmap]s;
    - a pair [(value, error)] is kept as the program returns it; a panic and
      unbounded recursion (a message type that contains itself) are outcomes
      of their own;
    - writing to the log has no influence on any result and is left out;
      the only trace it leaves is the nil dereference of its arguments.

    The file has three parts: the program, the vocabulary and the inputs
    of the statements, and the statements with their proofs. *)

From Stdlib Require Import ZArith Ascii String DecimalString.
From Equations Require Import Equations.
From stdpp Require Import gmap strings list fin_maps.

#[local] Set Warnings "-register-all".
#[local] Open Scope string_scope.
#[local] Open Scope list_scope.

(** ** The pieces of Go's [strings] and [strconv] the program uses *)

Module Strings.

(** [strings.HasPrefix(s, prefix)] *)
Definition HasPrefix (s prefix : string) : bool := String.prefix prefix s.

(** [strings.HasSuffix(s, suffix)]:
    [len(s) >= len(suffix) && s[len(s)-len(suffix):] == suffix] *)
Definition HasSuffix (s suffix : string) : bool :=
  let n := String.length s in
  let m := String.length suffix in
  (m <=? n)%nat && String.eqb (String.substring (n - m) m s) suffix.

(** [strings.Split(s, sep)] for a separator of one byte. *)
Fixpoint Split (s : string) (sep : ascii) : list string :=
  match s with
  | EmptyString => [EmptyString]
  | String c s' =>
      if Ascii.eqb c sep then EmptyString :: Split s' sep
      else match Split s' sep with
           | [] => [String c EmptyString]
           | h :: t => String c h :: t
           end
  end.

(** [strings.Cut(s, sep)]: the text before and after the first [sep]. *)
Fixpoint Cut (s : string) (sep : ascii) : option (string * string) :=
  match s with
  | EmptyString => None
  | String c s' =>
      if Ascii.eqb c sep then Some (EmptyString, s')
      else match Cut s' sep with
           | Some (a, b) => Some (String c a, b)
           | None => None
           end
  end.

(** [strings.SplitN(s, sep, 2)]: one component when [sep] does not occur,
    else the text before the first [sep] and everything after it. *)
Definition SplitN2 (s : string) (sep : ascii) : list string :=
  match Cut s sep with
  | None => [s]
  | Some (a, b) => [a; b]
  end.

(** [name[1:len(name)]] *)
Definition tail (s : string) : string :=
  match s with
  | EmptyString => EmptyString
  | String _ r => r
  end.

(** [strconv.Itoa] *)
Definition Itoa (z : Z) : string := NilZero.string_of_int (Z.to_int z).

End Strings.

(** ** Descriptors (package [descriptor] of golang/protobuf) *)

(** Addresses of message descriptors. *)
Abbreviation ptr := nat (only parsing).

Module EnumValueDescriptorProto.
Record t := mk { Name : option string; Number : option Z }.
End EnumValueDescriptorProto.

Module EnumDescriptorProto.
Record t := mk {
  Name : option string;
  Value : list EnumValueDescriptorProto.t }.
Definition GetName (e : t) : string := default "" (Name e).
End EnumDescriptorProto.

(** [FieldDescriptorProto_Type] and [FieldDescriptorProto_Label] are [int32]
    enumerations; the descriptor stores a pointer to the number. *)
Inductive FieldType :=
  | TYPE_DOUBLE | TYPE_FLOAT | TYPE_INT64 | TYPE_UINT64 | TYPE_INT32
  | TYPE_FIXED64 | TYPE_FIXED32 | TYPE_BOOL | TYPE_STRING | TYPE_GROUP
  | TYPE_MESSAGE | TYPE_BYTES | TYPE_UINT32 | TYPE_ENUM | TYPE_SFIXED32
  | TYPE_SFIXED64 | TYPE_SINT32 | TYPE_SINT64.

Definition FieldType_number (k : FieldType) : Z :=
  match k with
  | TYPE_DOUBLE => 1 | TYPE_FLOAT => 2 | TYPE_INT64 => 3 | TYPE_UINT64 => 4
  | TYPE_INT32 => 5 | TYPE_FIXED64 => 6 | TYPE_FIXED32 => 7 | TYPE_BOOL => 8
  | TYPE_STRING => 9 | TYPE_GROUP => 10 | TYPE_MESSAGE => 11
  | TYPE_BYTES => 12 | TYPE_UINT32 => 13 | TYPE_ENUM => 14
  | TYPE_SFIXED32 => 15 | TYPE_SFIXED64 => 16 | TYPE_SINT32 => 17
  | TYPE_SINT64 => 18
  end%Z.

(** The declared constant a number stands for, if any. *)
Definition FieldType_of_number (n : Z) : option FieldType :=
  match n with
  | 1 => Some TYPE_DOUBLE | 2 => Some TYPE_FLOAT | 3 => Some TYPE_INT64
  | 4 => Some TYPE_UINT64 | 5 => Some TYPE_INT32 | 6 => Some TYPE_FIXED64
  | 7 => Some TYPE_FIXED32 | 8 => Some TYPE_BOOL | 9 => Some TYPE_STRING
  | 10 => Some TYPE_GROUP | 11 => Some TYPE_MESSAGE | 12 => Some TYPE_BYTES
  | 13 => Some TYPE_UINT32 | 14 => Some TYPE_ENUM | 15 => Some TYPE_SFIXED32
  | 16 => Some TYPE_SFIXED64 | 17 => Some TYPE_SINT32
  | 18 => Some TYPE_SINT64
  | _ => None
  end%Z.

Definition LABEL_OPTIONAL : Z := 1.
Definition LABEL_REQUIRED : Z := 2.
Definition LABEL_REPEATED : Z := 3.

Module FieldDescriptorProto.
Record t := mk {
  Name : option string;
  Label : option Z;
  Type_ : option Z;
  TypeName : option string;
  JsonName : option string }.
Definition GetName (d : t) : string := default "" (Name d).
Definition GetLabel (d : t) : Z := default LABEL_OPTIONAL (Label d).
Definition GetType (d : t) : Z :=
  default (FieldType_number TYPE_DOUBLE) (Type_ d).
Definition GetTypeName (d : t) : string := default "" (TypeName d).
Definition GetJsonName (d : t) : string := default "" (JsonName d).
End FieldDescriptorProto.

Module DescriptorProto.
Record t := mk {
  Name : option string;
  Field : list FieldDescriptorProto.t;
  NestedType : list ptr;
  EnumType : list EnumDescriptorProto.t }.
End DescriptorProto.

Module FileDescriptorProto.
Record t := mk {
  Name : option string;
  Package : option string;
  MessageType : list ptr;
  EnumType : list EnumDescriptorProto.t }.
Definition GetName (f : t) : string := default "" (Name f).
Definition GetPackage (f : t) : string := default "" (Package f).
(** [file.EnumType = enums] *)
Definition set_EnumType (f : t) (enums : list EnumDescriptorProto.t) : t :=
  mk (Name f) (Package f) (MessageType f) enums.
End FileDescriptorProto.

(** ** The plugin protocol (package [plugin]) *)

Module CodeGeneratorRequest.
Record t := mk {
  FileToGenerate : list string;
  Parameter_ : option string;
  ProtoFile : list FileDescriptorProto.t }.
Definition GetParameter (r : t) : string := default "" (Parameter_ r).
End CodeGeneratorRequest.

Module CodeGeneratorResponse.
Record File_ := mkFile { Name : string; Content : string }.
Record t := mk { Error : option string; File : list File_ }.
End CodeGeneratorResponse.

(** ** Schema nodes (struct [jsonschema.Type]) *)

(** [Enum []interface{}] receives [*string] and [*int32] values. *)
Inductive EnumLit :=
  | LitName (s : option string)
  | LitNumber (n : option Z).

Inductive jsonschema_Type := mkType {
  Version : string;
  Type_ : string;
  Format : string;
  Enum : list EnumLit;
  OneOf : list jsonschema_Type;
  Items : option jsonschema_Type;
  Properties : gmap string jsonschema_Type;
  AdditionalProperties : string }.

(** [&jsonschema.Type{}] *)
Definition emptyType : jsonschema_Type := mkType "" "" "" [] [] None ∅ "".

(** [&jsonschema.Type{Type: ty}] *)
Definition typeOnly (ty : string) : jsonschema_Type :=
  mkType "" ty "" [] [] None ∅ "".

(** Field assignments. *)
Definition set_Version (v : string) (t : jsonschema_Type) :=
  mkType v (Type_ t) (Format t) (Enum t) (OneOf t) (Items t) (Properties t)
         (AdditionalProperties t).
Definition set_Type (v : string) (t : jsonschema_Type) :=
  mkType (Version t) v (Format t) (Enum t) (OneOf t) (Items t) (Properties t)
         (AdditionalProperties t).
Definition set_Format (v : string) (t : jsonschema_Type) :=
  mkType (Version t) (Type_ t) v (Enum t) (OneOf t) (Items t) (Properties t)
         (AdditionalProperties t).
Definition set_Enum (v : list EnumLit) (t : jsonschema_Type) :=
  mkType (Version t) (Type_ t) (Format t) v (OneOf t) (Items t) (Properties t)
         (AdditionalProperties t).
Definition set_OneOf (v : list jsonschema_Type) (t : jsonschema_Type) :=
  mkType (Version t) (Type_ t) (Format t) (Enum t) v (Items t) (Properties t)
         (AdditionalProperties t).
Definition set_Items (v : option jsonschema_Type) (t : jsonschema_Type) :=
  mkType (Version t) (Type_ t) (Format t) (Enum t) (OneOf t) v (Properties t)
         (AdditionalProperties t).
Definition set_Properties (v : gmap string jsonschema_Type)
    (t : jsonschema_Type) :=
  mkType (Version t) (Type_ t) (Format t) (Enum t) (OneOf t) (Items t) v
         (AdditionalProperties t).
Definition set_AdditionalProperties (v : string) (t : jsonschema_Type) :=
  mkType (Version t) (Type_ t) (Format t) (Enum t) (OneOf t) (Items t)
         (Properties t) v.

(** [jsonschema.Version] and the type names of package [gojsonschema]. *)
Definition jsonschema_Version : string :=
  "http://json-schema.org/draft-04/schema#".
Definition TYPE_ARRAY : string := "array".
Definition TYPE_BOOLEAN : string := "boolean".
Definition TYPE_INTEGER : string := "integer".
Definition TYPE_NUMBER : string := "number".
Definition TYPE_NULL : string := "null".
Definition TYPE_OBJECT : string := "object".
(** [gojsonschema.TYPE_STRING]; the prime tells it from the field type
    [TYPE_STRING] of the descriptors. *)
Definition TYPE_STRING' : string := "string".

(** ** Configuration: the package-level flags *)

Record Config := mkConfig {
  allowNullValues : bool;
  disallowEnumOneOf : bool;
  disallowOneOf : bool;
  disallowAdditionalProperties : bool;
  disallowBigIntsAsStrings : bool;
  debugLogging : bool }.

(** The values [flag.BoolVar] installs. *)
Definition defaultConfig : Config :=
  mkConfig false false false false false false.

(** ** The package registry *)

Module ProtoPackage.
Inductive t := mk {
  name : string;
  children : gmap string t;
  types : gmap string ptr }.
End ProtoPackage.

(** A [*ProtoPackage]: the segments from the node up to the root. *)
Definition PkgRef := list string.

(** The mutable state of the program: the tree below [globalPkg] and the
    message descriptors behind the pointers. *)
Record State := mkState {
  globalPkg : ProtoPackage.t;
  heap : gmap nat DescriptorProto.t }.

(** [globalPkg] as the program initialises it. *)
Definition emptyPkg : ProtoPackage.t := ProtoPackage.mk "" ∅ ∅.

(** ** Outcomes of a call *)

Inductive outcome (A : Type) :=
  | Done (a : A)
  | Panic (msg : string)
  | Diverge.
Arguments Done {A} a.
Arguments Panic {A} msg.
Arguments Diverge {A}.

(** A Go result [(value, error)] of which only one side is meaningful. *)
Inductive result (A : Type) :=
  | Ok (a : A)
  | Err (e : string).
Arguments Ok {A} a.
Arguments Err {A} e.

(** Computations over the state. *)
Definition M (A : Type) : Type := State -> outcome (A * State).

Definition ret {A} (a : A) : M A := fun st => Done (a, st).

Definition bind {A B} (m : M A) (k : A -> M B) : M B :=
  fun st =>
    match m st with
    | Done (a, st') => k a st'
    | Panic msg => Panic msg
    | Diverge => Diverge
    end.

Definition panic {A} (msg : string) : M A := fun _ => Panic msg.

Definition get : M State := fun st => Done (st, st).

Notation "'let*' x ':=' m 'in' k" := (bind m (fun x => k))
  (at level 10, x pattern, m at level 100, k at level 200, only parsing).

(** ** Reading message descriptors through pointers

    The generated getters are safe on a nil receiver. *)

Definition Msg_GetName (h : gmap nat DescriptorProto.t) (p : ptr) : string :=
  match h !! p with
  | Some d => default "" (DescriptorProto.Name d)
  | None => ""
  end.

Definition Msg_GetField (h : gmap nat DescriptorProto.t) (p : ptr)
    : list FieldDescriptorProto.t :=
  match h !! p with
  | Some d => DescriptorProto.Field d
  | None => []
  end.

Definition Msg_GetNestedType (h : gmap nat DescriptorProto.t) (p : ptr)
    : list ptr :=
  match h !! p with
  | Some d => DescriptorProto.NestedType d
  | None => []
  end.

Definition Msg_GetEnumType (h : gmap nat DescriptorProto.t) (p : ptr)
    : list EnumDescriptorProto.t :=
  match h !! p with
  | Some d => DescriptorProto.EnumType d
  | None => []
  end.

(** [p.EnumType = enums] on an allocated descriptor. *)
Definition Msg_set_EnumType (d : DescriptorProto.t)
    (enums : list EnumDescriptorProto.t) : DescriptorProto.t :=
  DescriptorProto.mk (DescriptorProto.Name d) (DescriptorProto.Field d)
                     (DescriptorProto.NestedType d) enums.

Definition nil_dereference : string :=
  "invalid memory address or nil pointer dereference".

(** ** [registerType] *)

(** The loop over the segments of the package name. [atGlobal] is the test
    [pkg == globalPkg]; the node reached at the end receives the message.
    The tree is updated in place in Go; here every node on the way is
    rebuilt around its updated child. *)
Fixpoint registerIn (atGlobal : bool) (pkg : ProtoPackage.t)
    (nodes : list string) (key : string) (msg : ptr) : ProtoPackage.t :=
  match nodes with
  | [] =>
      ProtoPackage.mk (ProtoPackage.name pkg) (ProtoPackage.children pkg)
                      (<[key := msg]> (ProtoPackage.types pkg))
  | node :: rest =>
      if atGlobal && String.eqb node "" then
        (* Skips leading "." *)
        registerIn atGlobal pkg rest key msg
      else
        let child :=
          match ProtoPackage.children pkg !! node with
          | Some child => child
          | None =>
              ProtoPackage.mk (ProtoPackage.name pkg +:+ "." +:+ node) ∅ ∅
          end in
        ProtoPackage.mk (ProtoPackage.name pkg)
          (<[node := registerIn false child rest key msg]>
             (ProtoPackage.children pkg))
          (ProtoPackage.types pkg)
  end.

Definition registerType (pkgName : option string) (msg : ptr) : M unit :=
  fun st =>
    let nodes :=
      match pkgName with
      | Some s => Strings.Split s "."
      | None => []
      end in
    Done (tt, mkState (registerIn true (globalPkg st) nodes
                                  (Msg_GetName (heap st) msg) msg)
                      (heap st)).

(** ** Lookups *)

(** [relativelyLookupNestedType]: the loop over the components. *)
Fixpoint relativelyLookupNestedType_loop (h : gmap nat DescriptorProto.t)
    (desc : ptr) (components : list string) : option ptr :=
  match components with
  | [] => Some desc
  | component :: rest =>
      match List.find (fun nested => String.eqb (Msg_GetName h nested) component)
                      (Msg_GetNestedType h desc) with
      | Some nested => relativelyLookupNestedType_loop h nested rest
      | None => None
      end
  end.

Definition relativelyLookupNestedType (h : gmap nat DescriptorProto.t)
    (desc : ptr) (name : string) : option ptr :=
  relativelyLookupNestedType_loop h desc (Strings.Split name ".").

Definition inspect {A} (a : A) : {b | a = b} := exist _ a eq_refl.

(** Method [relativelyLookupType] of [ProtoPackage]; the recursive call is on the
    text after the first dot. *)
Equations? relativelyLookupType (h : gmap nat DescriptorProto.t)
    (pkg : ProtoPackage.t) (name : string) : option ptr
    by wf (String.length name) lt :=
  relativelyLookupType h pkg name
    with inspect (Strings.SplitN2 name ".") := {
    | exist _ [] _ => None
    | exist _ [c0] _ => ProtoPackage.types pkg !! c0
    | exist _ [c0; c1] Hsplit =>
        match ProtoPackage.children pkg !! c0 with
        | Some child => relativelyLookupType h child c1
        | None =>
            match ProtoPackage.types pkg !! c0 with
            | Some msg => relativelyLookupNestedType h msg c1
            | None => None
            end
        end
    | exist _ _ _ => None }.
Proof.
  clear - Hsplit. unfold Strings.SplitN2 in Hsplit.
  destruct (Strings.Cut name ".") as [[a b]|] eqn:Hcut; [|discriminate].
  injection Hsplit as _ <-. revert a Hcut.
  induction name as [|c s IH]; simpl; intros a Hcut; [discriminate|].
  destruct (Ascii.eqb c "."); [injection Hcut as _ <-; lia|].
  destruct (Strings.Cut s ".") as [[a' b']|]; [|discriminate].
  injection Hcut as _ <-. specialize (IH _ eq_refl). lia.
Qed.

(** The node a [*ProtoPackage] points to. *)
Fixpoint descend (pkg : ProtoPackage.t) (path : list string)
    : option ProtoPackage.t :=
  match path with
  | [] => Some pkg
  | c :: rest =>
      match ProtoPackage.children pkg !! c with
      | Some child => descend child rest
      | None => None
      end
  end.

Definition deref (root : ProtoPackage.t) (pkg : PkgRef)
    : option ProtoPackage.t :=
  descend root (rev pkg).

(** The loop [for ; pkg != nil; pkg = pkg.parent] of [lookupType]. *)
Fixpoint lookupType_loop (st : State) (pkg : PkgRef) (name : string)
    : option ptr :=
  let here :=
    match deref (globalPkg st) pkg with
    | Some node => relativelyLookupType (heap st) node name
    | None => None
    end in
  match here with
  | Some desc => Some desc
  | None =>
      match pkg with
      | [] => None
      | _ :: parent => lookupType_loop st parent name
      end
  end.

Definition lookupType (st : State) (pkg : PkgRef) (name : string)
    : option ptr :=
  if Strings.HasPrefix name "." then
    relativelyLookupType (heap st) (globalPkg st) (Strings.tail name)
  else lookupType_loop st pkg name.

(** Method [relativelyLookupPackage] of [ProtoPackage]; [self] is the
    receiver. *)
Fixpoint relativelyLookupPackage_loop (pkg : ProtoPackage.t) (self : PkgRef)
    (components : list string) : option PkgRef :=
  match components with
  | [] => Some self
  | c :: rest =>
      match ProtoPackage.children pkg !! c with
      | Some child => relativelyLookupPackage_loop child (c :: self) rest
      | None => None
      end
  end.

Definition relativelyLookupPackage (pkg : ProtoPackage.t) (self : PkgRef)
    (name : string) : option PkgRef :=
  relativelyLookupPackage_loop pkg self (Strings.Split name ".").

(** ** The type converter *)

Section Converter.

(** The flags, fixed during a conversion. *)
Variable cfg : Config.

(** [json.MarshalIndent(schema, "", "    ")] of package [encoding/json]. *)
Variable MarshalIndent : jsonschema_Type -> result string.

Definition allowEnumOneOf : bool := negb (disallowEnumOneOf cfg).
Definition allowOneOf : bool := negb (disallowOneOf cfg).

(** The body shared by the cases of [convertField] for double/float, the
    32-bit integers, string/bytes and bool, and by [convertMessageType]. *)
Definition nullableOr (ty : string) (t : jsonschema_Type)
    : jsonschema_Type :=
  if allowNullValues cfg && allowOneOf then
    set_OneOf [typeOnly TYPE_NULL; typeOnly ty] t
  else set_Type ty t.

(** The case of the 64-bit integers. *)
Definition bigInt (t : jsonschema_Type) : jsonschema_Type :=
  if allowOneOf then
    let t := set_OneOf (OneOf t ++ [typeOnly TYPE_INTEGER]) t in
    let t :=
      if negb (disallowBigIntsAsStrings cfg) then
        set_OneOf (OneOf t ++ [typeOnly TYPE_STRING']) t
      else t in
    if allowNullValues cfg then
      set_OneOf (OneOf t ++ [typeOnly TYPE_NULL]) t
    else t
  else set_Type TYPE_INTEGER t.

(** The type of an enum field, before its values are looked up. *)
Definition enumBase (t : jsonschema_Type) : jsonschema_Type :=
  if allowEnumOneOf && allowOneOf then
    let t := set_OneOf (OneOf t ++ [typeOnly TYPE_STRING']) t in
    let t := set_OneOf (OneOf t ++ [typeOnly TYPE_INTEGER]) t in
    if allowNullValues cfg then
      set_OneOf (OneOf t ++ [typeOnly TYPE_NULL]) t
    else t
  else set_Type TYPE_STRING' t.

(** The inner loop over [enumDescriptor.Value], appending to [Enum]. *)
Fixpoint enumValues (values : list EnumValueDescriptorProto.t)
    (acc : list EnumLit) : list EnumLit :=
  match values with
  | [] => acc
  | enumValue :: rest =>
      let acc := acc ++ [LitName (EnumValueDescriptorProto.Name enumValue)] in
      let acc :=
        if allowEnumOneOf then
          acc ++ [LitNumber (EnumValueDescriptorProto.Number enumValue)]
        else acc in
      enumValues rest acc
  end.

(** The loop over [msg.GetEnumType()]; [*enumDescriptor.Name] is read
    only while nothing has been found. *)
Fixpoint enumLoop (typeName : string) (enums : list EnumDescriptorProto.t)
    (foundEnum : bool) (acc : list EnumLit) : outcome (bool * list EnumLit) :=
  match enums with
  | [] => Done (foundEnum, acc)
  | enumDescriptor :: rest =>
      if foundEnum then enumLoop typeName rest foundEnum acc
      else
        match EnumDescriptorProto.Name enumDescriptor with
        | None => Panic nil_dereference
        | Some enumName =>
            if negb (Strings.HasSuffix typeName enumName) then
              enumLoop typeName rest foundEnum acc
            else
              enumLoop typeName rest true
                (enumValues (EnumDescriptorProto.Value enumDescriptor) acc)
        end
  end.

(** The case [TYPE_ENUM]. The warning for a missing enum dereferences
    [desc.Name] and [desc.TypeName]. *)
Definition enumCase (desc : FieldDescriptorProto.t) (msg : ptr)
    (t : jsonschema_Type) : M (result jsonschema_Type) :=
  fun st =>
    let t := enumBase t in
    match enumLoop (FieldDescriptorProto.GetTypeName desc)
                   (Msg_GetEnumType (heap st) msg) false (Enum t) with
    | Done (foundEnum, enum) =>
        let t := set_Enum enum t in
        if foundEnum then Done (Ok t, st)
        else
          match FieldDescriptorProto.Name desc,
                FieldDescriptorProto.TypeName desc with
          | Some _, Some _ => Done (Ok t, st)
          | _, _ => Panic nil_dereference
          end
    | Panic msg => Panic msg
    | Diverge => Diverge
    end.

(** The case of groups and messages. *)
Definition messageCase (desc : FieldDescriptorProto.t)
    (t : jsonschema_Type) : jsonschema_Type :=
  if String.eqb (FieldDescriptorProto.GetTypeName desc)
                ".google.protobuf.Timestamp" then
    set_Format "date-time" (set_Type TYPE_STRING' t)
  else
    let t := set_Type TYPE_OBJECT t in
    if disallowAdditionalProperties cfg then
      set_AdditionalProperties "false" t
    else
      let t :=
        if Z.eqb (FieldDescriptorProto.GetLabel desc) LABEL_OPTIONAL then
          set_AdditionalProperties "true" t
        else t in
      if Z.eqb (FieldDescriptorProto.GetLabel desc) LABEL_REQUIRED then
        set_AdditionalProperties "false" t
      else t.

(** The [switch desc.GetType()] of [convertField]. *)
Definition convertField_switch (desc : FieldDescriptorProto.t) (msg : ptr)
    : M (result jsonschema_Type) :=
  let jsonSchemaType := emptyType in
  match FieldType_of_number (FieldDescriptorProto.GetType desc) with
  | Some (TYPE_DOUBLE | TYPE_FLOAT) =>
      ret (Ok (nullableOr TYPE_NUMBER jsonSchemaType))
  | Some (TYPE_INT32 | TYPE_UINT32 | TYPE_FIXED32 | TYPE_SFIXED32
          | TYPE_SINT32) =>
      ret (Ok (nullableOr TYPE_INTEGER jsonSchemaType))
  | Some (TYPE_INT64 | TYPE_UINT64 | TYPE_FIXED64 | TYPE_SFIXED64
          | TYPE_SINT64) =>
      ret (Ok (bigInt jsonSchemaType))
  | Some (TYPE_STRING | TYPE_BYTES) =>
      ret (Ok (nullableOr TYPE_STRING' jsonSchemaType))
  | Some TYPE_ENUM => enumCase desc msg jsonSchemaType
  | Some TYPE_BOOL => ret (Ok (nullableOr TYPE_BOOLEAN jsonSchemaType))
  | Some (TYPE_GROUP | TYPE_MESSAGE) =>
      ret (Ok (messageCase desc jsonSchemaType))
  | None =>
      ret (Err ("unrecognized field type: "
                +:+ Strings.Itoa (FieldDescriptorProto.GetType desc)))
  end.

(** "Recurse array of primitive types": the block entered when the label
    is repeated and the type is not object. *)
Definition repeatedCase (t : jsonschema_Type) : jsonschema_Type :=
  let items := emptyType in
  let '(items, t) :=
    if (0 <? length (Enum t))%nat then
      let items := set_Enum (Enum t) items in
      let t := set_Enum [] t in
      if allowEnumOneOf && allowOneOf then (set_OneOf (OneOf t) items, t)
      else (set_Type (Type_ t) items, t)
    else
      (set_OneOf (OneOf t) (set_Type (Type_ t) items), t) in
  let t := set_Items (Some items) t in
  if allowNullValues cfg && allowOneOf then
    set_OneOf [typeOnly TYPE_NULL; typeOnly TYPE_ARRAY] t
  else set_OneOf [] (set_Type TYPE_ARRAY t).

(** The enrichment of the resolved message: when it has no enums of its
    own it receives those of the enclosing message. Both descriptors are
    accessed by field, not through a getter. *)
Definition enrich (recordType msg : ptr) : M unit :=
  fun st =>
    match heap st !! recordType with
    | None => Panic nil_dereference
    | Some r =>
        if (length (DescriptorProto.EnumType r) =? 0)%nat then
          match heap st !! msg with
          | None => Panic nil_dereference
          | Some m =>
              Done (tt, mkState (globalPkg st)
                          (<[recordType :=
                               Msg_set_EnumType r
                                 (DescriptorProto.EnumType r
                                  ++ DescriptorProto.EnumType m)]>
                             (heap st)))
          end
        else Done (tt, st)
    end.

(** [convertField], with the recursive call to [convertMessageType] kept
    as the argument [convertMessageType_rec]. *)
Definition convertField_with
    (convertMessageType_rec :
       PkgRef -> ptr -> M (jsonschema_Type * option string))
    (curPkg : PkgRef) (desc : FieldDescriptorProto.t) (msg : ptr)
    : M (result jsonschema_Type) :=
  let* r := convertField_switch desc msg in
  match r with
  | Err e => ret (Err e)
  | Ok jsonSchemaType =>
      if Z.eqb (FieldDescriptorProto.GetLabel desc) LABEL_REPEATED
         && negb (String.eqb (Type_ jsonSchemaType) TYPE_OBJECT) then
        ret (Ok (repeatedCase jsonSchemaType))
      else if String.eqb (Type_ jsonSchemaType) TYPE_OBJECT then
        let* st := get in
        match lookupType st curPkg (FieldDescriptorProto.GetTypeName desc)
        with
        | None =>
            ret (Err ("no such message type named "
                      +:+ FieldDescriptorProto.GetTypeName desc))
        | Some recordType =>
            let* _ := enrich recordType msg in
            let* (recursedJSONSchemaType, err) :=
               convertMessageType_rec curPkg recordType in
            match err with
            | Some e => ret (Err e)
            | None =>
                let t :=
                  if Z.eqb (FieldDescriptorProto.GetLabel desc)
                           LABEL_REPEATED then
                    set_Type TYPE_ARRAY
                      (set_Items (Some recursedJSONSchemaType)
                                 jsonSchemaType)
                  else
                    set_Properties (Properties recursedJSONSchemaType)
                                   jsonSchemaType in
                let t :=
                  if allowNullValues cfg && allowOneOf then
                    set_Type ""
                      (set_OneOf [typeOnly TYPE_NULL; typeOnly (Type_ t)] t)
                  else t in
                ret (Ok t)
            end
        end
      else ret (Ok jsonSchemaType)
  end.

(** The loop over [msg.GetField()] of [convertMessageType]. *)
Fixpoint fieldLoop
    (convert1 : FieldDescriptorProto.t -> M (result jsonschema_Type))
    (fields : list FieldDescriptorProto.t) (jsonSchemaType : jsonschema_Type)
    : M (jsonschema_Type * option string) :=
  match fields with
  | [] => ret (jsonSchemaType, None)
  | fieldDesc :: rest =>
      let* r := convert1 fieldDesc in
      match r with
      | Err err => ret (jsonSchemaType, Some err)
      | Ok recursedJSONSchemaType =>
          fieldLoop convert1 rest
            (set_Properties
               (<[FieldDescriptorProto.GetJsonName fieldDesc :=
                    recursedJSONSchemaType]> (Properties jsonSchemaType))
               jsonSchemaType)
      end
  end.

(** The node [convertMessageType] starts from. *)
Definition messageBase : jsonschema_Type :=
  let t := set_Version jsonschema_Version emptyType in
  let t := nullableOr TYPE_OBJECT t in
  if disallowAdditionalProperties cfg then
    set_AdditionalProperties "false" t
  else set_AdditionalProperties "true" t.

(** [convertMessageType]. The recursion through [convertField] follows
    the references between message types, which may be cyclic: [fuel]
    bounds the depth of the calls, and running out of it is [Diverge]. *)
Fixpoint convertMessageType (fuel : nat) (curPkg : PkgRef) (msg : ptr)
    : M (jsonschema_Type * option string) :=
  match fuel with
  | O => fun _ => Diverge
  | S fuel' =>
      let* st := get in
      fieldLoop
        (fun fieldDesc =>
           convertField_with (convertMessageType fuel') curPkg fieldDesc msg)
        (Msg_GetField (heap st) msg) messageBase
  end.

(** [convertField]: the calls it makes to [convertMessageType] have
    [fuel] levels to complete. *)
Definition convertField (fuel : nat) (curPkg : PkgRef)
    (desc : FieldDescriptorProto.t) (msg : ptr)
    : M (result jsonschema_Type) :=
  convertField_with (convertMessageType fuel) curPkg desc msg.

(** The loop over [enum.Value] of [convertEnumType]. *)
Fixpoint enumTypeValues (values : list EnumValueDescriptorProto.t)
    (acc : list EnumLit) : list EnumLit :=
  match values with
  | [] => acc
  | enumValue :: rest =>
      let acc := acc ++ [LitName (EnumValueDescriptorProto.Name enumValue)] in
      let acc :=
        if allowEnumOneOf && allowOneOf then
          acc ++ [LitNumber (EnumValueDescriptorProto.Number enumValue)]
        else acc in
      enumTypeValues rest acc
  end.

(** [convertEnumType]; its error is always nil. *)
Definition convertEnumType (enum : EnumDescriptorProto.t)
    : jsonschema_Type * option string :=
  let t := set_Version jsonschema_Version (mkType "" "" "" [] [] None ∅ "") in
  let t :=
    if allowEnumOneOf && allowOneOf then
      let t := set_OneOf (OneOf t ++ [typeOnly "string"]) t in
      set_OneOf (OneOf t ++ [typeOnly "integer"]) t
    else set_Type TYPE_STRING' t in
  (set_Enum (enumTypeValues (EnumDescriptorProto.Value enum) (Enum t)) t,
   None).

(** ** The file converter *)

(** The loop of [convertFile] over the enums of a file without
    messages. *)
Fixpoint convertFile_enums (enums : list EnumDescriptorProto.t)
    (response : list CodeGeneratorResponse.File_)
    : result (list CodeGeneratorResponse.File_) :=
  match enums with
  | [] => Ok response
  | enum :: rest =>
      let jsonSchemaFileName :=
        EnumDescriptorProto.GetName enum +:+ ".jsonschema" in
      match convertEnumType enum with
      | (_, Some err) => Err err
      | (enumJsonSchema, None) =>
          match MarshalIndent enumJsonSchema with
          | Err err => Err err
          | Ok jsonSchemaJSON =>
              convertFile_enums rest
                (response ++ [CodeGeneratorResponse.mkFile
                                jsonSchemaFileName jsonSchemaJSON])
          end
      end
  end.

(** [for _, v := range file.EnumType { msg.EnumType = append(...) }]:
    the message is dereferenced once per enum of the file. *)
Definition injectEnums (msg : ptr) (enums : list EnumDescriptorProto.t)
    : M unit :=
  fun st =>
    match enums with
    | [] => Done (tt, st)
    | _ :: _ =>
        match heap st !! msg with
        | None => Panic nil_dereference
        | Some m =>
            Done (tt, mkState (globalPkg st)
                        (<[msg := Msg_set_EnumType m
                                    (DescriptorProto.EnumType m ++ enums)]>
                           (heap st)))
        end
    end.

(** The loop of [convertFile] over the messages of a file. *)
Fixpoint convertFile_messages (fuel : nat) (pkg : PkgRef)
    (file : FileDescriptorProto.t) (msgs : list ptr)
    (response : list CodeGeneratorResponse.File_)
    : M (result (list CodeGeneratorResponse.File_)) :=
  match msgs with
  | [] => ret (Ok response)
  | msg :: rest =>
      let* st := get in
      let jsonSchemaFileName := Msg_GetName (heap st) msg +:+ ".jsonschema" in
      let* _ := injectEnums msg (FileDescriptorProto.EnumType file) in
      let* (messageJSONSchema, err) := convertMessageType fuel pkg msg in
      match err with
      | Some e => ret (Err e)
      | None =>
          match MarshalIndent messageJSONSchema with
          | Err e => ret (Err e)
          | Ok jsonSchemaJSON =>
              convertFile_messages fuel pkg file rest
                (response ++ [CodeGeneratorResponse.mkFile
                                jsonSchemaFileName jsonSchemaJSON])
          end
      end
  end.

(** [convertFile] *)
Definition convertFile (fuel : nat) (file : FileDescriptorProto.t)
    : M (result (list CodeGeneratorResponse.File_)) :=
  if (length (FileDescriptorProto.MessageType file) =? 0)%nat then
    ret (convertFile_enums (FileDescriptorProto.EnumType file) [])
  else
    let* st := get in
    match relativelyLookupPackage (globalPkg st) []
                                  (FileDescriptorProto.GetPackage file) with
    | None =>
        ret (Err ("no such package found: "
                  +:+ FileDescriptorProto.GetPackage file))
    | Some pkg =>
        convertFile_messages fuel pkg file
          (FileDescriptorProto.MessageType file) []
    end.

(** ** The session driver *)

(** [generateTargets] *)
Definition generateTargets (req : CodeGeneratorRequest.t)
    : gmap string bool :=
  foldl (fun targets file => <[file := true]> targets) ∅
        (CodeGeneratorRequest.FileToGenerate req).

(** The inner loop of the first pass: the messages of one file. *)
Fixpoint registerMessages (pkgName : option string) (msgs : list ptr)
    : M unit :=
  match msgs with
  | [] => ret tt
  | msg :: rest =>
      let* _ := registerType pkgName msg in
      registerMessages pkgName rest
  end.

(** The first pass of [convert]: every message is registered and every
    enum of every file is gathered. *)
Fixpoint loadFiles (files : list FileDescriptorProto.t)
    (enumDescriptors : list EnumDescriptorProto.t)
    : M (list EnumDescriptorProto.t) :=
  match files with
  | [] => ret enumDescriptors
  | file :: rest =>
      let* _ := registerMessages (FileDescriptorProto.Package file)
                                 (FileDescriptorProto.MessageType file) in
      loadFiles rest (enumDescriptors ++ FileDescriptorProto.EnumType file)
  end.

(** The second pass of [convert]. *)
Fixpoint convertFiles (fuel : nat) (targets : gmap string bool)
    (enumDescriptors : list EnumDescriptorProto.t)
    (files : list FileDescriptorProto.t) (res : CodeGeneratorResponse.t)
    : M (CodeGeneratorResponse.t * option string) :=
  match files with
  | [] => ret (res, None)
  | file :: rest =>
      match targets !! FileDescriptorProto.GetName file with
      | Some _ =>
          (* Swapparoo *)
          let file := FileDescriptorProto.set_EnumType file enumDescriptors in
          let* r := convertFile fuel file in
          match r with
          | Err err =>
              ret (CodeGeneratorResponse.mk
                     (Some ("Failed to convert "
                            +:+ FileDescriptorProto.GetName file
                            +:+ ": " +:+ err))
                     (CodeGeneratorResponse.File res),
                   Some err)
          | Ok converted =>
              convertFiles fuel targets enumDescriptors rest
                (CodeGeneratorResponse.mk
                   (CodeGeneratorResponse.Error res)
                   (CodeGeneratorResponse.File res ++ converted))
          end
      | None => convertFiles fuel targets enumDescriptors rest res
      end
  end.

(** [convert] *)
Definition convert (fuel : nat) (req : CodeGeneratorRequest.t)
    : M (CodeGeneratorResponse.t * option string) :=
  let res := CodeGeneratorResponse.mk None [] in
  let* enumDescriptors := loadFiles (CodeGeneratorRequest.ProtoFile req) [] in
  convertFiles fuel (generateTargets req) enumDescriptors
               (CodeGeneratorRequest.ProtoFile req) res.

End Converter.

(** ** Configuration from the parameter string *)

Definition set_allowNullValues (c : Config) : Config :=
  mkConfig true (disallowEnumOneOf c) (disallowOneOf c)
           (disallowAdditionalProperties c) (disallowBigIntsAsStrings c)
           (debugLogging c).
Definition set_debugLogging (c : Config) : Config :=
  mkConfig (allowNullValues c) (disallowEnumOneOf c) (disallowOneOf c)
           (disallowAdditionalProperties c) (disallowBigIntsAsStrings c) true.
Definition set_disallowEnumOneOf (c : Config) : Config :=
  mkConfig (allowNullValues c) true (disallowOneOf c)
           (disallowAdditionalProperties c) (disallowBigIntsAsStrings c)
           (debugLogging c).
Definition set_disallowOneOf (c : Config) : Config :=
  mkConfig (allowNullValues c) (disallowEnumOneOf c) true
           (disallowAdditionalProperties c) (disallowBigIntsAsStrings c)
           (debugLogging c).
Definition set_disallowAdditionalProperties (c : Config) : Config :=
  mkConfig (allowNullValues c) (disallowEnumOneOf c) (disallowOneOf c) true
           (disallowBigIntsAsStrings c) (debugLogging c).
Definition set_disallowBigIntsAsStrings (c : Config) : Config :=
  mkConfig (allowNullValues c) (disallowEnumOneOf c) (disallowOneOf c)
           (disallowAdditionalProperties c) true (debugLogging c).

Definition both_flags_panic : string :=
  "flags 'allow_null_values' and 'disallow_one_of' cannot both be on".

(** The loop of [commandLineParameter] over the split parameters, on the
    flags as they stand. *)
Fixpoint commandLineParameter_loop (parameters : list string) (c : Config)
    : outcome Config :=
  match parameters with
  | [] => Done c
  | parameter :: rest =>
      if String.eqb parameter "allow_null_values" then
        commandLineParameter_loop rest (set_allowNullValues c)
      else if String.eqb parameter "debug" then
        commandLineParameter_loop rest (set_debugLogging c)
      else if String.eqb parameter "disallow_enum_one_of" then
        commandLineParameter_loop rest (set_disallowEnumOneOf c)
      else if String.eqb parameter "disallow_one_of" then
        if allowNullValues c then Panic both_flags_panic
        else commandLineParameter_loop rest (set_disallowOneOf c)
      else if String.eqb parameter "disallow_additional_properties" then
        commandLineParameter_loop rest (set_disallowAdditionalProperties c)
      else if String.eqb parameter "disallow_bigints_as_strings" then
        commandLineParameter_loop rest (set_disallowBigIntsAsStrings c)
      else commandLineParameter_loop rest c
  end.

Definition commandLineParameter (parameters : string) (c : Config)
    : outcome Config :=
  commandLineParameter_loop (Strings.Split parameters ",") c.

(** [convertFrom], from the unmarshalled request on: the flags are
    resolved, then the request is converted. *)
Definition convertFrom (MarshalIndent : jsonschema_Type -> result string)
    (fuel : nat) (req : CodeGeneratorRequest.t) (c : Config) (st : State)
    : outcome (CodeGeneratorResponse.t * option string * State) :=
  match commandLineParameter (CodeGeneratorRequest.GetParameter req) c with
  | Done c' => convert c' MarshalIndent fuel req st
  | Panic msg => Panic msg
  | Diverge => Diverge
  end.

(** * Statements: vocabulary and inputs *)

(** ** Reading the outcome of a call *)

(** The schema a call returned, if it returned one. *)
Definition schemaOf {S : Type} (o : outcome (result jsonschema_Type * S))
    : option jsonschema_Type :=
  match o with
  | Done (Ok t, _) => Some t
  | _ => None
  end.

(** The state a call left behind, if it returned. *)
Definition stateOf {A : Type} (o : outcome (A * State)) : option State :=
  match o with
  | Done (_, st) => Some st
  | _ => None
  end.

(** The response a session returned, if it returned. *)
Definition responseOf {S : Type}
    (o : outcome (CodeGeneratorResponse.t * option string * S))
    : option CodeGeneratorResponse.t :=
  match o with
  | Done (res, _, _) => Some res
  | _ => None
  end.

(** What a call returned, or [d] when it did not return. *)
Definition outcomeOr {A : Type} (d : A) (o : outcome A) : A :=
  match o with
  | Done a => a
  | _ => d
  end.


(** ** Vocabulary of the statements *)

(** The scalar kinds that are not 64-bit integers, with the JSON type the
    table of the specification gives them. *)
Definition scalarType (k : FieldType) : option string :=
  match k with
  | TYPE_DOUBLE | TYPE_FLOAT => Some "number"
  | TYPE_INT32 | TYPE_UINT32 | TYPE_FIXED32 | TYPE_SFIXED32 | TYPE_SINT32 =>
      Some "integer"
  | TYPE_STRING | TYPE_BYTES => Some "string"
  | TYPE_BOOL => Some "boolean"
  | _ => None
  end.

(** The 64-bit integer family. *)
Definition is64 (k : FieldType) : bool :=
  match k with
  | TYPE_INT64 | TYPE_UINT64 | TYPE_FIXED64 | TYPE_SFIXED64 | TYPE_SINT64 =>
      true
  | _ => false
  end.

(** The node that describes one value of the field: the returned node, or
    the items node of the returned array when the field is repeated. *)
Definition valueNode (desc : FieldDescriptorProto.t) (t : jsonschema_Type)
    : option jsonschema_Type :=
  if Z.eqb (FieldDescriptorProto.GetLabel desc) LABEL_REPEATED then Items t
  else Some t.

(** The members of the union of a 64-bit integer, in the words of the
    specification: integer, plus string unless [disallow_bigints_as_strings],
    plus null if nullable. *)
Definition bigIntMembers (cfg : Config) : list jsonschema_Type :=
  [typeOnly "integer"]
  ++ (if disallowBigIntsAsStrings cfg then [] else [typeOnly "string"])
  ++ (if allowNullValues cfg then [typeOnly "null"] else []).

(** The schema of a 64-bit integer: the union, or a bare integer when
    one-of is disabled. *)
Definition bigIntSchema (cfg : Config) : jsonschema_Type :=
  if disallowOneOf cfg then typeOnly "integer"
  else set_OneOf (bigIntMembers cfg) emptyType.

(** The allowed values of an enum as (name, number) pairs, and as names. *)
Definition enumPairs (values : list EnumValueDescriptorProto.t)
    : list EnumLit :=
  flat_map (fun v => [LitName (EnumValueDescriptorProto.Name v);
                      LitNumber (EnumValueDescriptorProto.Number v)]) values.

Definition enumNames (values : list EnumValueDescriptorProto.t)
    : list EnumLit :=
  List.map (fun v => LitName (EnumValueDescriptorProto.Name v)) values.

(** [e] is the first enum of [enums] whose name is a suffix of [typeName];
    the enums before it are named and do not match. *)
Definition firstMatch (typeName : string)
    (enums : list EnumDescriptorProto.t) (e : EnumDescriptorProto.t) : Prop :=
  exists pre post,
    enums = pre ++ e :: post
    /\ Forall (fun e' => exists n, EnumDescriptorProto.Name e' = Some n
                                   /\ Strings.HasSuffix typeName n = false) pre
    /\ exists n, EnumDescriptorProto.Name e = Some n
                 /\ Strings.HasSuffix typeName n = true.

(** A node carries at most one of a scalar type and a one-of union. *)
Definition atMostOne (t : jsonschema_Type) : Prop :=
  OneOf t = [] \/ Type_ t = "".

(** The target list names [file]. *)
Definition targeted (targets : list string) (file : FileDescriptorProto.t)
    : bool :=
  bool_decide (FileDescriptorProto.GetName file ∈ targets).

(** The files of the forest that the target list names, in the order of
    the forest, each with its enum list replaced by [enums]. *)
Definition targetedFiles (req : CodeGeneratorRequest.t)
    (enums : list EnumDescriptorProto.t) : list FileDescriptorProto.t :=
  List.map (fun file => FileDescriptorProto.set_EnumType file enums)
    (List.filter (targeted (CodeGeneratorRequest.FileToGenerate req))
                 (CodeGeneratorRequest.ProtoFile req)).

(** The same selection, made as the second pass of [convert] makes it:
    by looking the name up in the map of targets. *)
Definition picked (targets : gmap string bool)
    (enums : list EnumDescriptorProto.t)
    (files : list FileDescriptorProto.t) : list FileDescriptorProto.t :=
  List.map (fun file => FileDescriptorProto.set_EnumType file enums)
    (List.filter
       (fun file => match targets !! FileDescriptorProto.GetName file with
                    | Some _ => true
                    | None => false
                    end) files).

(** [convertsAll st files outs st']: converting [files] one after the
    other from [st] succeeds for each of them, yields the documents [outs]
    file by file and ends in [st']. *)
Inductive convertsAll (cfg : Config)
    (MarshalIndent : jsonschema_Type -> result string) (fuel : nat)
    : State -> list FileDescriptorProto.t
      -> list (list CodeGeneratorResponse.File_) -> State -> Prop :=
  | convertsAll_nil st : convertsAll cfg MarshalIndent fuel st [] [] st
  | convertsAll_cons st file files docs outs st1 st' :
      convertFile cfg MarshalIndent fuel file st = Done (Ok docs, st1) ->
      convertsAll cfg MarshalIndent fuel st1 files outs st' ->
      convertsAll cfg MarshalIndent fuel st (file :: files) (docs :: outs) st'.

(** The state after the first pass of [convert]. *)
Definition loaded (req : CodeGeneratorRequest.t) (st : State) : State :=
  match loadFiles (CodeGeneratorRequest.ProtoFile req) [] st with
  | Done (_, st1) => st1
  | _ => st
  end.

(** The enums the first pass gathers. *)
Definition allEnums (req : CodeGeneratorRequest.t)
    : list EnumDescriptorProto.t :=
  flat_map FileDescriptorProto.EnumType (CodeGeneratorRequest.ProtoFile req).

(** The files named [n] among those a session converts. *)
Definition convertedNamed (n : string) (req : CodeGeneratorRequest.t)
    (enums : list EnumDescriptorProto.t) : list FileDescriptorProto.t :=
  List.filter (fun file => String.eqb (FileDescriptorProto.GetName file) n)
              (targetedFiles req enums).


(** [refines o1 o2]: [o1] ran out of fuel, or it is [o2]. *)
Definition refines {A : Type} (o1 o2 : outcome A) : Prop :=
  o1 = Diverge \/ o1 = o2.

(** ** Inputs of the examples *)

(** A field of a given kind and label, as [protoc] emits it. *)
Definition sampleField (name : string) (label : Z) (k : FieldType)
    (typeName : option string) : FieldDescriptorProto.t :=
  FieldDescriptorProto.mk (Some name) (Some label) (Some (FieldType_number k))
                          typeName (Some name).

(** The state of a program that has loaded nothing. *)
Definition emptyState : State := mkState emptyPkg ∅.

(** An enum value, the enum [Choice] and a message that declares it. *)
Definition sampleValue (name : string) (number : Z)
    : EnumValueDescriptorProto.t :=
  EnumValueDescriptorProto.mk (Some name) (Some number).

Definition sampleChoice : EnumDescriptorProto.t :=
  EnumDescriptorProto.mk (Some "Choice")
    [sampleValue "FOO" 0; sampleValue "BAR" 1].

Definition sampleEnumState : State :=
  mkState emptyPkg
    {[ 1%nat := DescriptorProto.mk (Some "Holder") [] [] [sampleChoice] ]}.

(** A stand-in for [json.MarshalIndent] to run the examples with: it
    writes the type tag of the root and never fails. *)
Definition sampleMarshal (t : jsonschema_Type) : result string :=
  Ok ("{type: " +:+ Type_ t +:+ "}").

(** Two files of package [p], each with one message without fields; the
    target list names them in the opposite order. *)
Definition orderState : State :=
  mkState emptyPkg
    {[ 1%nat := DescriptorProto.mk (Some "MA") [] [] [];
       2%nat := DescriptorProto.mk (Some "MB") [] [] [] ]}.

Definition orderRequest : CodeGeneratorRequest.t :=
  CodeGeneratorRequest.mk ["b.proto"; "a.proto"] None
    [FileDescriptorProto.mk (Some "a.proto") (Some "p") [1%nat] [];
     FileDescriptorProto.mk (Some "b.proto") (Some "p") [2%nat] []].

(** An enum-only file followed by a file whose message has no package,
    which [convertFile] rejects. *)
Definition partialState : State :=
  mkState emptyPkg {[ 1%nat := DescriptorProto.mk (Some "M") [] [] [] ]}.

Definition partialRequest : CodeGeneratorRequest.t :=
  CodeGeneratorRequest.mk ["e.proto"; "m.proto"] None
    [FileDescriptorProto.mk (Some "e.proto") (Some "p") []
       [EnumDescriptorProto.mk (Some "Color") [sampleValue "RED" 0]];
     FileDescriptorProto.mk (Some "m.proto") None [1%nat] []].

(** A file of package [p] with two messages: [Outer] declares the enum
    [Choice] and has a field of type [Inner]; [Inner] declares no enum and
    has a field whose type name ends in [Choice]. *)
Definition leakRequest : CodeGeneratorRequest.t :=
  CodeGeneratorRequest.mk ["x.proto"] None
    [FileDescriptorProto.mk (Some "x.proto") (Some "p") [1%nat; 2%nat] []].

Definition leakInner : DescriptorProto.t :=
  DescriptorProto.mk (Some "Inner")
    [sampleField "choice" LABEL_OPTIONAL TYPE_ENUM (Some ".p.Outer.Choice")]
    [] [].

Definition leakOuter : DescriptorProto.t :=
  DescriptorProto.mk (Some "Outer")
    [sampleField "inner" LABEL_OPTIONAL TYPE_MESSAGE (Some ".p.Inner")]
    [] [sampleChoice].

(** The state once the messages are registered. *)
Definition leakState : State :=
  loaded leakRequest
         (mkState emptyPkg {[ 1%nat := leakOuter; 2%nat := leakInner ]}).

(** The state after [Outer] has been converted. *)
Definition leakAfter : State :=
  default leakState
          (stateOf (convertMessageType defaultConfig 2 ["p"] 1 leakState)).

(** ** Vocabulary of the further statements *)

(** [s] holds no dot. *)
Fixpoint noDot (s : string) : bool :=
  match s with
  | EmptyString => true
  | String c s' => negb (Ascii.eqb c ".") && noDot s'
  end.

(** [strings.Join(elems, sep)] *)
Fixpoint Join (elems : list string) (sep : string) : string :=
  match elems with
  | [] => ""
  | [e] => e
  | e :: rest => e +:+ sep +:+ Join rest sep
  end.

(** [s] can be a segment of a package name: it is not empty and holds no
    dot. *)
Definition isSegment (s : string) : bool :=
  noDot s && negb (String.eqb s "").

(** The registry has no package with the empty name below the root. *)
Definition rootClean (pkg : ProtoPackage.t) : Prop :=
  ProtoPackage.children pkg !! "" = None.

(** The schema of a standalone enum, in closed form: the union of string
    and integer over the (name, number) pairs when enum-one-of and one-of
    are both enabled, the bare string over the names otherwise. *)
Definition enumSchema (cfg : Config) (enum : EnumDescriptorProto.t)
    : jsonschema_Type :=
  if negb (disallowEnumOneOf cfg) && negb (disallowOneOf cfg) then
    mkType jsonschema_Version "" ""
           (enumPairs (EnumDescriptorProto.Value enum))
           [typeOnly "string"; typeOnly "integer"] None ∅ ""
  else
    mkType jsonschema_Version "string" ""
           (enumNames (EnumDescriptorProto.Value enum)) [] None ∅ "".

(** The document of an enum whose schema serialises to [content]. *)
Definition enumDocument (enum : EnumDescriptorProto.t) (content : string)
    : CodeGeneratorResponse.File_ :=
  CodeGeneratorResponse.mkFile
    (EnumDescriptorProto.GetName enum +:+ ".jsonschema") content.

(** No enum of [enums] has a name that [typeName] ends with; all of them
    are named. *)
Definition noMatch (typeName : string) (enums : list EnumDescriptorProto.t)
    : Prop :=
  Forall (fun e => exists n, EnumDescriptorProto.Name e = Some n
                             /\ Strings.HasSuffix typeName n = false) enums.

(** A message with the nested type [Inner]. *)
Definition nestedState : State :=
  mkState emptyPkg
    {[ 1%nat := DescriptorProto.mk (Some "Outer") [] [2%nat] [];
       2%nat := DescriptorProto.mk (Some "Inner") [] [] [] ]}.

(** The additional-properties marker [convertField] gives a field of a
    message type: forced by [disallow_additional_properties], else taken
    from the label, and absent for a repeated field. *)
Definition fieldAdditionalProperties (cfg : Config)
    (desc : FieldDescriptorProto.t) : string :=
  if disallowAdditionalProperties cfg then "false"
  else if Z.eqb (FieldDescriptorProto.GetLabel desc) LABEL_REQUIRED then "false"
  else if Z.eqb (FieldDescriptorProto.GetLabel desc) LABEL_OPTIONAL then "true"
  else "".

(** The JSON names of the fields of a message. *)
Definition jsonNames (fields : list FieldDescriptorProto.t) : gset string :=
  list_to_set (List.map FieldDescriptorProto.GetJsonName fields).

(** Two messages and a field of the first that refers to the second. *)
Definition nestingState : State :=
  loaded leakRequest
         (mkState emptyPkg
            {[ 1%nat := DescriptorProto.mk (Some "Outer")
                          [sampleField "inner" LABEL_REQUIRED TYPE_MESSAGE
                                       (Some ".p.Inner")] [] [];
               2%nat := DescriptorProto.mk (Some "Inner")
                          [sampleField "count" LABEL_OPTIONAL TYPE_INT32 None]
                          [] [] ]}).

(** The state after the field [inner] of [Outer] has enriched [Inner],
    and what the conversion of [Inner] returns from there. *)
Definition nestingEnriched : State :=
  snd (outcomeOr (tt, nestingState) (enrich 2 1 nestingState)).

Definition nestingTarget : jsonschema_Type * option string * State :=
  outcomeOr (emptyType, None, nestingState)
            (convertMessageType defaultConfig 1 ["p"] 2 nestingEnriched).

(** Two descriptors differ at most in their enum lists. *)
Definition sameShape (d d' : DescriptorProto.t) : Prop :=
  DescriptorProto.Name d = DescriptorProto.Name d'
  /\ DescriptorProto.Field d = DescriptorProto.Field d'
  /\ DescriptorProto.NestedType d = DescriptorProto.NestedType d'.

(** [frame st st']: the same addresses are allocated in both states, and
    the descriptors behind them differ at most in their enum lists. *)
Definition frame (st st' : State) : Prop :=
  forall p : ptr,
    match heap st !! p, heap st' !! p with
    | Some d, Some d' => sameShape d d'
    | None, None => True
    | _, _ => False
    end.

(** The name of the document of a message. *)
Definition messageDocumentName (st : State) (msg : ptr) : string :=
  Msg_GetName (heap st) msg +:+ ".jsonschema".

(** [flag] is one of the parameters of the list. *)
Definition given (flag : string) (parameters : list string) : bool :=
  existsb (String.eqb flag) parameters.

(** The flags after the parameters of the list have all been applied to
    [c]: each one is on when it was on in [c] or its name is given. *)
Definition flagsAfter (parameters : list string) (c : Config) : Config :=
  mkConfig
    (allowNullValues c || given "allow_null_values" parameters)
    (disallowEnumOneOf c || given "disallow_enum_one_of" parameters)
    (disallowOneOf c || given "disallow_one_of" parameters)
    (disallowAdditionalProperties c
     || given "disallow_additional_properties" parameters)
    (disallowBigIntsAsStrings c
     || given "disallow_bigints_as_strings" parameters)
    (debugLogging c || given "debug" parameters).

(** [disallow_one_of] is given at a place where null values are already
    allowed: by [c], or by a parameter before it. *)
Definition conflicting (parameters : list string) (c : Config) : Prop :=
  exists before after : list string,
    parameters = before ++ "disallow_one_of" :: after
    /\ (allowNullValues c = true \/ In "allow_null_values" before).

(** The parameters [commandLineParameter] acts on. *)
Definition isFlag (parameter : string) : bool :=
  String.eqb parameter "allow_null_values"
  || String.eqb parameter "debug"
  || String.eqb parameter "disallow_enum_one_of"
  || String.eqb parameter "disallow_one_of"
  || String.eqb parameter "disallow_additional_properties"
  || String.eqb parameter "disallow_bigints_as_strings".

(** The field takes the message branch of [convertField]: a group or a
    message other than the timestamp. *)
Definition isMessageField (f : FieldDescriptorProto.t) : bool :=
  match FieldType_of_number (FieldDescriptorProto.GetType f) with
  | Some (TYPE_GROUP | TYPE_MESSAGE) =>
      negb (String.eqb (FieldDescriptorProto.GetTypeName f)
                       ".google.protobuf.Timestamp")
  | _ => false
  end.

(** Some field of [msg] is a message field whose type resolves, from
    [curPkg], to a member of [group]. *)
Definition refersInto (st : State) (curPkg : PkgRef) (group : list ptr)
    (msg : ptr) : bool :=
  existsb
    (fun f =>
       isMessageField f
       && match lookupType st curPkg (FieldDescriptorProto.GetTypeName f) with
          | Some target => existsb (Nat.eqb target) group
          | None => false
          end)
    (Msg_GetField (heap st) msg).

(** Every message of [group] refers into [group]: the references between
    them never reach a message without such a field. *)
Definition closedGroup (st : State) (curPkg : PkgRef) (group : list ptr)
    : bool :=
  forallb (refersInto st curPkg group) group.

(** A message with a field of its own type. *)
Definition selfState : State :=
  loaded (CodeGeneratorRequest.mk [] None
            [FileDescriptorProto.mk (Some "tree.proto") (Some "p")
                                    [1%nat] []])
         (mkState emptyPkg
            {[ 1%nat := DescriptorProto.mk (Some "Tree")
                          [sampleField "label" LABEL_OPTIONAL TYPE_STRING None;
                           sampleField "left" LABEL_OPTIONAL TYPE_MESSAGE
                                       (Some ".p.Tree")] [] [] ]}).

(** [convert1] never returns a schema for a message field [f] whose type
    resolves into [group], from a state in which the group is closed. *)
Definition blocked (curPkg : PkgRef) (group : list ptr)
    (convert1 : FieldDescriptorProto.t -> M (result jsonschema_Type))
    (f : FieldDescriptorProto.t) : Prop :=
  forall st t st',
    closedGroup st curPkg group = true ->
    isMessageField f
    && match lookupType st curPkg (FieldDescriptorProto.GetTypeName f) with
       | Some target => existsb (Nat.eqb target) group
       | None => false
       end = true ->
    convert1 f st <> Done (Ok t, st').

(** ** Tactics *)

(** Unfolds a call of [convertField] down to its switch. *)
Ltac open_convertField :=
  unfold convertField, convertField_with, convertField_switch, bind, ret.

(** Splits on the parameter [p] being [name]. *)
Ltac flag_case p name :=
  destruct (String.eqb p name) eqn:?;
  [ match goal with H : String.eqb p name = true |- _ =>
      apply String.eqb_eq in H; subst p end | ].

(** * Properties *)

(** ** Basic facts *)

Lemma FieldType_of_number_number k :
  FieldType_of_number (FieldType_number k) = Some k.
Proof. destruct k; reflexivity. Qed.

Lemma label_repeated (desc : FieldDescriptorProto.t) :
  FieldDescriptorProto.GetLabel desc = LABEL_REPEATED ->
  Z.eqb (FieldDescriptorProto.GetLabel desc) LABEL_REPEATED = true.
Proof. intros H. apply Z.eqb_eq. exact H. Qed.

(** ** Scalar kinds (C4) *)

(** C4, as stated, fails: a 64-bit integer field converted with every flag
    off is the union of integer and string, not a bare integer; and a
    repeated scalar field is an array. *)
Lemma C4_counterexample :
  schemaOf (convertField defaultConfig 0 []
              (sampleField "big" LABEL_OPTIONAL TYPE_INT64 None) 0 emptyState)
  = Some (set_OneOf [typeOnly "integer"; typeOnly "string"] emptyType)
  /\ schemaOf (convertField defaultConfig 0 []
                 (sampleField "xs" LABEL_REPEATED TYPE_DOUBLE None) 0
                 emptyState)
     = Some (set_Items (Some (typeOnly "number")) (typeOnly "array")).
Proof. split; reflexivity. Qed.

(** C4 (amended): for a field whose kind is double/float, a 32-bit
    integer, string/bytes or bool, the node that describes a value of the
    field (the returned node, or its items when the field is repeated) is,
    with every flag off, the bare scalar schema of the expected type
    (nothing else is set, in particular no oneOf member), and, with
    [allow_null_values] as the only flag on, the two-member oneOf of null
    and that type. The state is not touched. *)
Theorem C4_scalar_bare_or_nullable :
  forall (dbg : bool) (k : FieldType) (ty : string)
         (desc : FieldDescriptorProto.t) (fuel : nat) (curPkg : PkgRef)
         (msg : ptr) (st : State),
    FieldDescriptorProto.GetType desc = FieldType_number k ->
    scalarType k = Some ty ->
    (exists t,
        convertField (mkConfig false false false false false dbg)
                     fuel curPkg desc msg st = Done (Ok t, st)
        /\ valueNode desc t = Some (typeOnly ty))
    /\ (exists t,
          convertField (mkConfig true false false false false dbg)
                       fuel curPkg desc msg st = Done (Ok t, st)
          /\ valueNode desc t
             = Some (set_OneOf [typeOnly "null"; typeOnly ty] emptyType)).
Proof.
  intros dbg k ty desc fuel curPkg msg st Hk Hty.
  unfold valueNode. open_convertField.
  rewrite Hk, FieldType_of_number_number.
  destruct (Z.eqb (FieldDescriptorProto.GetLabel desc) LABEL_REPEATED);
    destruct k; simpl in Hty; try discriminate;
    injection Hty as <-; split; eexists; split; reflexivity.
Qed.

Lemma C4_scalar_bare_or_nullable_witness :
  (exists t,
      convertField (mkConfig false false false false false false) 0 []
        (sampleField "flag" LABEL_OPTIONAL TYPE_BOOL None) 0 emptyState
      = Done (Ok t, emptyState)
      /\ valueNode (sampleField "flag" LABEL_OPTIONAL TYPE_BOOL None) t
         = Some (typeOnly "boolean"))
  /\ (exists t,
        convertField (mkConfig true false false false false false) 0 []
          (sampleField "flag" LABEL_OPTIONAL TYPE_BOOL None) 0 emptyState
        = Done (Ok t, emptyState)
        /\ valueNode (sampleField "flag" LABEL_OPTIONAL TYPE_BOOL None) t
           = Some (set_OneOf [typeOnly "null"; typeOnly "boolean"] emptyType)).
Proof.
  apply (C4_scalar_bare_or_nullable false TYPE_BOOL "boolean"
           (sampleField "flag" LABEL_OPTIONAL TYPE_BOOL None) 0 [] 0
           emptyState).
  - reflexivity.
  - reflexivity.
Defined.

(** ** 64-bit integers (C5) *)

(** C5, as stated, fails on a repeated field: what [convertField] returns
    is an array without oneOf members; the union sits on its items. *)
Lemma C5_counterexample :
  schemaOf (convertField defaultConfig 0 []
              (sampleField "ids" LABEL_REPEATED TYPE_INT64 None) 0 emptyState)
  = Some (set_Items
            (Some (set_OneOf [typeOnly "integer"; typeOnly "string"] emptyType))
            (typeOnly "array")).
Proof. reflexivity. Qed.

(** C5 (amended): for every 64-bit integer field, the node that describes a
    value of the field (the returned node, or its items when the field is
    repeated) is: with [disallow_one_of] off, a oneOf whose members are
    exactly integer, then string unless [disallow_bigints_as_strings], then
    null exactly when [allow_null_values]; with [disallow_one_of] on, the
    bare integer schema whatever the other two flags. *)
Theorem C5_bigint_union :
  forall (cfg : Config) (k : FieldType) (desc : FieldDescriptorProto.t)
         (fuel : nat) (curPkg : PkgRef) (msg : ptr) (st : State),
    FieldDescriptorProto.GetType desc = FieldType_number k ->
    is64 k = true ->
    exists t,
      convertField cfg fuel curPkg desc msg st = Done (Ok t, st)
      /\ valueNode desc t = Some (bigIntSchema cfg).
Proof.
  intros cfg k desc fuel curPkg msg st Hk H64.
  unfold valueNode. open_convertField.
  rewrite Hk, FieldType_of_number_number.
  destruct (Z.eqb (FieldDescriptorProto.GetLabel desc) LABEL_REPEATED);
    destruct k; try discriminate;
    destruct cfg as [[] [] [] [] [] []];
    eexists; split; reflexivity.
Qed.

Lemma C5_bigint_union_witness :
  exists t,
    convertField (mkConfig true false false false false false) 0 []
      (sampleField "big" LABEL_OPTIONAL TYPE_UINT64 None) 0 emptyState
    = Done (Ok t, emptyState)
    /\ valueNode (sampleField "big" LABEL_OPTIONAL TYPE_UINT64 None) t
       = Some (set_OneOf [typeOnly "integer"; typeOnly "string";
                          typeOnly "null"] emptyType).
Proof.
  apply (C5_bigint_union (mkConfig true false false false false false)
           TYPE_UINT64 (sampleField "big" LABEL_OPTIONAL TYPE_UINT64 None)
           0 [] 0 emptyState).
  - reflexivity.
  - reflexivity.
Defined.

(** ** Enum fields (C6) *)

Lemma enumValues_spec cfg values acc :
  enumValues cfg values acc
  = acc ++ (if allowEnumOneOf cfg then enumPairs values else enumNames values).
Proof.
  revert acc. induction values as [|v values IH]; intros acc; simpl.
  - destruct (allowEnumOneOf cfg); simpl; now rewrite app_nil_r.
  - rewrite IH. destruct (allowEnumOneOf cfg); simpl;
      now rewrite <- !app_assoc.
Qed.

Lemma enumLoop_found cfg typeName enums acc :
  enumLoop cfg typeName enums true acc = Done (true, acc).
Proof. induction enums as [|e enums IH]; simpl; [reflexivity | exact IH]. Qed.

Lemma enumLoop_skip cfg typeName pre enums acc :
  Forall (fun e' => exists n, EnumDescriptorProto.Name e' = Some n
                              /\ Strings.HasSuffix typeName n = false) pre ->
  enumLoop cfg typeName (pre ++ enums) false acc
  = enumLoop cfg typeName enums false acc.
Proof.
  induction 1 as [|e pre (n & Hn & Hsuf) _ IH]; simpl; [reflexivity|].
  rewrite Hn, Hsuf. simpl. exact IH.
Qed.

Lemma enumLoop_firstMatch cfg typeName enums e acc :
  firstMatch typeName enums e ->
  enumLoop cfg typeName enums false acc
  = Done (true, enumValues cfg (EnumDescriptorProto.Value e) acc).
Proof.
  intros (pre & post & -> & Hpre & n & Hn & Hsuf).
  rewrite (enumLoop_skip _ _ _ _ _ Hpre). simpl.
  rewrite Hn, Hsuf. simpl. apply enumLoop_found.
Qed.

(** C6, as stated, fails on a repeated field: with enum-one-of disabled the
    returned node has no allowed values and its type is array; the names
    and the string type sit on its items. *)
Lemma C6_counterexample :
  schemaOf (convertField (mkConfig false true false false false false) 0 []
              (sampleField "choices" LABEL_REPEATED TYPE_ENUM
                           (Some ".samples.Choice")) 1 sampleEnumState)
  = Some (set_Items
            (Some (set_Enum [LitName (Some "FOO"); LitName (Some "BAR")]
                            (typeOnly "string")))
            (typeOnly "array")).
Proof. reflexivity. Qed.

(** C6 (amended): for every enum-typed field whose type name has the name
    of an enum of the enclosing message as a suffix, let [e] be the first
    such enum and consider the node that describes a value of the field
    (the returned node, or its items when the field is repeated). With
    enum-one-of and one-of both enabled, its allowed values are those of
    [e] in declaration order, interleaved as (name, number) pairs. With
    enum-one-of disabled, its allowed values are the names of [e] in
    declaration order, its type is the bare string and it has no oneOf. *)
Theorem C6_enum_values :
  forall (cfg : Config) (desc : FieldDescriptorProto.t) (fuel : nat)
         (curPkg : PkgRef) (msg : ptr) (st : State)
         (e : EnumDescriptorProto.t),
    FieldDescriptorProto.GetType desc = FieldType_number TYPE_ENUM ->
    firstMatch (FieldDescriptorProto.GetTypeName desc)
               (Msg_GetEnumType (heap st) msg) e ->
    exists t node,
      convertField cfg fuel curPkg desc msg st = Done (Ok t, st)
      /\ valueNode desc t = Some node
      /\ (disallowEnumOneOf cfg = false -> disallowOneOf cfg = false ->
          Enum node = enumPairs (EnumDescriptorProto.Value e))
      /\ (disallowEnumOneOf cfg = true ->
          Enum node = enumNames (EnumDescriptorProto.Value e)
          /\ Type_ node = "string" /\ OneOf node = []).
Proof.
  intros cfg desc fuel curPkg msg st e Hk Hmatch.
  unfold valueNode. open_convertField.
  rewrite Hk, FieldType_of_number_number. unfold enumCase.
  rewrite (enumLoop_firstMatch cfg _ _ _ _ Hmatch), enumValues_spec.
  destruct (Z.eqb (FieldDescriptorProto.GetLabel desc) LABEL_REPEATED);
    destruct cfg as [[] [] [] [] [] []];
    unfold allowEnumOneOf, enumBase, repeatedCase, allowOneOf; simpl;
    try (destruct (EnumDescriptorProto.Value e) as [|v vs]; simpl);
    eexists; eexists;
    (split; [reflexivity|]); (split; [reflexivity|]);
    (split; [intros; try discriminate; reflexivity
            |intros; try discriminate; repeat split; reflexivity]).
Qed.

Lemma C6_enum_values_witness :
  exists t node,
    convertField (mkConfig false false false false false false) 0 []
      (sampleField "choice" LABEL_OPTIONAL TYPE_ENUM (Some ".samples.Choice"))
      1 sampleEnumState
    = Done (Ok t, sampleEnumState)
    /\ valueNode (sampleField "choice" LABEL_OPTIONAL TYPE_ENUM
                              (Some ".samples.Choice")) t = Some node
    /\ (false = false -> false = false ->
        Enum node = enumPairs (EnumDescriptorProto.Value sampleChoice))
    /\ (false = true ->
        Enum node = enumNames (EnumDescriptorProto.Value sampleChoice)
        /\ Type_ node = "string" /\ OneOf node = []).
Proof.
  apply (C6_enum_values (mkConfig false false false false false false)
           (sampleField "choice" LABEL_OPTIONAL TYPE_ENUM
                        (Some ".samples.Choice"))
           0 [] 1 sampleEnumState sampleChoice).
  - reflexivity.
  - exists [], []. split; [reflexivity|]. split; [constructor|].
    exists "Choice". split; reflexivity.
Defined.

(** ** Repeated timestamps (C10) *)

(** C10 does not hold of the code when null values are allowed. For
    every repeated field of the well-known Timestamp type [convertField]
    returns a node whose items node carries the scalar type string and
    nothing else, and the date-time format stays on the outer node and is
    absent from the items. Without nullability the outer node is the
    array: type array, no one-of. With [allow_null_values] (and one-of
    enabled) it is not: it carries the union of null and array while its
    type is still the string that the Timestamp case had set, since the
    block for repeated fields installs the union without clearing the
    type. *)
Theorem C10_repeated_timestamp :
  forall (cfg : Config) (k : FieldType) (desc : FieldDescriptorProto.t)
         (fuel : nat) (curPkg : PkgRef) (msg : ptr) (st : State),
    FieldDescriptorProto.GetType desc = FieldType_number k ->
    k = TYPE_MESSAGE \/ k = TYPE_GROUP ->
    FieldDescriptorProto.GetTypeName desc = ".google.protobuf.Timestamp" ->
    FieldDescriptorProto.GetLabel desc = LABEL_REPEATED ->
    exists t,
      convertField cfg fuel curPkg desc msg st = Done (Ok t, st)
      /\ Items t = Some (typeOnly "string")
      /\ Format t = "date-time"
      /\ (if allowNullValues cfg && negb (disallowOneOf cfg)
          then Type_ t = "string"
               /\ OneOf t = [typeOnly "null"; typeOnly "array"]
          else Type_ t = "array" /\ OneOf t = []).
Proof.
  intros cfg k desc fuel curPkg msg st Hk Hkind Hname Hlabel.
  open_convertField.
  rewrite Hk, FieldType_of_number_number, (label_repeated _ Hlabel).
  unfold messageCase. rewrite Hname.
  destruct Hkind as [-> | ->];
    destruct cfg as [[] [] [] [] [] []];
    eexists; (split; [reflexivity|]); repeat split; reflexivity.
Qed.

Lemma C10_repeated_timestamp_witness :
  exists t,
    convertField (mkConfig true false false false false false) 0 []
      (sampleField "stamps" LABEL_REPEATED TYPE_MESSAGE
                   (Some ".google.protobuf.Timestamp")) 0 emptyState
    = Done (Ok t, emptyState)
    /\ Items t = Some (typeOnly "string")
    /\ Format t = "date-time"
    /\ Type_ t = "string"
    /\ OneOf t = [typeOnly "null"; typeOnly "array"].
Proof.
  apply (C10_repeated_timestamp (mkConfig true false false false false false)
           TYPE_MESSAGE
           (sampleField "stamps" LABEL_REPEATED TYPE_MESSAGE
                        (Some ".google.protobuf.Timestamp"))
           0 [] 0 emptyState).
  - reflexivity.
  - left. reflexivity.
  - reflexivity.
  - reflexivity.
Defined.

(** ** Scalar type and one-of on one node (C1) *)

(** C1 does not hold of the code. A repeated Timestamp field converted
    with [allow_null_values] (and one-of enabled) comes back with the union
    of null and array while the scalar type string, set by the Timestamp
    case, is still there: the block for repeated fields installs the union
    without clearing the type, which the block for message fields does
    ([jsonSchemaType.Type = ""]). The same happens to a repeated enum field
    under [allow_null_values] and [disallow_enum_one_of]. *)
Theorem C1_type_and_oneOf_together :
  schemaOf (convertField (mkConfig true false false false false false) 0 []
              (sampleField "stamps" LABEL_REPEATED TYPE_MESSAGE
                           (Some ".google.protobuf.Timestamp")) 0 emptyState)
  = Some (mkType "" "string" "date-time" []
                 [typeOnly "null"; typeOnly "array"]
                 (Some (typeOnly "string")) ∅ "")
  /\ schemaOf (convertField (mkConfig true true false false false false) 0 []
                 (sampleField "choices" LABEL_REPEATED TYPE_ENUM
                              (Some ".samples.Choice")) 1 sampleEnumState)
     = Some (mkType "" "string" "" []
                    [typeOnly "null"; typeOnly "array"]
                    (Some (set_Enum [LitName (Some "FOO");
                                     LitName (Some "BAR")]
                                    (typeOnly "string"))) ∅ "").
Proof. split; reflexivity. Qed.

(** Where the invariant does hold. *)

Lemma convertField_switch_atMostOne cfg desc msg st t st' :
  convertField_switch cfg desc msg st = Done (Ok t, st') -> atMostOne t.
Proof.
  unfold convertField_switch, ret, atMostOne.
  destruct (FieldType_of_number (FieldDescriptorProto.GetType desc))
    as [[]|]; try discriminate;
    try (intros [= <- _]; unfold nullableOr, bigInt, allowOneOf;
         destruct (allowNullValues cfg), (disallowOneOf cfg),
                  (disallowBigIntsAsStrings cfg); simpl; tauto).
  - intros [= <- _]. left. unfold messageCase.
    destruct (String.eqb _ _); [reflexivity|].
    destruct (disallowAdditionalProperties cfg); [reflexivity|].
    destruct (Z.eqb _ LABEL_OPTIONAL), (Z.eqb _ LABEL_REQUIRED); reflexivity.
  - intros [= <- _]. left. unfold messageCase.
    destruct (String.eqb _ _); [reflexivity|].
    destruct (disallowAdditionalProperties cfg); [reflexivity|].
    destruct (Z.eqb _ LABEL_OPTIONAL), (Z.eqb _ LABEL_REQUIRED); reflexivity.
  - unfold enumCase.
    destruct (enumLoop cfg (FieldDescriptorProto.GetTypeName desc)
                (Msg_GetEnumType (heap st) msg) false
                (Enum (enumBase cfg emptyType))) as [[found enum]| |];
      try discriminate.
    assert (Hbase : OneOf (set_Enum enum (enumBase cfg emptyType)) = []
                    \/ Type_ (set_Enum enum (enumBase cfg emptyType)) = "").
    { unfold enumBase, allowEnumOneOf, allowOneOf.
      destruct (disallowEnumOneOf cfg), (disallowOneOf cfg),
               (allowNullValues cfg); simpl; tauto. }
    destruct found.
    + intros [= <- _]. exact Hbase.
    + destruct (FieldDescriptorProto.Name desc),
               (FieldDescriptorProto.TypeName desc); try discriminate;
        intros [= <- _]; exact Hbase.
Qed.

Lemma fieldLoop_root convert1 fields t st t' e st' :
  fieldLoop convert1 fields t st = Done (t', e, st') ->
  Type_ t' = Type_ t /\ OneOf t' = OneOf t.
Proof.
  revert t st. induction fields as [|f fields IH]; intros t st; simpl.
  - intros [= <- _ _]. split; reflexivity.
  - unfold bind. destruct (convert1 f st) as [[[t1|err] st1]| |];
      try discriminate.
    + intros H. apply IH in H. exact H.
    + intros [= <- _ _]. split; reflexivity.
Qed.

(** The root node of a converted message always satisfies the invariant. *)
Lemma convertMessageType_atMostOne cfg fuel curPkg msg st t e st' :
  convertMessageType cfg fuel curPkg msg st = Done (t, e, st') -> atMostOne t.
Proof.
  destruct fuel as [|fuel]; simpl; [discriminate|].
  unfold bind, get. intros H. apply fieldLoop_root in H.
  destruct H as [Hty Hone]. unfold atMostOne. rewrite Hty, Hone.
  unfold messageBase, nullableOr.
  destruct (allowNullValues cfg && allowOneOf cfg),
           (disallowAdditionalProperties cfg); simpl; tauto.
Qed.

(** So does the node of a field, unless the field is repeated and the node
    is made nullable. *)
Lemma convertField_atMostOne cfg fuel curPkg desc msg st t st' :
  convertField cfg fuel curPkg desc msg st = Done (Ok t, st') ->
  FieldDescriptorProto.GetLabel desc <> LABEL_REPEATED
  \/ allowNullValues cfg && allowOneOf cfg = false ->
  atMostOne t.
Proof.
  unfold convertField, convertField_with. unfold bind at 1.
  destruct (convertField_switch cfg desc msg st) as [[[t0|e] st0]| |] eqn:Hsw;
    try discriminate.
  apply convertField_switch_atMostOne in Hsw.
  destruct (String.eqb (Type_ t0) TYPE_OBJECT) eqn:Hobj.
  - rewrite andb_false_r.
    assert (Hnone : OneOf t0 = []).
    { destruct Hsw as [H | H]; [exact H|].
      apply String.eqb_eq in Hobj. rewrite H in Hobj. discriminate. }
    unfold bind, get.
    destruct (lookupType st0 curPkg (FieldDescriptorProto.GetTypeName desc))
      as [recordType|]; [|discriminate].
    destruct (enrich recordType msg st0) as [[[] st1]| |]; try discriminate.
    destruct (convertMessageType cfg fuel curPkg recordType st1)
      as [[[x [err|]] st2]| |]; try discriminate.
    intros [= <- _] _. unfold atMostOne.
    destruct (allowNullValues cfg && allowOneOf cfg); [right; reflexivity|].
    left. destruct (Z.eqb _ _); simpl; exact Hnone.
  - rewrite andb_true_r.
    destruct (Z.eqb (FieldDescriptorProto.GetLabel desc) LABEL_REPEATED)
      eqn:Hlabel.
    + intros [= <- _] [Hl | Hnull].
      * apply Z.eqb_eq in Hlabel. contradiction.
      * unfold repeatedCase. rewrite Hnull. left.
        destruct (0 <? length (Enum t0))%nat;
          [destruct (allowEnumOneOf cfg && allowOneOf cfg)|]; reflexivity.
    + intros [= <- _] _. exact Hsw.
Qed.

(** ** Conflicting flags (C3) *)

(** C3 does not hold of the code. The check sits in the case
    [disallow_one_of] and reads [allowNullValues] as set so far: with
    [allow_null_values] first the program panics, with [disallow_one_of]
    first the parameters are accepted, both flags end up on and the
    request is converted. *)
Theorem C3_conflict_depends_on_order :
  commandLineParameter "allow_null_values,disallow_one_of" defaultConfig
  = Panic both_flags_panic
  /\ commandLineParameter "disallow_one_of,allow_null_values" defaultConfig
     = Done (mkConfig true false true false false false)
  /\ convertFrom sampleMarshal 0
       (CodeGeneratorRequest.mk []
          (Some "disallow_one_of,allow_null_values") [])
       defaultConfig emptyState
     = Done (CodeGeneratorResponse.mk None [], None, emptyState).
Proof. repeat split; reflexivity. Qed.

(** ** The session driver (C2, C8, C9) *)

Section Session.

Variable cfg : Config.
Variable MarshalIndent : jsonschema_Type -> result string.
Variable fuel : nat.

Lemma targets_lookup (targets : list string) (m : gmap string bool)
    (n : string) :
  foldl (fun targets file => <[file := true]> targets) m targets !! n
  = if bool_decide (n ∈ targets) then Some true else m !! n.
Proof.
  revert m. induction targets as [|x targets IH]; intros m; simpl.
  - reflexivity.
  - rewrite IH. destruct (decide (n = x)) as [->|Hne].
    + rewrite lookup_insert_eq.
      rewrite (bool_decide_eq_true_2 (x ∈ x :: targets))
        by (apply elem_of_cons; left; reflexivity).
      now destruct (bool_decide (x ∈ targets)).
    + rewrite lookup_insert_ne by congruence.
      destruct (decide (n ∈ targets)) as [Hin|Hnin].
      * rewrite (bool_decide_eq_true_2 (n ∈ x :: targets))
          by (apply elem_of_cons; right; exact Hin).
        rewrite (bool_decide_eq_true_2 (n ∈ targets)) by exact Hin.
        reflexivity.
      * rewrite (bool_decide_eq_false_2 (n ∈ x :: targets))
          by (rewrite elem_of_cons; intros [?|?]; contradiction).
        rewrite (bool_decide_eq_false_2 (n ∈ targets)) by exact Hnin.
        reflexivity.
Qed.

Lemma generateTargets_lookup (req : CodeGeneratorRequest.t) (n : string) :
  generateTargets req !! n
  = if bool_decide (n ∈ CodeGeneratorRequest.FileToGenerate req)
    then Some true else None.
Proof. unfold generateTargets. rewrite targets_lookup. reflexivity. Qed.

Lemma registerMessages_total pkgName msgs st :
  exists g, registerMessages pkgName msgs st
            = Done (tt, mkState g (heap st)).
Proof.
  revert st. induction msgs as [|msg msgs IH]; intros st; simpl.
  - exists (globalPkg st). now destruct st.
  - unfold bind, registerType.
    destruct (IH (mkState
                    (registerIn true (globalPkg st)
                       match pkgName with
                       | Some s => Strings.Split s "."
                       | None => []
                       end (Msg_GetName (heap st) msg) msg) (heap st)))
      as [g Hg].
    exists g. exact Hg.
Qed.

(** The first pass always completes; it gathers the enums of all files
    and leaves the message descriptors alone. *)
Lemma loadFiles_total files acc st :
  exists g,
    loadFiles files acc st
    = Done (acc ++ flat_map FileDescriptorProto.EnumType files,
            mkState g (heap st)).
Proof.
  revert acc st. induction files as [|file files IH]; intros acc st; simpl.
  - exists (globalPkg st). rewrite app_nil_r. now destruct st.
  - unfold bind.
    destruct (registerMessages_total (FileDescriptorProto.Package file)
                (FileDescriptorProto.MessageType file) st) as [g Hg].
    rewrite Hg.
    destruct (IH (acc ++ FileDescriptorProto.EnumType file)
                 (mkState g (heap st))) as [g' Hg'].
    exists g'. rewrite Hg'. simpl. now rewrite <- app_assoc.
Qed.

Lemma picked_targeted req enums :
  picked (generateTargets req) enums (CodeGeneratorRequest.ProtoFile req)
  = targetedFiles req enums.
Proof.
  unfold picked, targetedFiles. f_equal.
  apply List.filter_ext. intros file. rewrite generateTargets_lookup.
  unfold targeted.
  now destruct (bool_decide
                  (FileDescriptorProto.GetName file
                     ∈ CodeGeneratorRequest.FileToGenerate req)).
Qed.

Lemma convertFiles_success targets enums files res st res' st' :
  convertFiles cfg MarshalIndent fuel targets enums files res st
  = Done (res', None, st')
  <-> exists outs,
        convertsAll cfg MarshalIndent fuel st (picked targets enums files)
                    outs st'
        /\ res' = CodeGeneratorResponse.mk
                    (CodeGeneratorResponse.Error res)
                    (CodeGeneratorResponse.File res ++ concat outs).
Proof.
  revert res st. unfold picked.
  induction files as [|file files IH]; intros res st; simpl.
  - unfold ret. split.
    + intros [= <- <-]. exists []. split; [constructor|].
      simpl. rewrite app_nil_r. now destruct res.
    + intros (outs & Hall & ->). inversion Hall; subst. simpl.
      rewrite app_nil_r. now destruct res.
  - destruct (targets !! FileDescriptorProto.GetName file); simpl;
      [|apply IH].
    unfold bind.
    destruct (convertFile cfg MarshalIndent fuel
                (FileDescriptorProto.set_EnumType file enums) st)
      as [[[docs|err] st1]| |] eqn:Hfile.
    + rewrite IH. simpl. split.
      * intros (outs & Hall & ->). exists (docs :: outs).
        split; [econstructor; eassumption|].
        simpl. now rewrite app_assoc.
      * intros (outs & Hall & ->). inversion Hall; subst.
        match goal with
        | H : convertFile _ _ _ _ _ = Done (Ok _, _) |- _ =>
            rewrite Hfile in H; injection H; intros; subst
        end.
        eexists. split; [eassumption|]. simpl. now rewrite app_assoc.
    + unfold ret. split; [discriminate|].
      intros (outs & Hall & _). inversion Hall; subst. congruence.
    + split; [discriminate|].
      intros (outs & Hall & _). inversion Hall; subst. congruence.
    + split; [discriminate|].
      intros (outs & Hall & _). inversion Hall; subst. congruence.
Qed.

Lemma convertFiles_failure targets enums files res st res' err st' :
  convertFiles cfg MarshalIndent fuel targets enums files res st
  = Done (res', Some err, st')
  <-> exists before failing after outs st2,
        picked targets enums files = before ++ failing :: after
        /\ convertsAll cfg MarshalIndent fuel st before outs st2
        /\ convertFile cfg MarshalIndent fuel failing st2
           = Done (Err err, st')
        /\ res' = CodeGeneratorResponse.mk
                    (Some ("Failed to convert "
                           +:+ FileDescriptorProto.GetName failing
                           +:+ ": " +:+ err))
                    (CodeGeneratorResponse.File res ++ concat outs).
Proof.
  revert res st. unfold picked.
  induction files as [|file files IH]; intros res st; simpl.
  - unfold ret. split; [discriminate|].
    intros (before & failing & after & outs & st2 & Heq & _).
    destruct before; discriminate.
  - destruct (targets !! FileDescriptorProto.GetName file); simpl.
    2: { apply IH. }
    unfold bind.
    destruct (convertFile cfg MarshalIndent fuel
                (FileDescriptorProto.set_EnumType file enums) st)
      as [[[docs|e] st1]| |] eqn:Hfile.
    + rewrite IH. simpl. split.
      * intros (before & failing & after & outs & st2
                & Heq & Hall & Hfail & ->).
        exists (FileDescriptorProto.set_EnumType file enums :: before),
               failing, after, (docs :: outs), st2.
        rewrite Heq. repeat split; try assumption.
        -- econstructor; eassumption.
        -- simpl. now rewrite app_assoc.
      * intros (before & failing & after & outs & st2
                & Heq & Hall & Hfail & ->).
        destruct before as [|file0 before]; simpl in Heq;
          injection Heq as <- Heq; inversion Hall; subst.
        -- congruence.
        -- match goal with
           | H : convertFile _ _ _ _ _ = Done (Ok _, _) |- _ =>
               rewrite Hfile in H; injection H; intros; subst
           end.
           exists before, failing, after. eexists. eexists.
           repeat split; try eassumption. simpl. now rewrite app_assoc.
    + unfold ret. split.
      * intros [= <- <- <-].
        exists [], (FileDescriptorProto.set_EnumType file enums). eexists.
        exists [], st. repeat split; try assumption; try constructor.
        simpl. now rewrite app_nil_r.
      * intros (before & failing & after & outs & st2
                & Heq & Hall & Hfail & ->).
        destruct before as [|file0 before]; simpl in Heq;
          injection Heq as <- Heq; inversion Hall; subst.
        -- rewrite Hfile in Hfail. injection Hfail as <- <-.
           simpl. now rewrite app_nil_r.
        -- congruence.
    + split; [discriminate|].
      intros (before & failing & after & outs & st2
              & Heq & Hall & Hfail & _).
      destruct before as [|file0 before]; simpl in Heq;
        injection Heq as <- Heq; inversion Hall; subst; congruence.
    + split; [discriminate|].
      intros (before & failing & after & outs & st2
              & Heq & Hall & Hfail & _).
      destruct before as [|file0 before]; simpl in Heq;
        injection Heq as <- Heq; inversion Hall; subst; congruence.
Qed.

(** The second pass looks at the targets only through the names of the
    files of the forest. *)
Lemma convertFiles_ext targets1 targets2 enums files res st :
  (forall file, In file files ->
     is_Some (targets1 !! FileDescriptorProto.GetName file)
     <-> is_Some (targets2 !! FileDescriptorProto.GetName file)) ->
  convertFiles cfg MarshalIndent fuel targets1 enums files res st
  = convertFiles cfg MarshalIndent fuel targets2 enums files res st.
Proof.
  revert res st. induction files as [|file files IH]; intros res st Hsame;
    simpl; [reflexivity|].
  assert (Hrest : forall res st,
             convertFiles cfg MarshalIndent fuel targets1 enums files res st
             = convertFiles cfg MarshalIndent fuel targets2 enums files res
                            st).
  { intros res0 st0. apply IH. intros f Hf. apply Hsame. now right. }
  specialize (Hsame file (or_introl eq_refl)).
  destruct (targets1 !! FileDescriptorProto.GetName file) as [b1|] eqn:E1;
    destruct (targets2 !! FileDescriptorProto.GetName file) as [b2|] eqn:E2.
  - unfold bind.
    destruct (convertFile cfg MarshalIndent fuel
                (FileDescriptorProto.set_EnumType file enums) st)
      as [[[docs|e] st1]| |]; try reflexivity.
    apply Hrest.
  - exfalso. destruct Hsame as [Hs _].
    destruct (Hs (ex_intro _ b1 eq_refl)) as [? ?]. discriminate.
  - exfalso. destruct Hsame as [_ Hs].
    destruct (Hs (ex_intro _ b2 eq_refl)) as [? ?]. discriminate.
  - apply Hrest.
Qed.

(** Two target lists that name the same files of the forest give the
    same session. *)
Lemma convert_targets_ext targets1 targets2 param files st :
  (forall file, In file files ->
     FileDescriptorProto.GetName file ∈ targets1
     <-> FileDescriptorProto.GetName file ∈ targets2) ->
  convert cfg MarshalIndent fuel
          (CodeGeneratorRequest.mk targets1 param files) st
  = convert cfg MarshalIndent fuel
            (CodeGeneratorRequest.mk targets2 param files) st.
Proof.
  intros Hsame. unfold convert, bind. simpl.
  destruct (loadFiles files [] st) as [[enums st1]| |]; try reflexivity.
  apply convertFiles_ext. intros file Hfile.
  rewrite !generateTargets_lookup. simpl.
  specialize (Hsame file Hfile).
  destruct (decide (FileDescriptorProto.GetName file ∈ targets1)) as [H1|H1];
    destruct (decide (FileDescriptorProto.GetName file ∈ targets2))
      as [H2|H2]; try tauto.
  - rewrite !bool_decide_eq_true_2 by assumption. tauto.
  - rewrite !bool_decide_eq_false_2 by assumption. tauto.
Qed.

End Session.

Lemma loadFiles_loaded req st :
  loadFiles (CodeGeneratorRequest.ProtoFile req) [] st
  = Done (allEnums req, loaded req st).
Proof.
  unfold loaded, allEnums.
  destruct (loadFiles_total (CodeGeneratorRequest.ProtoFile req) [] st)
    as [g Hg].
  rewrite Hg. reflexivity.
Qed.

(** A session that targets no file of the forest succeeds with an empty
    response. *)
Lemma convert_no_target cfg MarshalIndent fuel req st :
  targetedFiles req (allEnums req) = [] ->
  convert cfg MarshalIndent fuel req st
  = Done (CodeGeneratorResponse.mk None [], None, loaded req st).
Proof.
  intros Hnone. unfold convert, bind. rewrite loadFiles_loaded.
  apply convertFiles_success. exists []. split; [|reflexivity].
  rewrite picked_targeted, Hnone. constructor.
Qed.

(** C8, as stated, fails: the documents come in the order of the files in
    the descriptor forest ([a.proto] then [b.proto]), not in the order of
    the target list ([b.proto] then [a.proto]). *)
Lemma C8_counterexample :
  CodeGeneratorRequest.FileToGenerate orderRequest = ["b.proto"; "a.proto"]
  /\ responseOf (convert defaultConfig sampleMarshal 1 orderRequest orderState)
     = Some (CodeGeneratorResponse.mk None
               [CodeGeneratorResponse.mkFile "MA.jsonschema" "{type: object}";
                CodeGeneratorResponse.mkFile "MB.jsonschema"
                                             "{type: object}"]).
Proof. split; vm_compute; reflexivity. Qed.

(** C8 (amended): the session converts exactly the files of the descriptor
    forest whose name is in the target list, in the order of the forest,
    each with its enum list replaced by the enums of all files; it
    succeeds exactly when each of these conversions succeeds, and the
    returned documents are then the concatenation, in that order, of the
    documents of each converted file. *)
Theorem C8_converts_targeted_in_forest_order :
  forall (cfg : Config) (MarshalIndent : jsonschema_Type -> result string)
         (fuel : nat) (req : CodeGeneratorRequest.t) (st : State)
         (res : CodeGeneratorResponse.t) (st' : State),
    convert cfg MarshalIndent fuel req st = Done (res, None, st')
    <-> exists outs,
          convertsAll cfg MarshalIndent fuel (loaded req st)
                      (targetedFiles req (allEnums req)) outs st'
          /\ res = CodeGeneratorResponse.mk None (concat outs).
Proof.
  intros cfg MarshalIndent fuel req st res st'.
  unfold convert, bind. rewrite loadFiles_loaded.
  rewrite convertFiles_success, picked_targeted. reflexivity.
Qed.

(** C2, as stated, fails: when the second targeted file fails, the
    response carries the error message together with the document of the
    first file. *)
Lemma C2_counterexample :
  responseOf (convert defaultConfig sampleMarshal 1 partialRequest
                      partialState)
  = Some (CodeGeneratorResponse.mk
            (Some "Failed to convert m.proto: no such package found: ")
            [CodeGeneratorResponse.mkFile "Color.jsonschema" "{type: }"]).
Proof. vm_compute. reflexivity. Qed.

(** C2 (amended): the session fails exactly when the conversion of a
    targeted file fails after the targeted files before it have been
    converted; it stops there, and the response carries a single error
    message, which names that file, together with the documents of the
    files converted before it (nothing of the failing file, nothing of the
    files after it). *)
Theorem C2_error_keeps_earlier_documents :
  forall (cfg : Config) (MarshalIndent : jsonschema_Type -> result string)
         (fuel : nat) (req : CodeGeneratorRequest.t) (st : State)
         (res : CodeGeneratorResponse.t) (err : string) (st' : State),
    convert cfg MarshalIndent fuel req st = Done (res, Some err, st')
    <-> exists before failing after outs st2,
          targetedFiles req (allEnums req) = before ++ failing :: after
          /\ convertsAll cfg MarshalIndent fuel (loaded req st) before outs
                         st2
          /\ convertFile cfg MarshalIndent fuel failing st2
             = Done (Err err, st')
          /\ res = CodeGeneratorResponse.mk
                     (Some ("Failed to convert "
                            +:+ FileDescriptorProto.GetName failing
                            +:+ ": " +:+ err))
                     (concat outs).
Proof.
  intros cfg MarshalIndent fuel req st res err st'.
  unfold convert, bind. rewrite loadFiles_loaded.
  rewrite convertFiles_failure, picked_targeted. reflexivity.
Qed.

Lemma C2_error_keeps_earlier_documents_witness :
  exists before failing after outs st2,
    targetedFiles partialRequest (allEnums partialRequest)
    = before ++ failing :: after
    /\ convertsAll defaultConfig sampleMarshal 1
                   (loaded partialRequest partialState) before outs st2
    /\ convertFile defaultConfig sampleMarshal 1 failing st2
       = Done (Err "no such package found: ",
               default partialState
                 (stateOf (convert defaultConfig sampleMarshal 1
                                   partialRequest partialState)))
    /\ CodeGeneratorResponse.mk
         (Some "Failed to convert m.proto: no such package found: ")
         [CodeGeneratorResponse.mkFile "Color.jsonschema" "{type: }"]
       = CodeGeneratorResponse.mk
           (Some ("Failed to convert " +:+ FileDescriptorProto.GetName failing
                  +:+ ": " +:+ "no such package found: "))
           (concat outs).
Proof.
  apply (proj1 (C2_error_keeps_earlier_documents defaultConfig sampleMarshal
                  1 partialRequest partialState _ _ _)).
  vm_compute. reflexivity.
Defined.

Lemma C8_converts_targeted_in_forest_order_witness :
  exists outs,
    convertsAll defaultConfig sampleMarshal 1
      (loaded orderRequest orderState)
      (targetedFiles orderRequest (allEnums orderRequest)) outs
      (default orderState
         (stateOf (convert defaultConfig sampleMarshal 1 orderRequest
                           orderState)))
    /\ CodeGeneratorResponse.mk None
         [CodeGeneratorResponse.mkFile "MA.jsonschema" "{type: object}";
          CodeGeneratorResponse.mkFile "MB.jsonschema" "{type: object}"]
       = CodeGeneratorResponse.mk None (concat outs).
Proof.
  apply (proj1 (C8_converts_targeted_in_forest_order defaultConfig
                  sampleMarshal 1 orderRequest orderState _ _)).
  vm_compute. reflexivity.
Defined.

(** ** Unmatched and repeated target names (C9) *)

Lemma targetedFiles_none targets param files enums :
  (forall file, In file files ->
     ~ FileDescriptorProto.GetName file ∈ targets) ->
  targetedFiles (CodeGeneratorRequest.mk targets param files) enums = [].
Proof.
  intros Hnone. unfold targetedFiles. simpl.
  induction files as [|file files IH]; simpl; [reflexivity|].
  unfold targeted at 1.
  rewrite bool_decide_eq_false_2 by (apply Hnone; now left).
  apply IH. intros f Hf. apply Hnone. now right.
Qed.

Lemma named_at_most_once (n : string) (files : list FileDescriptorProto.t) :
  NoDup (List.map FileDescriptorProto.GetName files) ->
  length (List.filter
            (fun file => String.eqb (FileDescriptorProto.GetName file) n)
            files) <= 1.
Proof.
  induction files as [|file files IH]; simpl; intros Hnd; [lia|].
  apply NoDup_cons in Hnd. destruct Hnd as [Hnotin Hnd].
  destruct (String.eqb (FileDescriptorProto.GetName file) n) eqn:Hname;
    [|apply IH; exact Hnd].
  apply String.eqb_eq in Hname. simpl.
  assert (Hnone : List.filter
                    (fun file => String.eqb (FileDescriptorProto.GetName file) n)
                    files = []).
  { clear IH Hnd. induction files as [|f files IH]; simpl; [reflexivity|].
    destruct (String.eqb (FileDescriptorProto.GetName f) n) eqn:Hf.
    - apply String.eqb_eq in Hf. exfalso. apply Hnotin.
      simpl. rewrite Hf, Hname. apply elem_of_cons. left. reflexivity.
    - apply IH. intros Hin. apply Hnotin. simpl.
      apply elem_of_cons. right. exact Hin. }
  rewrite Hnone. simpl. lia.
Qed.

Lemma convertedNamed_at_most_once n req enums :
  NoDup (List.map FileDescriptorProto.GetName
                  (CodeGeneratorRequest.ProtoFile req)) ->
  length (convertedNamed n req enums) <= 1.
Proof.
  intros Hnd.
  eapply Nat.le_trans; [|apply (named_at_most_once n _ Hnd)]. clear Hnd.
  unfold convertedNamed, targetedFiles.
  induction (CodeGeneratorRequest.ProtoFile req) as [|file files IH];
    simpl; [lia|].
  unfold targeted at 1.
  destruct (bool_decide _); simpl.
  - change (FileDescriptorProto.GetName
              (FileDescriptorProto.set_EnumType file enums))
      with (FileDescriptorProto.GetName file).
    destruct (String.eqb (FileDescriptorProto.GetName file) n); simpl; lia.
  - destruct (String.eqb (FileDescriptorProto.GetName file) n); simpl; lia.
Qed.

(** C9: a name of the target list that matches no file of the forest is
    skipped silently, and a name that the list holds once more is not
    converted once more: with or without that entry the session is the
    same (same response, same error, same final state). When no name of
    the list matches a file the session succeeds, reports no error and
    returns no document. When the files of the forest have distinct names,
    at most one of the files the session converts bears a given name,
    however often the list holds it. *)
Theorem C9_unmatched_and_repeated_targets :
  forall (cfg : Config) (MarshalIndent : jsonschema_Type -> result string)
         (fuel : nat) (param : option string)
         (files : list FileDescriptorProto.t)
         (targets1 targets2 : list string) (n : string) (st : State),
    (forall file, In file files -> FileDescriptorProto.GetName file <> n)
    \/ n ∈ targets1 ++ targets2 ->
    convert cfg MarshalIndent fuel
      (CodeGeneratorRequest.mk (targets1 ++ n :: targets2) param files) st
    = convert cfg MarshalIndent fuel
        (CodeGeneratorRequest.mk (targets1 ++ targets2) param files) st
    /\ ((forall file, In file files ->
           ~ FileDescriptorProto.GetName file ∈ targets1 ++ n :: targets2) ->
        exists st1,
          convert cfg MarshalIndent fuel
            (CodeGeneratorRequest.mk (targets1 ++ n :: targets2) param files)
            st
          = Done (CodeGeneratorResponse.mk None [], None, st1))
    /\ (NoDup (List.map FileDescriptorProto.GetName files) ->
        forall enums,
          length (convertedNamed n
                    (CodeGeneratorRequest.mk (targets1 ++ n :: targets2)
                                             param files) enums) <= 1).
Proof.
  intros cfg MarshalIndent fuel param files targets1 targets2 n st Hn.
  split; [|split].
  - apply convert_targets_ext. intros file Hfile.
    rewrite !elem_of_app, elem_of_cons.
    destruct Hn as [Hn | Hn].
    + specialize (Hn file Hfile). tauto.
    + rewrite elem_of_app in Hn. split; [|tauto].
      intros [H | [-> | H]]; tauto.
  - intros Hnone. eexists. apply convert_no_target.
    apply targetedFiles_none. exact Hnone.
  - intros Hnd enums. apply convertedNamed_at_most_once. exact Hnd.
Qed.

Lemma C9_unmatched_and_repeated_targets_witness :
  convert defaultConfig sampleMarshal 1
    (CodeGeneratorRequest.mk (["a.proto"] ++ "ghost.proto" :: ["b.proto"])
       None (CodeGeneratorRequest.ProtoFile orderRequest)) orderState
  = convert defaultConfig sampleMarshal 1
      (CodeGeneratorRequest.mk (["a.proto"] ++ ["b.proto"]) None
         (CodeGeneratorRequest.ProtoFile orderRequest)) orderState
  /\ ((forall file,
         In file (CodeGeneratorRequest.ProtoFile orderRequest) ->
         ~ FileDescriptorProto.GetName file
           ∈ ["a.proto"] ++ "ghost.proto" :: ["b.proto"]) ->
      exists st1,
        convert defaultConfig sampleMarshal 1
          (CodeGeneratorRequest.mk
             (["a.proto"] ++ "ghost.proto" :: ["b.proto"]) None
             (CodeGeneratorRequest.ProtoFile orderRequest)) orderState
        = Done (CodeGeneratorResponse.mk None [], None, st1))
  /\ (NoDup (List.map FileDescriptorProto.GetName
                      (CodeGeneratorRequest.ProtoFile orderRequest)) ->
      forall enums,
        length (convertedNamed "ghost.proto"
                  (CodeGeneratorRequest.mk
                     (["a.proto"] ++ "ghost.proto" :: ["b.proto"]) None
                     (CodeGeneratorRequest.ProtoFile orderRequest)) enums)
        <= 1).
Proof.
  apply (C9_unmatched_and_repeated_targets defaultConfig sampleMarshal 1 None
           (CodeGeneratorRequest.ProtoFile orderRequest)
           ["a.proto"] ["b.proto"] "ghost.proto" orderState).
  left. intros file [<- | [<- | []]]; vm_compute; discriminate.
Defined.

(** ** The enrichment of resolved messages (C7) *)




Lemma convertField_switch_state cfg desc msg st r st' :
  convertField_switch cfg desc msg st = Done (r, st') -> st' = st.
Proof.
  unfold convertField_switch, ret.
  destruct (FieldType_of_number (FieldDescriptorProto.GetType desc))
    as [[]|]; try (intros [= _ <-]; reflexivity).
  unfold enumCase.
  destruct (enumLoop cfg (FieldDescriptorProto.GetTypeName desc)
              (Msg_GetEnumType (heap st) msg) false
              (Enum (enumBase cfg emptyType))) as [[[] enum]| |];
    try discriminate.
  - intros [= _ <-]. reflexivity.
  - destruct (FieldDescriptorProto.Name desc),
             (FieldDescriptorProto.TypeName desc); try discriminate;
      intros [= _ <-]; reflexivity.
Qed.

Section Keeps.

Variable cfg : Config.




End Keeps.

Lemma messageCase_object cfg desc t :
  FieldDescriptorProto.GetTypeName desc <> ".google.protobuf.Timestamp" ->
  Type_ (messageCase cfg desc t) = TYPE_OBJECT.
Proof.
  intros Hname. unfold messageCase.
  apply String.eqb_neq in Hname. rewrite Hname.
  destruct (disallowAdditionalProperties cfg); [reflexivity|].
  destruct (Z.eqb (FieldDescriptorProto.GetLabel desc) LABEL_OPTIONAL),
           (Z.eqb (FieldDescriptorProto.GetLabel desc) LABEL_REQUIRED);
    reflexivity.
Qed.




(** ** Fuel *)

Lemma refines_refl {A : Type} (o : outcome A) : refines o o.
Proof. now right. Qed.

Lemma refines_trans {A : Type} (o1 o2 o3 : outcome A) :
  refines o1 o2 -> refines o2 o3 -> refines o1 o3.
Proof.
  intros [-> | ->]; [now left|]. intros H. exact H.
Qed.

Lemma bind_refines {A B : Type} (m1 m2 : M A) (k1 k2 : A -> M B) st :
  refines (m1 st) (m2 st) ->
  (forall a st0, refines (k1 a st0) (k2 a st0)) ->
  refines (bind m1 k1 st) (bind m2 k2 st).
Proof.
  unfold bind. intros [H | H] Hk; rewrite H; [now left|].
  destruct (m2 st) as [[a st0]| |]; [apply Hk | now right | now right].
Qed.

Section Fuel.

Variable cfg : Config.
Variable MarshalIndent : jsonschema_Type -> result string.

Lemma convertField_with_refines
    (rec1 rec2 : PkgRef -> ptr -> M (jsonschema_Type * option string)) :
  (forall pkg m st, refines (rec1 pkg m st) (rec2 pkg m st)) ->
  forall curPkg desc msg st,
    refines (convertField_with cfg rec1 curPkg desc msg st)
            (convertField_with cfg rec2 curPkg desc msg st).
Proof.
  intros Hrec curPkg desc msg st. unfold convertField_with.
  apply bind_refines; [apply refines_refl|].
  intros [t|e] st0; [|apply refines_refl].
  destruct (_ && _); [apply refines_refl|].
  destruct (String.eqb _ _); [|apply refines_refl].
  apply bind_refines; [apply refines_refl|]. intros st1 st2.
  destruct (lookupType st1 curPkg (FieldDescriptorProto.GetTypeName desc))
    as [recordType|]; [|apply refines_refl].
  apply bind_refines; [apply refines_refl|]. intros _ st3.
  apply bind_refines; [apply Hrec|]. intros [x err] st4. apply refines_refl.
Qed.

Lemma fieldLoop_refines
    (c1 c2 : FieldDescriptorProto.t -> M (result jsonschema_Type)) :
  (forall f st, refines (c1 f st) (c2 f st)) ->
  forall fields t st,
    refines (fieldLoop c1 fields t st) (fieldLoop c2 fields t st).
Proof.
  intros Hc fields. induction fields as [|f fields IH]; intros t st; simpl.
  - apply refines_refl.
  - apply bind_refines; [apply Hc|].
    intros [t1|e] st0; [apply IH | apply refines_refl].
Qed.

Lemma convertMessageType_fuel_S fuel :
  forall curPkg msg st,
    refines (convertMessageType cfg fuel curPkg msg st)
            (convertMessageType cfg (S fuel) curPkg msg st).
Proof.
  induction fuel as [|fuel IH]; intros curPkg msg st; [now left|].
  change (convertMessageType cfg (S fuel) curPkg msg)
    with (bind get (fun st0 =>
            fieldLoop
              (fun fieldDesc =>
                 convertField_with cfg (convertMessageType cfg fuel) curPkg
                                   fieldDesc msg)
              (Msg_GetField (heap st0) msg) (messageBase cfg))).
  change (convertMessageType cfg (S (S fuel)) curPkg msg)
    with (bind get (fun st0 =>
            fieldLoop
              (fun fieldDesc =>
                 convertField_with cfg (convertMessageType cfg (S fuel))
                                   curPkg fieldDesc msg)
              (Msg_GetField (heap st0) msg) (messageBase cfg))).
  apply bind_refines; [apply refines_refl|]. intros st0 st1.
  apply fieldLoop_refines. intros f st2.
  apply convertField_with_refines. exact IH.
Qed.

Lemma convertMessageType_fuel_le fuel fuel' :
  fuel <= fuel' ->
  forall curPkg msg st,
    refines (convertMessageType cfg fuel curPkg msg st)
            (convertMessageType cfg fuel' curPkg msg st).
Proof.
  induction 1 as [|fuel' _ IH]; intros curPkg msg st.
  - apply refines_refl.
  - eapply refines_trans; [apply IH | apply convertMessageType_fuel_S].
Qed.

(** More fuel never changes what a conversion returned. *)
Lemma convertMessageType_more_fuel fuel fuel' curPkg msg st r :
  fuel <= fuel' ->
  convertMessageType cfg fuel curPkg msg st = Done r ->
  convertMessageType cfg fuel' curPkg msg st = Done r.
Proof.
  intros Hle Hrun.
  destruct (convertMessageType_fuel_le fuel fuel' Hle curPkg msg st)
    as [H | H]; congruence.
Qed.

Lemma convertFile_messages_refines fuel fuel' :
  fuel <= fuel' ->
  forall pkg file msgs response st,
    refines (convertFile_messages cfg MarshalIndent fuel pkg file msgs
                                  response st)
            (convertFile_messages cfg MarshalIndent fuel' pkg file msgs
                                  response st).
Proof.
  intros Hle pkg file msgs.
  induction msgs as [|msg msgs IH]; intros response st; simpl.
  - apply refines_refl.
  - apply bind_refines; [apply refines_refl|]. intros st0 st1.
    apply bind_refines; [apply refines_refl|]. intros _ st2.
    apply bind_refines; [apply convertMessageType_fuel_le; exact Hle|].
    intros [schema [e|]] st3; [apply refines_refl|].
    destruct (MarshalIndent schema); [apply IH | apply refines_refl].
Qed.

Lemma convertFile_refines fuel fuel' :
  fuel <= fuel' ->
  forall file st,
    refines (convertFile cfg MarshalIndent fuel file st)
            (convertFile cfg MarshalIndent fuel' file st).
Proof.
  intros Hle file st. unfold convertFile.
  destruct (_ =? _)%nat; [apply refines_refl|].
  apply bind_refines; [apply refines_refl|]. intros st0 st1.
  destruct (relativelyLookupPackage _ _ _); [|apply refines_refl].
  apply convertFile_messages_refines. exact Hle.
Qed.

Lemma convertFiles_refines fuel fuel' :
  fuel <= fuel' ->
  forall targets enums files res st,
    refines (convertFiles cfg MarshalIndent fuel targets enums files res st)
            (convertFiles cfg MarshalIndent fuel' targets enums files res st).
Proof.
  intros Hle targets enums files.
  induction files as [|file files IH]; intros res st; simpl.
  - apply refines_refl.
  - destruct (targets !! FileDescriptorProto.GetName file); [|apply IH].
    apply bind_refines; [apply convertFile_refines; exact Hle|].
    intros [docs|e] st0; [apply IH | apply refines_refl].
Qed.

(** More fuel never changes what a session returned. *)
Lemma convert_more_fuel fuel fuel' req st r :
  fuel <= fuel' ->
  convert cfg MarshalIndent fuel req st = Done r ->
  convert cfg MarshalIndent fuel' req st = Done r.
Proof.
  intros Hle Hrun.
  assert (H : refines (convert cfg MarshalIndent fuel req st)
                      (convert cfg MarshalIndent fuel' req st)).
  { unfold convert. apply bind_refines; [apply refines_refl|].
    intros enums st0. apply convertFiles_refines. exact Hle. }
  destruct H as [H | H]; congruence.
Qed.

End Fuel.

(** * Further properties *)

(** ** Splitting names *)

Lemma relativelyLookupType_split h pkg name :
  relativelyLookupType h pkg name
  = match Strings.SplitN2 name "." with
    | [c0] => ProtoPackage.types pkg !! c0
    | [c0; c1] =>
        match ProtoPackage.children pkg !! c0 with
        | Some child => relativelyLookupType h child c1
        | None =>
            match ProtoPackage.types pkg !! c0 with
            | Some msg => relativelyLookupNestedType h msg c1
            | None => None
            end
        end
    | _ => None
    end.
Proof.
  rewrite relativelyLookupType_equation_1.
  destruct (inspect (Strings.SplitN2 name ".")) as [x e].
  destruct x as [|s [|s0 [|s1 l]]]; simpl; rewrite e; reflexivity.
Qed.

Lemma Cut_noDot s : noDot s = true -> Strings.Cut s "." = None.
Proof.
  induction s as [|c s IH]; simpl; [reflexivity|].
  intros H. apply andb_prop in H. destruct H as [Hc Hs].
  apply negb_true_iff in Hc. rewrite Hc, (IH Hs). reflexivity.
Qed.

Lemma Cut_dot c rest :
  noDot c = true -> Strings.Cut (c +:+ "." +:+ rest) "." = Some (c, rest).
Proof.
  induction c as [|a c IH]; simpl; [reflexivity|].
  intros H. apply andb_prop in H. destruct H as [Ha Hc].
  apply negb_true_iff in Ha. rewrite Ha, (IH Hc). reflexivity.
Qed.

Lemma Split_noDot s : noDot s = true -> Strings.Split s "." = [s].
Proof.
  induction s as [|c s IH]; simpl; [reflexivity|].
  intros H. apply andb_prop in H. destruct H as [Hc Hs].
  apply negb_true_iff in Hc. rewrite Hc, (IH Hs). reflexivity.
Qed.

Lemma Split_dot c rest :
  noDot c = true ->
  Strings.Split (c +:+ "." +:+ rest) "." = c :: Strings.Split rest ".".
Proof.
  induction c as [|a c IH]; simpl; [reflexivity|].
  intros H. apply andb_prop in H. destruct H as [Ha Hc].
  apply negb_true_iff in Ha. rewrite Ha, (IH Hc). reflexivity.
Qed.

Lemma Join_cons s segs :
  segs <> [] -> Join (s :: segs) "." = s +:+ "." +:+ Join segs ".".
Proof. destruct segs; [congruence | reflexivity]. Qed.

Lemma Split_Join segs :
  segs <> [] -> Forall (fun s => noDot s = true) segs ->
  Strings.Split (Join segs ".") "." = segs.
Proof.
  induction segs as [|s segs IH]; [congruence|].
  intros _ Hall. apply Forall_cons in Hall. destruct Hall as [Hs Hall].
  destruct segs as [|s1 segs]; [apply Split_noDot; exact Hs|].
  rewrite Join_cons by congruence.
  rewrite (Split_dot _ _ Hs), IH; [reflexivity | congruence | exact Hall].
Qed.

Lemma SplitN2_noDot s : noDot s = true -> Strings.SplitN2 s "." = [s].
Proof. intros H. unfold Strings.SplitN2. now rewrite Cut_noDot. Qed.

Lemma SplitN2_dot c rest :
  noDot c = true -> Strings.SplitN2 (c +:+ "." +:+ rest) "." = [c; rest].
Proof. intros H. unfold Strings.SplitN2. now rewrite Cut_dot. Qed.

(** ** Registering and looking up *)

Lemma relativelyLookupType_registerIn h segs :
  Forall (fun s => noDot s = true) segs ->
  forall atGlobal pkg key msg,
    noDot key = true ->
    (atGlobal = true -> hd "" segs <> "" \/ segs = []) ->
    relativelyLookupType h (registerIn atGlobal pkg segs key msg)
      (Join (segs ++ [key]) ".") = Some msg.
Proof.
  induction 1 as [|s segs Hs Hall IH]; intros atGlobal pkg key msg Hkey Hhd.
  - simpl. rewrite relativelyLookupType_split, (SplitN2_noDot _ Hkey).
    simpl. apply lookup_insert_eq.
  - assert (Hskip : atGlobal && String.eqb s "" = false).
    { destruct atGlobal; [|reflexivity]. simpl. apply String.eqb_neq.
      destruct (Hhd eq_refl) as [H | H]; [exact H | discriminate]. }
    simpl registerIn. rewrite Hskip.
    change ((s :: segs) ++ [key]) with (s :: (segs ++ [key])).
    rewrite Join_cons by (destruct segs; discriminate).
    rewrite relativelyLookupType_split, (SplitN2_dot _ _ Hs).
    simpl. rewrite lookup_insert_eq. apply IH; [exact Hkey | discriminate].
Qed.

Lemma isSegment_noDot segs :
  Forall (fun s => isSegment s = true) segs ->
  Forall (fun s => noDot s = true) segs.
Proof.
  intros Hall. eapply Forall_impl; [exact Hall|].
  intros s H. unfold isSegment in H. apply andb_prop in H. tauto.
Qed.

Lemma isSegment_hd segs :
  Forall (fun s => isSegment s = true) segs -> hd "" segs <> "" \/ segs = [].
Proof.
  intros H. destruct H as [|s segs Hs _]; [now right|]. left. simpl.
  unfold isSegment in Hs. apply andb_prop in Hs. destruct Hs as [_ Hs].
  apply negb_true_iff, String.eqb_neq in Hs. exact Hs.
Qed.

(** The segments [registerType] walks for a package name made of
    [segs]: an empty name gives one empty segment, which is skipped. *)
Lemma registerIn_Split_Join segs pkg key msg :
  Forall (fun s => isSegment s = true) segs ->
  registerIn true pkg (Strings.Split (Join segs ".") ".") key msg
  = registerIn true pkg segs key msg.
Proof.
  intros Hall. destruct segs as [|s segs]; [reflexivity|].
  rewrite Split_Join; [reflexivity | discriminate |].
  apply isSegment_noDot. exact Hall.
Qed.

Lemma lookupType_absolute st pkg name :
  lookupType st pkg ("." +:+ name)
  = relativelyLookupType (heap st) (globalPkg st) name.
Proof.
  unfold lookupType, Strings.HasPrefix.
  change ("." +:+ name) with (String "." name). simpl.
  destruct name; reflexivity.
Qed.

(** X1: a message registered under a package is found again under its
    fully qualified name, from every package. *)
Theorem X1_register_then_lookup :
  forall (st : State) (segs : list string) (msg : ptr) (curPkg : PkgRef),
    Forall (fun s => isSegment s = true) segs ->
    noDot (Msg_GetName (heap st) msg) = true ->
    exists st',
      registerType (Some (Join segs ".")) msg st = Done (tt, st')
      /\ heap st' = heap st
      /\ lookupType st' curPkg
           ("." +:+ Join (segs ++ [Msg_GetName (heap st) msg]) ".")
         = Some msg.
Proof.
  intros st segs msg curPkg Hsegs Hname. eexists. split; [reflexivity|].
  split; [reflexivity|].
  rewrite lookupType_absolute. simpl globalPkg. simpl heap.
  rewrite registerIn_Split_Join by exact Hsegs.
  apply relativelyLookupType_registerIn.
  - apply isSegment_noDot. exact Hsegs.
  - exact Hname.
  - intros _. apply isSegment_hd. exact Hsegs.
Qed.

Lemma X1_register_then_lookup_witness :
  exists st',
    registerType (Some (Join ["acme"; "shop"] ".")) 1%nat orderState
    = Done (tt, st')
    /\ heap st' = heap orderState
    /\ lookupType st' ["elsewhere"]
         ("." +:+ Join (["acme"; "shop"] ++ [Msg_GetName (heap orderState) 1])
                       ".")
       = Some 1%nat.
Proof.
  apply (X1_register_then_lookup orderState ["acme"; "shop"] 1%nat
           ["elsewhere"]).
  - repeat constructor.
  - vm_compute. reflexivity.
Defined.

(** ** Packages of the registry *)

Lemma relativelyLookupPackage_registerIn segs :
  forall atGlobal pkg self key msg,
    (atGlobal = true -> hd "" segs <> "" \/ segs = []) ->
    relativelyLookupPackage_loop (registerIn atGlobal pkg segs key msg)
                                 self segs
    = Some (rev segs ++ self).
Proof.
  induction segs as [|s segs IH]; intros atGlobal pkg self key msg Hhd.
  - reflexivity.
  - assert (Hskip : atGlobal && String.eqb s "" = false).
    { destruct atGlobal; [|reflexivity]. simpl. apply String.eqb_neq.
      destruct (Hhd eq_refl) as [H | H]; [exact H | discriminate]. }
    simpl. rewrite Hskip. simpl. rewrite lookup_insert_eq.
    rewrite IH by discriminate. now rewrite <- app_assoc.
Qed.

Lemma relativelyLookupPackage_loop_types pkg types self comps :
  relativelyLookupPackage_loop
    (ProtoPackage.mk (ProtoPackage.name pkg) (ProtoPackage.children pkg) types)
    self comps
  = relativelyLookupPackage_loop pkg self comps.
Proof. destruct comps; reflexivity. Qed.

(** A package that can be reached stays reachable, at the same place,
    whatever is registered later. *)
Lemma relativelyLookupPackage_kept nodes :
  forall atGlobal pkg self comps r key msg,
    relativelyLookupPackage_loop pkg self comps = Some r ->
    relativelyLookupPackage_loop (registerIn atGlobal pkg nodes key msg)
                                 self comps = Some r.
Proof.
  induction nodes as [|node nodes IH];
    intros atGlobal pkg self comps r key msg Hfound.
  - simpl. rewrite relativelyLookupPackage_loop_types. exact Hfound.
  - simpl. destruct (atGlobal && String.eqb node ""); [now apply IH|].
    destruct comps as [|c comps]; [exact Hfound|].
    simpl in *. destruct (decide (c = node)) as [->|Hne].
    + rewrite lookup_insert_eq.
      destruct (ProtoPackage.children pkg !! node) as [child|];
        [|discriminate].
      now apply IH.
    + rewrite lookup_insert_ne by congruence. exact Hfound.
Qed.

Lemma registerIn_rootClean nodes :
  forall pkg key msg,
    rootClean pkg -> rootClean (registerIn true pkg nodes key msg).
Proof.
  unfold rootClean.
  induction nodes as [|node nodes IH]; intros pkg key msg Hclean.
  - exact Hclean.
  - simpl. destruct (String.eqb node "") eqn:Hnode; [now apply IH|].
    simpl. apply String.eqb_neq in Hnode.
    rewrite lookup_insert_ne by congruence. exact Hclean.
Qed.

Lemma registerMessages_inv (P : ProtoPackage.t -> Prop) pkgName msgs :
  (forall pkg nodes key msg, P pkg -> P (registerIn true pkg nodes key msg)) ->
  forall st u st',
    registerMessages pkgName msgs st = Done (u, st') ->
    P (globalPkg st) -> P (globalPkg st').
Proof.
  intros Hstep. induction msgs as [|msg msgs IH]; intros st u st'; simpl.
  - intros [= _ <-]. auto.
  - unfold bind, registerType. intros Hrun HP.
    eapply IH; [exact Hrun|]. simpl. apply Hstep. exact HP.
Qed.

Lemma loadFiles_inv (P : ProtoPackage.t -> Prop) files :
  (forall pkg nodes key msg, P pkg -> P (registerIn true pkg nodes key msg)) ->
  forall acc st enums st',
    loadFiles files acc st = Done (enums, st') ->
    P (globalPkg st) -> P (globalPkg st').
Proof.
  intros Hstep. induction files as [|file files IH]; intros acc st enums st';
    simpl.
  - intros [= _ <-]. auto.
  - unfold bind.
    destruct (registerMessages (FileDescriptorProto.Package file)
                (FileDescriptorProto.MessageType file) st)
      as [[[] st0]| |] eqn:Hreg; try discriminate.
    intros Hrun HP. eapply IH; [exact Hrun|].
    eapply registerMessages_inv; eassumption.
Qed.

(** X2: once the first pass of [convert] is over, the package of every
    file of the forest that declares a message can be looked up: for
    such a file [convertFile] finds its package. *)
Theorem X2_packages_of_the_forest_resolve :
  forall (files : list FileDescriptorProto.t)
         (acc enums : list EnumDescriptorProto.t) (st st1 : State)
         (file : FileDescriptorProto.t) (segs : list string),
    loadFiles files acc st = Done (enums, st1) ->
    In file files ->
    FileDescriptorProto.MessageType file <> [] ->
    FileDescriptorProto.Package file = Some (Join segs ".") ->
    segs <> [] ->
    Forall (fun s => isSegment s = true) segs ->
    relativelyLookupPackage (globalPkg st1) []
                            (FileDescriptorProto.GetPackage file)
    = Some (rev segs).
Proof.
  intros files acc enums st st1 file segs Hload Hin Hmsgs Hpkg Hne Hsegs.
  unfold relativelyLookupPackage, FileDescriptorProto.GetPackage.
  rewrite Hpkg. simpl.
  rewrite Split_Join; [|exact Hne | apply isSegment_noDot; exact Hsegs].
  revert acc st Hload.
  induction files as [|f files IH]; intros acc st Hload; [destruct Hin|].
  simpl in Hload. unfold bind in Hload.
  destruct (registerMessages (FileDescriptorProto.Package f)
              (FileDescriptorProto.MessageType f) st)
    as [[[] st0]| |] eqn:Hreg; try discriminate.
  destruct Hin as [-> | Hin]; [|eapply IH; eassumption].
  eapply (loadFiles_inv
            (fun pkg => relativelyLookupPackage_loop pkg [] segs
                        = Some (rev segs))); [|exact Hload|].
  { intros pkg nodes key msg. apply relativelyLookupPackage_kept. }
  clear Hload IH. rewrite Hpkg in Hreg.
  destruct (FileDescriptorProto.MessageType file) as [|msg msgs];
    [congruence|].
  simpl in Hreg. unfold bind, registerType in Hreg.
  eapply (registerMessages_inv
            (fun pkg => relativelyLookupPackage_loop pkg [] segs
                        = Some (rev segs))); [|exact Hreg|].
  { intros pkg nodes key m. apply relativelyLookupPackage_kept. }
  simpl. rewrite Split_Join; [|exact Hne | apply isSegment_noDot; exact Hsegs].
  rewrite relativelyLookupPackage_registerIn.
  - now rewrite app_nil_r.
  - intros _. apply isSegment_hd. exact Hsegs.
Qed.

Lemma X2_packages_of_the_forest_resolve_witness :
  relativelyLookupPackage (globalPkg (loaded orderRequest orderState)) []
    (FileDescriptorProto.GetPackage
       (FileDescriptorProto.mk (Some "b.proto") (Some "p") [2%nat] []))
  = Some (rev ["p"]).
Proof.
  apply (X2_packages_of_the_forest_resolve
           (CodeGeneratorRequest.ProtoFile orderRequest) []
           (allEnums orderRequest) orderState
           (loaded orderRequest orderState)
           (FileDescriptorProto.mk (Some "b.proto") (Some "p") [2%nat] [])
           ["p"]).
  - apply loadFiles_loaded.
  - simpl. right. left. reflexivity.
  - simpl. discriminate.
  - reflexivity.
  - discriminate.
  - repeat constructor.
Defined.

(** X3: a file that declares a message but names no package cannot be
    converted: the root never has a child with the empty name, so the
    lookup of the package fails and [convertFile] reports it. *)
Theorem X3_file_without_package_fails :
  forall (cfg : Config) (MarshalIndent : jsonschema_Type -> result string)
         (fuel : nat) (files : list FileDescriptorProto.t)
         (acc enums : list EnumDescriptorProto.t) (st st1 : State)
         (file : FileDescriptorProto.t),
    rootClean (globalPkg st) ->
    loadFiles files acc st = Done (enums, st1) ->
    FileDescriptorProto.MessageType file <> [] ->
    FileDescriptorProto.GetPackage file = "" ->
    convertFile cfg MarshalIndent fuel file st1
    = Done (Err "no such package found: ", st1).
Proof.
  intros cfg MarshalIndent fuel files acc enums st st1 file
         Hclean Hload Hmsgs Hpkg.
  assert (Hclean1 : rootClean (globalPkg st1)).
  { eapply (loadFiles_inv rootClean); [|exact Hload | exact Hclean].
    intros pkg nodes key msg. apply registerIn_rootClean. }
  unfold convertFile.
  destruct (FileDescriptorProto.MessageType file) as [|m ms]; [congruence|].
  simpl. unfold bind, get, relativelyLookupPackage. rewrite Hpkg. simpl.
  unfold rootClean in Hclean1. rewrite Hclean1. reflexivity.
Qed.

Lemma X3_file_without_package_fails_witness :
  convertFile defaultConfig sampleMarshal 1
    (FileDescriptorProto.mk (Some "m.proto") None [1%nat] [])
    (loaded partialRequest partialState)
  = Done (Err "no such package found: ", loaded partialRequest partialState).
Proof.
  apply (X3_file_without_package_fails defaultConfig sampleMarshal 1
           (CodeGeneratorRequest.ProtoFile partialRequest) []
           (allEnums partialRequest) partialState).
  - reflexivity.
  - apply loadFiles_loaded.
  - simpl. discriminate.
  - reflexivity.
Defined.

(** ** The order of resolution *)

(** X4: how a dotted name is resolved inside a package. A child package
    named like the first component wins, even when a message of that
    name has the wanted nested type; without such a child the rest is
    looked up among the nested types of the message of that name;
    without either the lookup fails. *)
Theorem X4_package_before_message :
  forall (h : gmap nat DescriptorProto.t) (pkg : ProtoPackage.t)
         (c0 rest : string),
    noDot c0 = true ->
    relativelyLookupType h pkg (c0 +:+ "." +:+ rest)
    = match ProtoPackage.children pkg !! c0, ProtoPackage.types pkg !! c0 with
      | Some child, _ => relativelyLookupType h child rest
      | None, Some msg => relativelyLookupNestedType h msg rest
      | None, None => None
      end.
Proof.
  intros h pkg c0 rest Hc0.
  rewrite relativelyLookupType_split, (SplitN2_dot _ _ Hc0).
  destruct (ProtoPackage.children pkg !! c0),
           (ProtoPackage.types pkg !! c0); reflexivity.
Qed.

Lemma X4_package_before_message_witness :
  relativelyLookupType (heap leakState) (globalPkg leakState)
                       ("p" +:+ "." +:+ "Inner")
  = match ProtoPackage.children (globalPkg leakState) !! "p",
          ProtoPackage.types (globalPkg leakState) !! "p" with
    | Some child, _ => relativelyLookupType (heap leakState) child "Inner"
    | None, Some msg => relativelyLookupNestedType (heap leakState) msg "Inner"
    | None, None => None
    end.
Proof.
  apply (X4_package_before_message (heap leakState) (globalPkg leakState)
           "p" "Inner").
  reflexivity.
Defined.

Lemma lookupType_relative st pkg name :
  Strings.HasPrefix name "." = false ->
  lookupType st pkg name = lookupType_loop st pkg name.
Proof. intros H. unfold lookupType. now rewrite H. Qed.

Lemma lookupType_loop_unfold st pkg name :
  lookupType_loop st pkg name
  = match match deref (globalPkg st) pkg with
          | Some node => relativelyLookupType (heap st) node name
          | None => None
          end with
    | Some desc => Some desc
    | None =>
        match pkg with
        | [] => None
        | _ :: parent => lookupType_loop st parent name
        end
    end.
Proof. destruct pkg; reflexivity. Qed.

(** X5: a relative name is looked up from the current package outwards.
    What the current package resolves is the answer; and a name the root
    resolves is found from every package (by the root at the latest). *)
Theorem X5_relative_lookup_walks_up :
  forall (st : State) (pkg : PkgRef) (name : string) (d : ptr),
    Strings.HasPrefix name "." = false ->
    (forall node,
        deref (globalPkg st) pkg = Some node ->
        relativelyLookupType (heap st) node name = Some d ->
        lookupType st pkg name = Some d)
    /\ (relativelyLookupType (heap st) (globalPkg st) name = Some d ->
        lookupType st [] name = Some d
        /\ exists d', lookupType st pkg name = Some d').
Proof.
  intros st pkg name d Hrel. rewrite !lookupType_relative by exact Hrel.
  split.
  - intros node Hnode Hfound.
    rewrite lookupType_loop_unfold, Hnode, Hfound. reflexivity.
  - intros Hroot.
    assert (Hatroot : lookupType_loop st [] name = Some d).
    { rewrite lookupType_loop_unfold. unfold deref. simpl. now rewrite Hroot. }
    split; [exact Hatroot|].
    induction pkg as [|c pkg IH]; [now exists d|].
    rewrite lookupType_loop_unfold.
    destruct (match deref (globalPkg st) (c :: pkg) with
              | Some node => relativelyLookupType (heap st) node name
              | None => None
              end) as [d0|]; [now exists d0 | exact IH].
Qed.

Lemma X5_relative_lookup_walks_up_witness :
  (forall node,
      deref (globalPkg leakState) ["p"] = Some node ->
      relativelyLookupType (heap leakState) node "Inner" = Some 2%nat ->
      lookupType leakState ["p"] "Inner" = Some 2%nat)
  /\ (relativelyLookupType (heap leakState) (globalPkg leakState) "Inner"
      = Some 2%nat ->
      lookupType leakState [] "Inner" = Some 2%nat
      /\ exists d', lookupType leakState ["p"] "Inner" = Some d').
Proof.
  apply (X5_relative_lookup_walks_up leakState ["p"] "Inner" 2%nat).
  reflexivity.
Defined.

(** ** Nested types *)

Lemma append_assoc (a b c : string) : (a +:+ b) +:+ c = a +:+ (b +:+ c).
Proof.
  induction a as [|x a IH]; [reflexivity|].
  change (String x ((a +:+ b) +:+ c) = String x (a +:+ (b +:+ c))).
  now rewrite IH.
Qed.

Lemma Join_snoc segs c :
  segs <> [] -> Join (segs ++ [c]) "." = Join segs "." +:+ "." +:+ c.
Proof.
  induction segs as [|s segs IH]; [congruence|]. intros _.
  destruct segs as [|s1 segs]; [reflexivity|].
  change ((s :: s1 :: segs) ++ [c]) with (s :: ((s1 :: segs) ++ [c])).
  rewrite Join_cons by discriminate.
  rewrite IH by discriminate.
  rewrite (Join_cons s (s1 :: segs)) by discriminate.
  now rewrite append_assoc.
Qed.

Lemma relativelyLookupPackage_loop_empty name self comps :
  comps <> [] ->
  relativelyLookupPackage_loop (ProtoPackage.mk name ∅ ∅) self comps = None.
Proof. destruct comps; [congruence | reflexivity]. Qed.

Lemma relativelyLookupType_registerIn_nested h segs :
  Forall (fun s => noDot s = true) segs ->
  forall atGlobal pkg self key msg rest,
    noDot key = true ->
    (atGlobal = true -> hd "" segs <> "" \/ segs = []) ->
    relativelyLookupPackage_loop pkg self (segs ++ [key]) = None ->
    relativelyLookupType h (registerIn atGlobal pkg segs key msg)
      (Join (segs ++ [key]) "." +:+ "." +:+ rest)
    = relativelyLookupNestedType h msg rest.
Proof.
  induction 1 as [|s segs Hs Hall IH];
    intros atGlobal pkg self key msg rest Hkey Hhd Hnone.
  - simpl in *. rewrite relativelyLookupType_split, (SplitN2_dot _ _ Hkey).
    simpl. destruct (ProtoPackage.children pkg !! key); [discriminate|].
    now rewrite lookup_insert_eq.
  - assert (Hskip : atGlobal && String.eqb s "" = false).
    { destruct atGlobal; [|reflexivity]. simpl. apply String.eqb_neq.
      destruct (Hhd eq_refl) as [H | H]; [exact H | discriminate]. }
    simpl registerIn. rewrite Hskip.
    change ((s :: segs) ++ [key]) with (s :: (segs ++ [key])) in *.
    rewrite Join_cons by (destruct segs; discriminate).
    rewrite append_assoc. change (("." +:+ Join (segs ++ [key]) ".") +:+ "." +:+ rest)
      with ("." +:+ (Join (segs ++ [key]) "." +:+ "." +:+ rest)).
    rewrite relativelyLookupType_split, (SplitN2_dot _ _ Hs).
    simpl. rewrite lookup_insert_eq.
    apply (IH false _ (s :: self)); [exact Hkey | discriminate |].
    simpl in Hnone.
    destruct (ProtoPackage.children pkg !! s); [exact Hnone|].
    apply relativelyLookupPackage_loop_empty. destruct segs; discriminate.
Qed.

(** X6: the nested types of a registered message are found under the
    qualified name of the message followed by their own name, the first
    nested type of that name being the answer, provided no package bears
    the qualified name of the message. *)
Theorem X6_nested_type_lookup :
  forall (st : State) (segs : list string) (msg : ptr) (curPkg : PkgRef)
         (c : string),
    Forall (fun s => isSegment s = true) segs ->
    noDot (Msg_GetName (heap st) msg) = true ->
    noDot c = true ->
    relativelyLookupPackage_loop (globalPkg st) []
      (segs ++ [Msg_GetName (heap st) msg]) = None ->
    exists st',
      registerType (Some (Join segs ".")) msg st = Done (tt, st')
      /\ lookupType st' curPkg
           ("." +:+ Join (segs ++ [Msg_GetName (heap st) msg; c]) ".")
         = List.find
             (fun nested => String.eqb (Msg_GetName (heap st) nested) c)
             (Msg_GetNestedType (heap st) msg).
Proof.
  intros st segs msg curPkg c Hsegs Hname Hc Hnone.
  eexists. split; [reflexivity|].
  rewrite lookupType_absolute. simpl globalPkg. simpl heap.
  rewrite registerIn_Split_Join by exact Hsegs.
  change (segs ++ [Msg_GetName (heap st) msg; c])
    with (segs ++ [Msg_GetName (heap st) msg] ++ [c]).
  rewrite app_assoc, Join_snoc by (destruct segs; discriminate).
  rewrite (relativelyLookupType_registerIn_nested _ _
             (isSegment_noDot _ Hsegs) true (globalPkg st) []);
    [| exact Hname | intros _; apply isSegment_hd; exact Hsegs | exact Hnone].
  unfold relativelyLookupNestedType. rewrite (Split_noDot _ Hc). simpl.
  destruct (List.find _ _); reflexivity.
Qed.

Lemma X6_nested_type_lookup_witness :
  exists st',
    registerType (Some (Join ["p"] ".")) 1%nat nestedState = Done (tt, st')
    /\ lookupType st' []
         ("." +:+ Join (["p"] ++ [Msg_GetName (heap nestedState) 1; "Inner"])
                       ".")
       = List.find
           (fun nested =>
              String.eqb (Msg_GetName (heap nestedState) nested) "Inner")
           (Msg_GetNestedType (heap nestedState) 1).
Proof.
  apply (X6_nested_type_lookup nestedState ["p"] 1%nat [] "Inner").
  - repeat constructor.
  - vm_compute. reflexivity.
  - reflexivity.
  - vm_compute. reflexivity.
Defined.

(** ** Standalone enums and enum-only files *)

Lemma enumTypeValues_spec cfg values acc :
  enumTypeValues cfg values acc
  = acc ++ (if allowEnumOneOf cfg && allowOneOf cfg
            then enumPairs values else enumNames values).
Proof.
  revert acc. induction values as [|v values IH]; intros acc; simpl.
  - destruct (allowEnumOneOf cfg && allowOneOf cfg); simpl;
      now rewrite app_nil_r.
  - rewrite IH. destruct (allowEnumOneOf cfg && allowOneOf cfg); simpl;
      now rewrite <- !app_assoc.
Qed.

Lemma convertEnumType_enumSchema cfg enum :
  convertEnumType cfg enum = (enumSchema cfg enum, None).
Proof.
  unfold convertEnumType, enumSchema.
  rewrite enumTypeValues_spec. unfold allowEnumOneOf, allowOneOf.
  destruct (disallowEnumOneOf cfg), (disallowOneOf cfg); reflexivity.
Qed.

(** X7: the schema of a standalone enum. It lists the values in
    declaration order, as (name, number) pairs under the union of string
    and integer when enum-one-of and one-of are both enabled, as names
    under the bare string otherwise; [allow_null_values] never makes it
    nullable, and no error is returned. *)
Theorem X7_standalone_enum_schema :
  forall (cfg : Config) (enum : EnumDescriptorProto.t),
    convertEnumType cfg enum = (enumSchema cfg enum, None).
Proof.
  intros cfg enum. unfold convertEnumType, enumSchema.
  rewrite enumTypeValues_spec. unfold allowEnumOneOf, allowOneOf.
  destruct (disallowEnumOneOf cfg), (disallowOneOf cfg); reflexivity.
Qed.

Lemma convertFile_enums_docs cfg MarshalIndent enums :
  forall contents response,
    Forall2 (fun enum content =>
               MarshalIndent (enumSchema cfg enum) = Ok content)
            enums contents ->
    convertFile_enums cfg MarshalIndent enums response
    = Ok (response ++ zip_with enumDocument enums contents).
Proof.
  induction enums as [|enum enums IH]; intros contents response Hall.
  - apply Forall2_nil_inv_l in Hall. subst. simpl. now rewrite app_nil_r.
  - apply Forall2_cons_inv_l in Hall.
    destruct Hall as (content & contents' & Hc & Hall & ->).
    cbn [convertFile_enums zip_with]. rewrite convertEnumType_enumSchema, Hc.
    rewrite (IH _ _ Hall). now rewrite <- app_assoc.
Qed.

(** X8: a file without messages yields one document per enum, in the
    order of the enums, named after the enum with the extension
    [.jsonschema] and holding its serialised schema; the state is left
    as it was. *)
Theorem X8_enum_file_documents :
  forall (cfg : Config) (MarshalIndent : jsonschema_Type -> result string)
         (fuel : nat) (file : FileDescriptorProto.t) (st : State)
         (contents : list string),
    FileDescriptorProto.MessageType file = [] ->
    Forall2 (fun enum content =>
               MarshalIndent (enumSchema cfg enum) = Ok content)
            (FileDescriptorProto.EnumType file) contents ->
    convertFile cfg MarshalIndent fuel file st
    = Done (Ok (zip_with enumDocument (FileDescriptorProto.EnumType file)
                         contents), st).
Proof.
  intros cfg MarshalIndent fuel file st contents Hmsgs Hall.
  unfold convertFile. rewrite Hmsgs. simpl. unfold ret.
  rewrite (convertFile_enums_docs _ _ _ _ _ Hall). reflexivity.
Qed.

Lemma X8_enum_file_documents_witness :
  convertFile defaultConfig sampleMarshal 0
    (FileDescriptorProto.mk (Some "e.proto") (Some "p") []
       [sampleChoice; EnumDescriptorProto.mk (Some "Color") []])
    emptyState
  = Done (Ok (zip_with enumDocument
                [sampleChoice; EnumDescriptorProto.mk (Some "Color") []]
                ["{type: }"; "{type: }"]), emptyState).
Proof.
  apply (X8_enum_file_documents defaultConfig sampleMarshal 0
           (FileDescriptorProto.mk (Some "e.proto") (Some "p") []
              [sampleChoice; EnumDescriptorProto.mk (Some "Color") []])
           emptyState ["{type: }"; "{type: }"]).
  - reflexivity.
  - repeat constructor.
Defined.

(** ** Enum fields in the remaining cases *)

(** X9: with one-of disabled and enum-one-of left enabled, an enum field
    still lists the numbers of the matched enum beside the names, while
    its type is the bare string: the loop over the values asks for
    enum-one-of only. A standalone enum under the same flags lists the
    names alone. *)
Theorem X9_enum_field_numbers_without_one_of :
  forall (cfg : Config) (desc : FieldDescriptorProto.t) (fuel : nat)
         (curPkg : PkgRef) (msg : ptr) (st : State)
         (e : EnumDescriptorProto.t),
    FieldDescriptorProto.GetType desc = FieldType_number TYPE_ENUM ->
    firstMatch (FieldDescriptorProto.GetTypeName desc)
               (Msg_GetEnumType (heap st) msg) e ->
    disallowOneOf cfg = true ->
    disallowEnumOneOf cfg = false ->
    (exists t node,
        convertField cfg fuel curPkg desc msg st = Done (Ok t, st)
        /\ valueNode desc t = Some node
        /\ Enum node = enumPairs (EnumDescriptorProto.Value e)
        /\ Type_ node = "string" /\ OneOf node = [])
    /\ Enum (fst (convertEnumType cfg e))
       = enumNames (EnumDescriptorProto.Value e).
Proof.
  intros cfg desc fuel curPkg msg st e Hk Hmatch Hone Henum. split.
  - unfold valueNode. open_convertField.
    rewrite Hk, FieldType_of_number_number. unfold enumCase.
    rewrite (enumLoop_firstMatch cfg _ _ _ _ Hmatch), enumValues_spec.
    unfold allowEnumOneOf, enumBase, repeatedCase, allowOneOf, allowEnumOneOf.
    rewrite Hone, Henum. simpl.
    destruct (Z.eqb (FieldDescriptorProto.GetLabel desc) LABEL_REPEATED);
      simpl.
    + destruct (EnumDescriptorProto.Value e) as [|v vs]; simpl;
        destruct (allowNullValues cfg); simpl;
        do 2 eexists; repeat split; reflexivity.
    + do 2 eexists. repeat split; reflexivity.
  - rewrite convertEnumType_enumSchema. unfold enumSchema.
    rewrite Hone, Henum. reflexivity.
Qed.

Lemma X9_enum_field_numbers_without_one_of_witness :
  (exists t node,
      convertField (mkConfig false false true false false false) 0 []
        (sampleField "choice" LABEL_OPTIONAL TYPE_ENUM (Some ".samples.Choice"))
        1 sampleEnumState
      = Done (Ok t, sampleEnumState)
      /\ valueNode (sampleField "choice" LABEL_OPTIONAL TYPE_ENUM
                                (Some ".samples.Choice")) t = Some node
      /\ Enum node = enumPairs (EnumDescriptorProto.Value sampleChoice)
      /\ Type_ node = "string" /\ OneOf node = [])
  /\ Enum (fst (convertEnumType (mkConfig false false true false false false)
                                sampleChoice))
     = enumNames (EnumDescriptorProto.Value sampleChoice).
Proof.
  apply (X9_enum_field_numbers_without_one_of
           (mkConfig false false true false false false)
           (sampleField "choice" LABEL_OPTIONAL TYPE_ENUM
                        (Some ".samples.Choice"))
           0 [] 1 sampleEnumState sampleChoice).
  - reflexivity.
  - exists [], []. split; [reflexivity|]. split; [constructor|].
    exists "Choice". split; reflexivity.
  - reflexivity.
  - reflexivity.
Defined.

Lemma enumLoop_noMatch cfg typeName enums acc :
  noMatch typeName enums ->
  enumLoop cfg typeName enums false acc = Done (false, acc).
Proof.
  induction 1 as [|e enums (n & Hn & Hsuf) _ IH]; simpl; [reflexivity|].
  rewrite Hn, Hsuf. simpl. exact IH.
Qed.

(** X10: an enum field whose type name matches no enum of the enclosing
    message is not an error: the conversion succeeds, leaves the state
    alone and returns the schema of an enum without allowed values. *)
Theorem X10_unmatched_enum_is_not_fatal :
  forall (cfg : Config) (desc : FieldDescriptorProto.t) (fuel : nat)
         (curPkg : PkgRef) (msg : ptr) (st : State) (name typeName : string),
    FieldDescriptorProto.GetType desc = FieldType_number TYPE_ENUM ->
    FieldDescriptorProto.Name desc = Some name ->
    FieldDescriptorProto.TypeName desc = Some typeName ->
    noMatch typeName (Msg_GetEnumType (heap st) msg) ->
    exists t,
      convertField cfg fuel curPkg desc msg st = Done (Ok t, st)
      /\ Enum t = []
      /\ valueNode desc t = Some (enumBase cfg emptyType).
Proof.
  intros cfg desc fuel curPkg msg st name typeName Hk Hname Htype Hnone.
  unfold valueNode. open_convertField.
  rewrite Hk, FieldType_of_number_number. unfold enumCase.
  unfold FieldDescriptorProto.GetTypeName. rewrite Htype, Hname. simpl.
  rewrite (enumLoop_noMatch cfg _ _ _ Hnone).
  unfold enumBase, repeatedCase, allowEnumOneOf, allowOneOf.
  destruct (Z.eqb (FieldDescriptorProto.GetLabel desc) LABEL_REPEATED);
    destruct cfg as [[] [] [] [] [] []]; simpl;
    eexists; repeat split; reflexivity.
Qed.

Lemma X10_unmatched_enum_is_not_fatal_witness :
  exists t,
    convertField defaultConfig 0 []
      (sampleField "colour" LABEL_OPTIONAL TYPE_ENUM (Some ".samples.Colour"))
      1 sampleEnumState
    = Done (Ok t, sampleEnumState)
    /\ Enum t = []
    /\ valueNode (sampleField "colour" LABEL_OPTIONAL TYPE_ENUM
                              (Some ".samples.Colour")) t
       = Some (enumBase defaultConfig emptyType).
Proof.
  apply (X10_unmatched_enum_is_not_fatal defaultConfig
           (sampleField "colour" LABEL_OPTIONAL TYPE_ENUM
                        (Some ".samples.Colour"))
           0 [] 1 sampleEnumState "colour" ".samples.Colour").
  - reflexivity.
  - reflexivity.
  - reflexivity.
  - constructor; [|constructor]. exists "Choice". split; reflexivity.
Defined.

(** ** Fields of a message type *)

(** X11: a field whose declared kind is none of the eighteen known ones
    is refused with an error that shows the number of the kind; the
    state is left alone. *)
Theorem X11_unrecognized_field_type :
  forall (cfg : Config) (desc : FieldDescriptorProto.t) (fuel : nat)
         (curPkg : PkgRef) (msg : ptr) (st : State),
    (forall k, FieldDescriptorProto.GetType desc <> FieldType_number k) ->
    convertField cfg fuel curPkg desc msg st
    = Done (Err ("unrecognized field type: "
                 +:+ Strings.Itoa (FieldDescriptorProto.GetType desc)), st).
Proof.
  intros cfg desc fuel curPkg msg st Hnone. open_convertField.
  destruct (FieldType_of_number (FieldDescriptorProto.GetType desc))
    as [k|] eqn:Hk; [|reflexivity].
  exfalso. apply (Hnone k).
  revert Hk. generalize (FieldDescriptorProto.GetType desc). intros n.
  unfold FieldType_of_number.
  destruct n as [|p|p]; try discriminate.
  do 5 (try destruct p as [p|p|]); try discriminate;
    intros [= <-]; reflexivity.
Qed.

Lemma X11_unrecognized_field_type_witness :
  convertField defaultConfig 0 []
    (FieldDescriptorProto.mk (Some "odd") None (Some 19%Z) None None)
    0 emptyState
  = Done (Err ("unrecognized field type: "
               +:+ Strings.Itoa
                     (FieldDescriptorProto.GetType
                        (FieldDescriptorProto.mk (Some "odd") None
                                                 (Some 19%Z) None None))),
          emptyState).
Proof.
  apply (X11_unrecognized_field_type defaultConfig
           (FieldDescriptorProto.mk (Some "odd") None (Some 19%Z) None None)
           0 [] 0 emptyState).
  intros k. destruct k; vm_compute; discriminate.
Defined.

(** X12: a field of a message type whose name the registry cannot
    resolve is refused with an error that shows the name; nothing has
    been written to the state. *)
Theorem X12_unresolved_message_type :
  forall (cfg : Config) (k : FieldType) (desc : FieldDescriptorProto.t)
         (fuel : nat) (curPkg : PkgRef) (msg : ptr) (st : State),
    FieldDescriptorProto.GetType desc = FieldType_number k ->
    k = TYPE_MESSAGE \/ k = TYPE_GROUP ->
    FieldDescriptorProto.GetTypeName desc <> ".google.protobuf.Timestamp" ->
    lookupType st curPkg (FieldDescriptorProto.GetTypeName desc) = None ->
    convertField cfg fuel curPkg desc msg st
    = Done (Err ("no such message type named "
                 +:+ FieldDescriptorProto.GetTypeName desc), st).
Proof.
  intros cfg k desc fuel curPkg msg st Hk Hkind Hname Hlookup.
  unfold convertField, convertField_with.
  assert (Hsw : convertField_switch cfg desc msg st
                = Done (Ok (messageCase cfg desc emptyType), st)).
  { unfold convertField_switch. rewrite Hk, FieldType_of_number_number.
    destruct Hkind as [-> | ->]; reflexivity. }
  unfold bind at 1. rewrite Hsw.
  rewrite (messageCase_object cfg desc emptyType Hname).
  rewrite String.eqb_refl, andb_false_r.
  unfold bind, get. rewrite Hlookup. reflexivity.
Qed.

Lemma X12_unresolved_message_type_witness :
  convertField defaultConfig 1 ["p"]
    (sampleField "ghost" LABEL_OPTIONAL TYPE_MESSAGE (Some ".p.Ghost"))
    1 leakState
  = Done (Err ("no such message type named "
               +:+ FieldDescriptorProto.GetTypeName
                     (sampleField "ghost" LABEL_OPTIONAL TYPE_MESSAGE
                                  (Some ".p.Ghost"))), leakState).
Proof.
  apply (X12_unresolved_message_type defaultConfig TYPE_MESSAGE
           (sampleField "ghost" LABEL_OPTIONAL TYPE_MESSAGE (Some ".p.Ghost"))
           1 ["p"] 1 leakState).
  - reflexivity.
  - left. reflexivity.
  - vm_compute. discriminate.
  - vm_compute. reflexivity.
Defined.

(** X13: a field of a resolved message type. When the target converts,
    a repeated field becomes an array whose items are the schema of the
    target; any other field is an object that takes over the properties
    of the target and nothing else of it. The additional-properties
    marker comes from the flag or from the label of the field, not from
    the target; under nullability the type moves into a union with
    null. *)
Theorem X13_message_field :
  forall (cfg : Config) (k : FieldType) (desc : FieldDescriptorProto.t)
         (fuel : nat) (curPkg : PkgRef) (msg recordType : ptr)
         (st st1 st' : State) (target : jsonschema_Type),
    FieldDescriptorProto.GetType desc = FieldType_number k ->
    k = TYPE_MESSAGE \/ k = TYPE_GROUP ->
    FieldDescriptorProto.GetTypeName desc <> ".google.protobuf.Timestamp" ->
    lookupType st curPkg (FieldDescriptorProto.GetTypeName desc)
    = Some recordType ->
    enrich recordType msg st = Done (tt, st1) ->
    convertMessageType cfg fuel curPkg recordType st1
    = Done (target, None, st') ->
    exists t,
      convertField cfg fuel curPkg desc msg st = Done (Ok t, st')
      /\ AdditionalProperties t = fieldAdditionalProperties cfg desc
      /\ (if Z.eqb (FieldDescriptorProto.GetLabel desc) LABEL_REPEATED
          then Items t = Some target /\ Properties t = ∅
          else Items t = None /\ Properties t = Properties target)
      /\ (let ty := if Z.eqb (FieldDescriptorProto.GetLabel desc)
                            LABEL_REPEATED
                    then "array" else "object" in
          if allowNullValues cfg && negb (disallowOneOf cfg)
          then Type_ t = "" /\ OneOf t = [typeOnly "null"; typeOnly ty]
          else Type_ t = ty /\ OneOf t = []).
Proof.
  intros cfg k desc fuel curPkg msg recordType st st1 st' target
         Hk Hkind Hname Hlookup Henrich Hrec.
  unfold convertField, convertField_with.
  assert (Hsw : convertField_switch cfg desc msg st
                = Done (Ok (messageCase cfg desc emptyType), st)).
  { unfold convertField_switch. rewrite Hk, FieldType_of_number_number.
    destruct Hkind as [-> | ->]; reflexivity. }
  unfold bind at 1. rewrite Hsw.
  rewrite (messageCase_object cfg desc emptyType Hname).
  rewrite String.eqb_refl, andb_false_r.
  unfold bind, get. rewrite Hlookup, Henrich, Hrec. unfold ret.
  eexists. split; [reflexivity|].
  unfold messageCase, fieldAdditionalProperties, allowOneOf.
  apply String.eqb_neq in Hname. rewrite Hname.
  destruct (Z.eqb (FieldDescriptorProto.GetLabel desc) LABEL_REPEATED);
    destruct (allowNullValues cfg), (disallowOneOf cfg),
             (disallowAdditionalProperties cfg);
    destruct (Z.eqb (FieldDescriptorProto.GetLabel desc) LABEL_OPTIONAL),
             (Z.eqb (FieldDescriptorProto.GetLabel desc) LABEL_REQUIRED);
    simpl; repeat split; reflexivity.
Qed.

Lemma X13_message_field_witness :
  exists t,
    convertField defaultConfig 1 ["p"]
      (sampleField "inner" LABEL_REQUIRED TYPE_MESSAGE (Some ".p.Inner"))
      1 nestingState
    = Done (Ok t, snd nestingTarget)
    /\ AdditionalProperties t
       = fieldAdditionalProperties defaultConfig
           (sampleField "inner" LABEL_REQUIRED TYPE_MESSAGE (Some ".p.Inner"))
    /\ (if Z.eqb (FieldDescriptorProto.GetLabel
                    (sampleField "inner" LABEL_REQUIRED TYPE_MESSAGE
                                 (Some ".p.Inner"))) LABEL_REPEATED
        then Items t = Some (fst (fst nestingTarget)) /\ Properties t = ∅
        else Items t = None
             /\ Properties t = Properties (fst (fst nestingTarget)))
    /\ (let ty := if Z.eqb (FieldDescriptorProto.GetLabel
                              (sampleField "inner" LABEL_REQUIRED TYPE_MESSAGE
                                           (Some ".p.Inner"))) LABEL_REPEATED
                  then "array" else "object" in
        if allowNullValues defaultConfig && negb (disallowOneOf defaultConfig)
        then Type_ t = "" /\ OneOf t = [typeOnly "null"; typeOnly ty]
        else Type_ t = ty /\ OneOf t = []).
Proof.
  apply (X13_message_field defaultConfig TYPE_MESSAGE
           (sampleField "inner" LABEL_REQUIRED TYPE_MESSAGE (Some ".p.Inner"))
           1 ["p"] 1%nat 2%nat nestingState nestingEnriched).
  - reflexivity.
  - left. reflexivity.
  - vm_compute. discriminate.
  - vm_compute. reflexivity.
  - vm_compute. reflexivity.
  - vm_compute. reflexivity.
Defined.

(** ** The schema of a message *)

Lemma fieldLoop_node convert1 fields :
  forall t st t' e st',
    fieldLoop convert1 fields t st = Done (t', e, st') ->
    Version t' = Version t /\ Type_ t' = Type_ t /\ Format t' = Format t
    /\ Enum t' = Enum t /\ OneOf t' = OneOf t /\ Items t' = Items t
    /\ AdditionalProperties t' = AdditionalProperties t.
Proof.
  induction fields as [|f fields IH]; intros t st t' e st'; simpl.
  - intros [= <- _ _]. repeat split.
  - unfold bind. destruct (convert1 f st) as [[[t1|err] st1]| |];
      try discriminate.
    + intros H. apply IH in H. exact H.
    + intros [= <- _ _]. repeat split.
Qed.

(** X14: the root of a message schema. Whatever the fields are, and
    even when one of them fails, the node [convertMessageType] returns
    carries the draft-04 version marker, the type object (or the union of
    null and object under nullability), the additional-properties marker
    of the configuration, and no items, allowed values or format. *)
Theorem X14_message_root :
  forall (cfg : Config) (fuel : nat) (curPkg : PkgRef) (msg : ptr)
         (st st' : State) (t : jsonschema_Type) (e : option string),
    convertMessageType cfg fuel curPkg msg st = Done (t, e, st') ->
    Version t = "http://json-schema.org/draft-04/schema#"
    /\ AdditionalProperties t
       = (if disallowAdditionalProperties cfg then "false" else "true")
    /\ (if allowNullValues cfg && negb (disallowOneOf cfg)
        then Type_ t = "" /\ OneOf t = [typeOnly "null"; typeOnly "object"]
        else Type_ t = "object" /\ OneOf t = [])
    /\ Items t = None /\ Enum t = [] /\ Format t = "".
Proof.
  intros cfg fuel curPkg msg st st' t e.
  destruct fuel as [|fuel]; simpl; [discriminate|].
  unfold bind, get. intros H. apply fieldLoop_node in H.
  destruct H as (Hv & Hty & Hf & He & Ho & Hi & Ha).
  rewrite Hv, Hty, Hf, He, Ho, Hi, Ha.
  unfold messageBase, nullableOr, allowOneOf.
  destruct (allowNullValues cfg), (disallowOneOf cfg),
           (disallowAdditionalProperties cfg); simpl; repeat split.
Qed.

Lemma X14_message_root_witness :
  Version (fst (fst nestingTarget))
  = "http://json-schema.org/draft-04/schema#"
  /\ AdditionalProperties (fst (fst nestingTarget))
     = (if disallowAdditionalProperties defaultConfig
        then "false" else "true")
  /\ (if allowNullValues defaultConfig && negb (disallowOneOf defaultConfig)
      then Type_ (fst (fst nestingTarget)) = ""
           /\ OneOf (fst (fst nestingTarget))
              = [typeOnly "null"; typeOnly "object"]
      else Type_ (fst (fst nestingTarget)) = "object"
           /\ OneOf (fst (fst nestingTarget)) = [])
  /\ Items (fst (fst nestingTarget)) = None
  /\ Enum (fst (fst nestingTarget)) = []
  /\ Format (fst (fst nestingTarget)) = "".
Proof.
  apply (X14_message_root defaultConfig 1 ["p"] 2%nat nestingEnriched
           (snd nestingTarget) (fst (fst nestingTarget))
           (snd (fst nestingTarget))).
  vm_compute. reflexivity.
Defined.

Lemma fieldLoop_dom convert1 fields :
  forall t st t' st',
    fieldLoop convert1 fields t st = Done (t', None, st') ->
    dom (Properties t') = dom (Properties t) ∪ jsonNames fields.
Proof.
  unfold jsonNames.
  induction fields as [|f fields IH]; intros t st t' st'; simpl.
  - intros [= <- _]. now rewrite union_empty_r_L.
  - unfold bind. destruct (convert1 f st) as [[[t1|err] st1]| |];
      try discriminate.
    intros H. apply IH in H. rewrite H. simpl.
    rewrite dom_insert_L.
    rewrite (union_comm_L {[FieldDescriptorProto.GetJsonName f]}
                          (dom (Properties t))).
    now rewrite union_assoc_L.
Qed.

(** X15: when a message converts, the keys of its property map are
    exactly the JSON names of its fields: no field is dropped and
    nothing else is added (two fields with the same JSON name share one
    key). *)
Theorem X15_properties_are_the_fields :
  forall (cfg : Config) (fuel : nat) (curPkg : PkgRef) (msg : ptr)
         (st st' : State) (t : jsonschema_Type),
    convertMessageType cfg fuel curPkg msg st = Done (t, None, st') ->
    dom (Properties t) = jsonNames (Msg_GetField (heap st) msg).
Proof.
  intros cfg fuel curPkg msg st st' t.
  destruct fuel as [|fuel]; simpl; [discriminate|].
  unfold bind, get. intros H. apply fieldLoop_dom in H. rewrite H.
  assert (Hbase : Properties (messageBase cfg) = ∅).
  { unfold messageBase, nullableOr.
    destruct (allowNullValues cfg && allowOneOf cfg),
             (disallowAdditionalProperties cfg); reflexivity. }
  rewrite Hbase, dom_empty_L. now rewrite union_empty_l_L.
Qed.

Lemma X15_properties_are_the_fields_witness :
  dom (Properties (fst (fst nestingTarget)))
  = jsonNames (Msg_GetField (heap nestingEnriched) 2).
Proof.
  apply (X15_properties_are_the_fields defaultConfig 1 ["p"] 2%nat
           nestingEnriched (snd nestingTarget)).
  vm_compute. reflexivity.
Defined.

(** ** What a conversion leaves alone *)

Lemma sameShape_refl d : sameShape d d.
Proof. repeat split. Qed.

Lemma frame_refl st : frame st st.
Proof. intros p. destruct (heap st !! p); [apply sameShape_refl | exact I]. Qed.

Lemma frame_trans st1 st2 st3 : frame st1 st2 -> frame st2 st3 -> frame st1 st3.
Proof.
  intros H12 H23 p. specialize (H12 p). specialize (H23 p).
  destruct (heap st1 !! p), (heap st2 !! p), (heap st3 !! p);
    try contradiction; try exact I.
  destruct H12 as (? & ? & ?), H23 as (? & ? & ?).
  repeat split; congruence.
Qed.

Lemma frame_set_EnumType st p d enums :
  heap st !! p = Some d ->
  frame st (mkState (globalPkg st)
                    (<[p := Msg_set_EnumType d enums]> (heap st))).
Proof.
  intros Hp q. simpl. destruct (decide (q = p)) as [->|Hne].
  - rewrite Hp, lookup_insert_eq. repeat split.
  - rewrite lookup_insert_ne by congruence.
    destruct (heap st !! q); [apply sameShape_refl | exact I].
Qed.

Lemma enrich_frame recordType msg st u st' :
  enrich recordType msg st = Done (u, st') ->
  frame st st' /\ globalPkg st' = globalPkg st.
Proof.
  unfold enrich.
  destruct (heap st !! recordType) as [r|] eqn:Hr; [|discriminate].
  destruct (length (DescriptorProto.EnumType r) =? 0)%nat.
  - destruct (heap st !! msg) as [m|]; [|discriminate].
    intros [= _ <-]. split; [|reflexivity].
    apply frame_set_EnumType. exact Hr.
  - intros [= _ <-]. split; [apply frame_refl | reflexivity].
Qed.

Lemma injectEnums_frame msg enums st u st' :
  injectEnums msg enums st = Done (u, st') ->
  frame st st' /\ globalPkg st' = globalPkg st.
Proof.
  unfold injectEnums. destruct enums as [|e enums].
  - intros [= _ <-]. split; [apply frame_refl | reflexivity].
  - destruct (heap st !! msg) as [m|] eqn:Hm; [|discriminate].
    intros [= _ <-]. split; [|reflexivity].
    apply frame_set_EnumType. exact Hm.
Qed.

Section Frame.

Variable cfg : Config.
Variable MarshalIndent : jsonschema_Type -> result string.

Lemma convertField_with_frame
    (rec : PkgRef -> ptr -> M (jsonschema_Type * option string)) :
  (forall pkg m st x st',
      rec pkg m st = Done (x, st') ->
      frame st st' /\ globalPkg st' = globalPkg st) ->
  forall curPkg desc msg st r st',
    convertField_with cfg rec curPkg desc msg st = Done (r, st') ->
    frame st st' /\ globalPkg st' = globalPkg st.
Proof.
  intros Hrec curPkg desc msg st r st'.
  unfold convertField_with, bind at 1.
  destruct (convertField_switch cfg desc msg st) as [[[t|e] st0]| |] eqn:Hsw;
    try discriminate;
    apply convertField_switch_state in Hsw; subst st0.
  2: { intros [= _ <-]. split; [apply frame_refl | reflexivity]. }
  destruct (Z.eqb (FieldDescriptorProto.GetLabel desc) LABEL_REPEATED
            && negb (String.eqb (Type_ t) TYPE_OBJECT)).
  { intros [= _ <-]. split; [apply frame_refl | reflexivity]. }
  destruct (String.eqb (Type_ t) TYPE_OBJECT).
  2: { intros [= _ <-]. split; [apply frame_refl | reflexivity]. }
  unfold bind, get.
  destruct (lookupType st curPkg (FieldDescriptorProto.GetTypeName desc))
    as [recordType|].
  2: { intros [= _ <-]. split; [apply frame_refl | reflexivity]. }
  destruct (enrich recordType msg st) as [[[] st1]| |] eqn:Hen;
    try discriminate.
  apply enrich_frame in Hen. destruct Hen as [Hf1 Hg1].
  destruct (rec curPkg recordType st1) as [[[x err] st2]| |] eqn:Hr;
    try discriminate.
  apply Hrec in Hr. destruct Hr as [Hf2 Hg2].
  destruct err; intros [= _ <-];
    (split; [eapply frame_trans; eassumption | congruence]).
Qed.

Lemma fieldLoop_frame
    (convert1 : FieldDescriptorProto.t -> M (result jsonschema_Type)) :
  (forall f st r st',
      convert1 f st = Done (r, st') ->
      frame st st' /\ globalPkg st' = globalPkg st) ->
  forall fields t st x st',
    fieldLoop convert1 fields t st = Done (x, st') ->
    frame st st' /\ globalPkg st' = globalPkg st.
Proof.
  intros Hconv fields.
  induction fields as [|f fields IH]; intros t st x st'; simpl.
  - intros [= _ <-]. split; [apply frame_refl | reflexivity].
  - unfold bind.
    destruct (convert1 f st) as [[[t1|e] st1]| |] eqn:Hf; try discriminate.
    + intros H. apply IH in H. apply Hconv in Hf.
      destruct H as [H1 H2], Hf as [H3 H4].
      split; [eapply frame_trans; eassumption | congruence].
    + intros [= _ <-]. eapply Hconv; eassumption.
Qed.

Lemma convertMessageType_frame fuel :
  forall curPkg msg st x st',
    convertMessageType cfg fuel curPkg msg st = Done (x, st') ->
    frame st st' /\ globalPkg st' = globalPkg st.
Proof.
  induction fuel as [|fuel IH]; intros curPkg msg st x st'; simpl;
    [discriminate|].
  unfold bind, get. apply fieldLoop_frame.
  intros f st0 r st0'. apply convertField_with_frame. exact IH.
Qed.

Lemma frame_name st st' p :
  frame st st' -> Msg_GetName (heap st') p = Msg_GetName (heap st) p.
Proof.
  intros Hf. specialize (Hf p). unfold Msg_GetName.
  destruct (heap st !! p), (heap st' !! p); try contradiction;
    [|reflexivity].
  destruct Hf as (Hn & _). now rewrite Hn.
Qed.

Lemma convertFile_messages_frame fuel pkg file msgs :
  forall response st docs st',
    convertFile_messages cfg MarshalIndent fuel pkg file msgs response st
    = Done (docs, st') ->
    (frame st st' /\ globalPkg st' = globalPkg st)
    /\ forall ok,
         docs = Ok ok ->
         List.map CodeGeneratorResponse.Name ok
         = List.map CodeGeneratorResponse.Name response
           ++ List.map (messageDocumentName st) msgs.
Proof.
  induction msgs as [|msg msgs IH]; intros response st docs st'; simpl.
  - intros [= <- <-]. split; [split; [apply frame_refl | reflexivity]|].
    intros ok [= <-]. now rewrite app_nil_r.
  - unfold bind at 1, get. unfold bind at 1.
    destruct (injectEnums msg (FileDescriptorProto.EnumType file) st)
      as [[[] st1]| |] eqn:Hinj; try discriminate.
    apply injectEnums_frame in Hinj. destruct Hinj as [Hf1 Hg1].
    unfold bind at 1.
    destruct (convertMessageType cfg fuel pkg msg st1)
      as [[[schema err] st2]| |] eqn:Hconv; try discriminate.
    apply convertMessageType_frame in Hconv. destruct Hconv as [Hf2 Hg2].
    assert (Hf : frame st st2) by (eapply frame_trans; eassumption).
    destruct err as [e|].
    { intros [= <- <-]. split; [split; [exact Hf | congruence]|].
      discriminate. }
    destruct (MarshalIndent schema) as [json|e].
    2: { intros [= <- <-]. split; [split; [exact Hf | congruence]|].
         discriminate. }
    intros H. apply IH in H. destruct H as [[Hf3 Hg3] Hnames].
    split; [split; [eapply frame_trans; eassumption | congruence]|].
    intros ok Hok. rewrite (Hnames ok Hok).
    rewrite List.map_app. simpl. rewrite <- app_assoc. simpl.
    f_equal. f_equal. apply List.map_ext. intros m.
    unfold messageDocumentName. now rewrite (frame_name _ _ m Hf).
Qed.

Lemma convertFile_frame fuel file st docs st' :
  convertFile cfg MarshalIndent fuel file st = Done (docs, st') ->
  frame st st' /\ globalPkg st' = globalPkg st.
Proof.
  unfold convertFile.
  destruct (length (FileDescriptorProto.MessageType file) =? 0)%nat.
  - intros [= _ <-]. split; [apply frame_refl | reflexivity].
  - unfold bind, get.
    destruct (relativelyLookupPackage (globalPkg st) []
                (FileDescriptorProto.GetPackage file)) as [pkg|].
    + intros H. apply convertFile_messages_frame in H. tauto.
    + intros [= _ <-]. split; [apply frame_refl | reflexivity].
Qed.

Lemma convertFiles_frame fuel targets enums files :
  forall res st x st',
    convertFiles cfg MarshalIndent fuel targets enums files res st
    = Done (x, st') ->
    frame st st' /\ globalPkg st' = globalPkg st.
Proof.
  induction files as [|file files IH]; intros res st x st'; simpl.
  - intros [= _ <-]. split; [apply frame_refl | reflexivity].
  - destruct (targets !! FileDescriptorProto.GetName file); [|apply IH].
    unfold bind.
    destruct (convertFile cfg MarshalIndent fuel
                (FileDescriptorProto.set_EnumType file enums) st)
      as [[[docs|e] st1]| |] eqn:Hfile; try discriminate;
      apply convertFile_frame in Hfile; destruct Hfile as [Hf1 Hg1].
    + intros H. apply IH in H. destruct H as [Hf2 Hg2].
      split; [eapply frame_trans; eassumption | congruence].
    + intros [= _ <-]. split; assumption.
Qed.

End Frame.

Lemma loaded_heap req st : heap (loaded req st) = heap st.
Proof.
  unfold loaded.
  destruct (loadFiles_total (CodeGeneratorRequest.ProtoFile req) [] st)
    as [g Hg].
  rewrite Hg. reflexivity.
Qed.

(** X16: what a session leaves alone. It neither allocates nor frees a
    message descriptor and never changes the name, the fields or the
    nested types of one: enum lists are all it writes. The registry is
    written by the first pass only: conversions never touch it. *)
Theorem X16_session_frame :
  forall (cfg : Config) (MarshalIndent : jsonschema_Type -> result string)
         (fuel : nat) (req : CodeGeneratorRequest.t) (st st' : State)
         (x : CodeGeneratorResponse.t * option string),
    convert cfg MarshalIndent fuel req st = Done (x, st') ->
    frame st st' /\ globalPkg st' = globalPkg (loaded req st).
Proof.
  intros cfg MarshalIndent fuel req st st' x.
  unfold convert, bind. rewrite loadFiles_loaded.
  intros H. apply convertFiles_frame in H. destruct H as [Hf Hg].
  split; [|exact Hg].
  intros p. specialize (Hf p). rewrite loaded_heap in Hf. exact Hf.
Qed.

Lemma X16_session_frame_witness :
  frame leakState
        (snd (outcomeOr (CodeGeneratorResponse.mk None [], None, leakState)
                (convert defaultConfig sampleMarshal 2 leakRequest leakState)))
  /\ globalPkg
       (snd (outcomeOr (CodeGeneratorResponse.mk None [], None, leakState)
               (convert defaultConfig sampleMarshal 2 leakRequest leakState)))
     = globalPkg (loaded leakRequest leakState).
Proof.
  apply (X16_session_frame defaultConfig sampleMarshal 2 leakRequest leakState
           _ (fst (outcomeOr (CodeGeneratorResponse.mk None [], None, leakState)
                     (convert defaultConfig sampleMarshal 2 leakRequest
                              leakState)))).
  vm_compute. reflexivity.
Defined.

(** X17: a file with messages that converts yields one document per
    top-level message, in the order of the messages, each named after
    its message with the extension [.jsonschema]. *)
Theorem X17_message_file_documents :
  forall (cfg : Config) (MarshalIndent : jsonschema_Type -> result string)
         (fuel : nat) (file : FileDescriptorProto.t) (st st' : State)
         (docs : list CodeGeneratorResponse.File_),
    FileDescriptorProto.MessageType file <> [] ->
    convertFile cfg MarshalIndent fuel file st = Done (Ok docs, st') ->
    List.map CodeGeneratorResponse.Name docs
    = List.map (messageDocumentName st) (FileDescriptorProto.MessageType file).
Proof.
  intros cfg MarshalIndent fuel file st st' docs Hmsgs.
  unfold convertFile.
  destruct (FileDescriptorProto.MessageType file) as [|m ms] eqn:Hm;
    [congruence|].
  change (length (m :: ms) =? 0)%nat with false. cbv iota.
  unfold bind, get.
  destruct (relativelyLookupPackage (globalPkg st) []
              (FileDescriptorProto.GetPackage file)) as [pkg|];
    [|intros H; inversion H].
  intros H. apply convertFile_messages_frame in H.
  destruct H as [_ Hnames]. exact (Hnames docs eq_refl).
Qed.

Lemma X17_message_file_documents_witness :
  List.map CodeGeneratorResponse.Name
    [CodeGeneratorResponse.mkFile "Outer.jsonschema" "{type: object}";
     CodeGeneratorResponse.mkFile "Inner.jsonschema" "{type: object}"]
  = List.map (messageDocumentName leakState)
      (FileDescriptorProto.MessageType
         (FileDescriptorProto.mk (Some "x.proto") (Some "p")
                                 [1%nat; 2%nat] [])).
Proof.
  apply (X17_message_file_documents defaultConfig sampleMarshal 2
           (FileDescriptorProto.mk (Some "x.proto") (Some "p")
                                   [1%nat; 2%nat] [])
           leakState
           (snd (outcomeOr (Err "", leakState)
                   (convertFile defaultConfig sampleMarshal 2
                      (FileDescriptorProto.mk (Some "x.proto") (Some "p")
                                              [1%nat; 2%nat] [])
                      leakState)))).
  - simpl. discriminate.
  - vm_compute. reflexivity.
Defined.

(** ** The parameter string *)

Lemma Config_eta c :
  c = mkConfig (allowNullValues c) (disallowEnumOneOf c) (disallowOneOf c)
               (disallowAdditionalProperties c) (disallowBigIntsAsStrings c)
               (debugLogging c).
Proof. destruct c; reflexivity. Qed.

Lemma flagsAfter_nil c : flagsAfter [] c = c.
Proof.
  destruct c; unfold flagsAfter, given; simpl.
  now rewrite !orb_false_r.
Qed.

Lemma commandLineParameter_loop_flagsAfter parameters :
  forall c c',
    commandLineParameter_loop parameters c = Done c' ->
    c' = flagsAfter parameters c.
Proof.
  induction parameters as [|p ps IH]; intros c c'; simpl.
  - intros [= <-]. now rewrite flagsAfter_nil.
  - flag_case p "allow_null_values".
    { intros H. apply IH in H. subst c'. destruct c.
      unfold flagsAfter, given; simpl. now rewrite ?orb_true_r, ?orb_false_r. }
    flag_case p "debug".
    { intros H. apply IH in H. subst c'. destruct c.
      unfold flagsAfter, given; simpl. now rewrite ?orb_true_r, ?orb_false_r. }
    flag_case p "disallow_enum_one_of".
    { intros H. apply IH in H. subst c'. destruct c.
      unfold flagsAfter, given; simpl. now rewrite ?orb_true_r, ?orb_false_r. }
    flag_case p "disallow_one_of".
    { destruct (allowNullValues c) eqn:Hn; [discriminate|].
      intros H. apply IH in H. subst c'. destruct c.
      unfold flagsAfter, given; simpl. now rewrite ?orb_true_r, ?orb_false_r. }
    flag_case p "disallow_additional_properties".
    { intros H. apply IH in H. subst c'. destruct c.
      unfold flagsAfter, given; simpl. now rewrite ?orb_true_r, ?orb_false_r. }
    flag_case p "disallow_bigints_as_strings".
    { intros H. apply IH in H. subst c'. destruct c.
      unfold flagsAfter, given; simpl. now rewrite ?orb_true_r, ?orb_false_r. }
    intros H. apply IH in H. subst c'.
    unfold flagsAfter, given. cbn [existsb].
    rewrite (String.eqb_sym "allow_null_values" p),
            (String.eqb_sym "disallow_enum_one_of" p),
            (String.eqb_sym "disallow_one_of" p),
            (String.eqb_sym "disallow_additional_properties" p),
            (String.eqb_sym "disallow_bigints_as_strings" p),
            (String.eqb_sym "debug" p).
    repeat match goal with H : String.eqb p _ = false |- _ =>
      rewrite H; clear H end.
    reflexivity.
Qed.

(** X18: when the parameter string is accepted, every flag is on exactly
    when it was on before or its name is one of the comma-separated
    parameters: no parameter turns a flag off, and neither the order nor
    a repetition of the parameters shows in the result. *)
Theorem X18_flags_after_parameters :
  forall (parameters : string) (c c' : Config),
    commandLineParameter parameters c = Done c' ->
    c' = flagsAfter (Strings.Split parameters ",") c.
Proof.
  intros parameters c c'. unfold commandLineParameter.
  apply commandLineParameter_loop_flagsAfter.
Qed.

Lemma X18_flags_after_parameters_witness :
  mkConfig false true true false false true
  = flagsAfter
      (Strings.Split "debug,disallow_one_of,verbose,disallow_enum_one_of" ",")
      defaultConfig.
Proof.
  apply (X18_flags_after_parameters
           "debug,disallow_one_of,verbose,disallow_enum_one_of"
           defaultConfig).
  vm_compute. reflexivity.
Defined.

Lemma conflicting_cons_other p ps c c1 :
  p <> "disallow_one_of" ->
  (allowNullValues c1 = true <->
   allowNullValues c = true \/ p = "allow_null_values") ->
  conflicting (p :: ps) c <-> conflicting ps c1.
Proof.
  intros Hp Hc1. split.
  - intros (before & after & Heq & Hor).
    destruct before as [|b before]; simpl in Heq.
    { injection Heq as Hb _. contradiction. }
    injection Heq as <- ->.
    exists before, after. split; [reflexivity|].
    destruct Hor as [Hn | [Hb | Hin]].
    + left. apply Hc1. now left.
    + left. apply Hc1. right. now symmetry.
    + now right.
  - intros (before & after & -> & Hor).
    exists (p :: before), after. split; [reflexivity|].
    destruct Hor as [Hn | Hin].
    + apply Hc1 in Hn. destruct Hn as [Hn | ->]; [now left|].
      right. now left.
    + right. now right.
Qed.

Lemma commandLineParameter_loop_panic parameters :
  forall c,
    commandLineParameter_loop parameters c = Panic both_flags_panic
    <-> conflicting parameters c.
Proof.
  induction parameters as [|p ps IH]; intros c; simpl.
  - split; [discriminate|].
    intros (before & after & Heq & _). now destruct before.
  - flag_case p "allow_null_values".
    { rewrite IH. symmetry. apply conflicting_cons_other; [discriminate|].
      simpl. split; [now right | reflexivity]. }
    flag_case p "debug".
    { rewrite IH. symmetry. apply conflicting_cons_other; [discriminate|].
      simpl. split; [now left | now intros [H | H]]. }
    flag_case p "disallow_enum_one_of".
    { rewrite IH. symmetry. apply conflicting_cons_other; [discriminate|].
      simpl. split; [now left | now intros [H | H]]. }
    flag_case p "disallow_one_of".
    { destruct (allowNullValues c) eqn:Hn.
      - split; [|reflexivity]. intros _.
        exists [], ps. split; [reflexivity | now left].
      - rewrite IH. split.
        + intros (before & after & -> & Hor).
          exists ("disallow_one_of" :: before), after.
          split; [reflexivity|].
          destruct Hor as [H | H]; [simpl in H; congruence|].
          right. now right.
        + intros (before & after & Heq & Hor).
          destruct before as [|b before]; simpl in Heq.
          { destruct Hor as [H | H]; [congruence | destruct H]. }
          injection Heq as <- ->.
          exists before, after. split; [reflexivity|].
          destruct Hor as [H | [H | H]];
            [congruence | discriminate | now right]. }
    assert (Hne : p <> "disallow_one_of").
    { intros ->. discriminate. }
    assert (Hnn : p <> "allow_null_values").
    { intros ->. discriminate. }
    flag_case p "disallow_additional_properties".
    { rewrite IH. symmetry. apply conflicting_cons_other; [discriminate|].
      simpl. split; [now left | now intros [H | H]]. }
    flag_case p "disallow_bigints_as_strings".
    { rewrite IH. symmetry. apply conflicting_cons_other; [discriminate|].
      simpl. split; [now left | now intros [H | H]]. }
    rewrite IH. symmetry. apply conflicting_cons_other; [exact Hne|].
    split; [now left | now intros [H | H]].
Qed.

Lemma commandLineParameter_loop_returns parameters :
  forall c,
    (exists c', commandLineParameter_loop parameters c = Done c')
    \/ commandLineParameter_loop parameters c = Panic both_flags_panic.
Proof.
  induction parameters as [|p ps IH]; intros c; simpl.
  - left. now exists c.
  - repeat match goal with
           | |- context [if String.eqb p ?n then _ else _] =>
               destruct (String.eqb p n)
           end; try apply IH.
    destruct (allowNullValues c); [now right | apply IH].
Qed.

(** X19: the parameter string is refused, by the panic on the two flags
    that cannot both be on, exactly when [disallow_one_of] is given at a
    place where null values are already allowed, by the flags on entry or
    by an [allow_null_values] earlier in the string; every other string
    is accepted. *)
Theorem X19_refused_parameters :
  forall (parameters : string) (c : Config),
    (commandLineParameter parameters c = Panic both_flags_panic
     <-> conflicting (Strings.Split parameters ",") c)
    /\ (commandLineParameter parameters c <> Panic both_flags_panic
        <-> exists c', commandLineParameter parameters c = Done c').
Proof.
  intros parameters c. unfold commandLineParameter. split.
  - apply commandLineParameter_loop_panic.
  - split.
    + intros Hne.
      destruct (commandLineParameter_loop_returns
                  (Strings.Split parameters ",") c) as [H | H];
        [exact H | contradiction].
    + intros [c' H]. rewrite H. discriminate.
Qed.

(** X20: a parameter that is none of the six names is skipped in
    silence: dropping all such parameters from the list changes neither
    the resulting flags nor whether the list is refused. *)
Theorem X20_unknown_parameters_are_skipped :
  forall (parameters : list string) (c : Config),
    commandLineParameter_loop (List.filter isFlag parameters) c
    = commandLineParameter_loop parameters c.
Proof.
  induction parameters as [|p ps IH]; intros c; [reflexivity|].
  cbn [List.filter]. unfold isFlag at 1.
  cbn [commandLineParameter_loop].
  destruct (String.eqb p "allow_null_values") eqn:E1.
  { cbn [orb commandLineParameter_loop]. rewrite E1. apply IH. }
  destruct (String.eqb p "debug") eqn:E2.
  { cbn [orb commandLineParameter_loop]. rewrite E1, E2. apply IH. }
  destruct (String.eqb p "disallow_enum_one_of") eqn:E3.
  { cbn [orb commandLineParameter_loop]. rewrite E1, E2, E3. apply IH. }
  destruct (String.eqb p "disallow_one_of") eqn:E4.
  { cbn [orb commandLineParameter_loop]. rewrite E1, E2, E3, E4.
    destruct (allowNullValues c); [reflexivity | apply IH]. }
  destruct (String.eqb p "disallow_additional_properties") eqn:E5.
  { cbn [orb commandLineParameter_loop].
    rewrite E1, E2, E3, E4, E5. apply IH. }
  destruct (String.eqb p "disallow_bigints_as_strings") eqn:E6.
  { cbn [orb commandLineParameter_loop].
    rewrite E1, E2, E3, E4, E5, E6. apply IH. }
  cbn [orb]. apply IH.
Qed.

Lemma X19_refused_parameters_witness :
  commandLineParameter "allow_null_values,debug,disallow_one_of" defaultConfig
  = Panic both_flags_panic.
Proof.
  apply (proj2 (proj1 (X19_refused_parameters
                         "allow_null_values,debug,disallow_one_of"
                         defaultConfig))).
  exists ["allow_null_values"; "debug"], [].
  split; [reflexivity | right; left; reflexivity].
Defined.

(** X23: the run from the unmarshalled request on. Unless the parameter
    string of the request is refused, the request is converted under the
    flags on entry with those named by the parameters turned on. *)
Theorem X23_request_converted_under_its_flags :
  forall (MarshalIndent : jsonschema_Type -> result string) (fuel : nat)
         (req : CodeGeneratorRequest.t) (c : Config) (st : State),
    ~ conflicting
        (Strings.Split (CodeGeneratorRequest.GetParameter req) ",") c ->
    convertFrom MarshalIndent fuel req c st
    = convert (flagsAfter
                 (Strings.Split (CodeGeneratorRequest.GetParameter req) ",")
                 c)
              MarshalIndent fuel req st.
Proof.
  intros MarshalIndent fuel req c st Hno.
  unfold convertFrom, commandLineParameter.
  destruct (commandLineParameter_loop_returns
              (Strings.Split (CodeGeneratorRequest.GetParameter req) ",") c)
    as [[c' H] | H].
  - rewrite H. apply commandLineParameter_loop_flagsAfter in H.
    now subst c'.
  - apply commandLineParameter_loop_panic in H. contradiction.
Qed.

Lemma X23_request_converted_under_its_flags_witness :
  convertFrom sampleMarshal 2
    (CodeGeneratorRequest.mk ["x.proto"] (Some "disallow_one_of,debug")
       (CodeGeneratorRequest.ProtoFile leakRequest))
    defaultConfig leakState
  = convert (flagsAfter ["disallow_one_of"; "debug"] defaultConfig)
            sampleMarshal 2
            (CodeGeneratorRequest.mk ["x.proto"]
               (Some "disallow_one_of,debug")
               (CodeGeneratorRequest.ProtoFile leakRequest))
            leakState.
Proof.
  apply (X23_request_converted_under_its_flags sampleMarshal 2
           (CodeGeneratorRequest.mk ["x.proto"]
              (Some "disallow_one_of,debug")
              (CodeGeneratorRequest.ProtoFile leakRequest))
           defaultConfig leakState).
  intros (before & after & Heq & [Hn | Hin]); [discriminate Hn|].
  destruct before as [|b before]; [destruct Hin|].
  change (Strings.Split
            (CodeGeneratorRequest.GetParameter
               (CodeGeneratorRequest.mk ["x.proto"]
                  (Some "disallow_one_of,debug")
                  (CodeGeneratorRequest.ProtoFile leakRequest))) ",")
    with ["disallow_one_of"; "debug"] in Heq.
  injection Heq as <- Heq.
  destruct Hin as [Hb | Hin]; [discriminate Hb|].
  destruct before as [|b1 [|b2 before]]; simpl in Heq; discriminate Heq.
Defined.

(** ** Names keep their meaning during a conversion *)

Lemma frame_nested st st' p :
  frame st st' ->
  Msg_GetNestedType (heap st') p = Msg_GetNestedType (heap st) p.
Proof.
  intros Hf. specialize (Hf p). unfold Msg_GetNestedType.
  destruct (heap st !! p), (heap st' !! p); try contradiction;
    [|reflexivity].
  destruct Hf as (_ & _ & Hn). now rewrite Hn.
Qed.

Lemma frame_field st st' p :
  frame st st' -> Msg_GetField (heap st') p = Msg_GetField (heap st) p.
Proof.
  intros Hf. specialize (Hf p). unfold Msg_GetField.
  destruct (heap st !! p), (heap st' !! p); try contradiction;
    [|reflexivity].
  destruct Hf as (_ & Hn & _). now rewrite Hn.
Qed.

Lemma find_pointwise {A} (f g : A -> bool) (l : list A) :
  (forall a, f a = g a) -> List.find f l = List.find g l.
Proof.
  intros Hfg. induction l as [|a l IH]; [reflexivity|].
  simpl. rewrite Hfg, IH. reflexivity.
Qed.

Lemma relativelyLookupNestedType_loop_frame st st' components :
  frame st st' ->
  forall desc,
    relativelyLookupNestedType_loop (heap st') desc components
    = relativelyLookupNestedType_loop (heap st) desc components.
Proof.
  intros Hf. induction components as [|c rest IH]; intros desc;
    [reflexivity|].
  simpl. rewrite (frame_nested _ _ desc Hf).
  rewrite (find_pointwise (fun nested => String.eqb (Msg_GetName (heap st') nested) c)
                    (fun nested => String.eqb (Msg_GetName (heap st) nested) c)).
  2: { intros a. now rewrite (frame_name _ _ a Hf). }
  destruct (List.find _ _); [apply IH | reflexivity].
Qed.

Lemma Cut_length name a b :
  Strings.Cut name "." = Some (a, b) ->
  (String.length b < String.length name)%nat.
Proof.
  revert a. induction name as [|c s IH]; simpl; intros a Hcut;
    [discriminate|].
  destruct (Ascii.eqb c "."); [injection Hcut as _ <-; lia|].
  destruct (Strings.Cut s ".") as [[a' b']|]; [|discriminate].
  injection Hcut as _ <-. specialize (IH _ eq_refl). lia.
Qed.

Lemma relativelyLookupType_frame st st' :
  frame st st' ->
  forall name pkg,
    relativelyLookupType (heap st') pkg name
    = relativelyLookupType (heap st) pkg name.
Proof.
  intros Hf name.
  remember (String.length name) as n eqn:Hn. revert name Hn.
  induction (lt_wf n) as [n _ IH]. intros name Hn pkg. subst n.
  rewrite (relativelyLookupType_split (heap st')),
          (relativelyLookupType_split (heap st)).
  unfold Strings.SplitN2.
  destruct (Strings.Cut name ".") as [[a b]|] eqn:Hcut; [|reflexivity].
  destruct (ProtoPackage.children pkg !! a) as [child|].
  - apply (IH (String.length b));
      [eapply Cut_length; eassumption | reflexivity].
  - destruct (ProtoPackage.types pkg !! a); [|reflexivity].
    apply relativelyLookupNestedType_loop_frame. exact Hf.
Qed.

Lemma lookupType_frame st st' pkg name :
  frame st st' -> globalPkg st' = globalPkg st ->
  lookupType st' pkg name = lookupType st pkg name.
Proof.
  intros Hf Hg. unfold lookupType. rewrite Hg.
  destruct (Strings.HasPrefix name ".");
    [apply relativelyLookupType_frame; exact Hf|].
  induction pkg as [|c parent IH];
    rewrite (lookupType_loop_unfold st'), (lookupType_loop_unfold st), Hg.
  - destruct (deref (globalPkg st) []); [|reflexivity].
    now rewrite (relativelyLookupType_frame _ _ Hf).
  - destruct (deref (globalPkg st) (c :: parent)).
    + rewrite (relativelyLookupType_frame _ _ Hf).
      destruct (relativelyLookupType (heap st) t name);
        [reflexivity | exact IH].
    + exact IH.
Qed.

(** X21: names keep their meaning. Whatever a conversion of a message
    writes into the descriptors, every type name resolves afterwards,
    from every package, to what it resolved to before. *)
Theorem X21_conversion_keeps_resolution :
  forall (cfg : Config) (fuel : nat) (curPkg : PkgRef) (msg : ptr)
         (st st' : State) (x : jsonschema_Type * option string)
         (pkg : PkgRef) (name : string),
    convertMessageType cfg fuel curPkg msg st = Done (x, st') ->
    lookupType st' pkg name = lookupType st pkg name.
Proof.
  intros cfg fuel curPkg msg st st' x pkg name H.
  apply convertMessageType_frame in H. destruct H as [Hf Hg].
  apply lookupType_frame; assumption.
Qed.

Lemma X21_conversion_keeps_resolution_witness :
  lookupType leakAfter ["p"] "Inner" = lookupType leakState ["p"] "Inner".
Proof.
  apply (X21_conversion_keeps_resolution defaultConfig 2 ["p"] 1%nat
           leakState leakAfter
           (fst (outcomeOr (emptyType, None, leakState)
                   (convertMessageType defaultConfig 2 ["p"] 1 leakState)))).
  vm_compute. reflexivity.
Defined.

(** ** Messages that refer to themselves *)

Lemma forallb_pointwise {A} (f g : A -> bool) (l : list A) :
  (forall a, f a = g a) -> forallb f l = forallb g l.
Proof.
  intros Hfg. induction l as [|a l IH]; [reflexivity|].
  simpl. rewrite Hfg, IH. reflexivity.
Qed.

Lemma existsb_pointwise {A} (f g : A -> bool) (l : list A) :
  (forall a, f a = g a) -> existsb f l = existsb g l.
Proof.
  intros Hfg. induction l as [|a l IH]; [reflexivity|].
  simpl. rewrite Hfg, IH. reflexivity.
Qed.

Lemma closedGroup_frame st st' curPkg group :
  frame st st' -> globalPkg st' = globalPkg st ->
  closedGroup st' curPkg group = closedGroup st curPkg group.
Proof.
  intros Hf Hg. unfold closedGroup. apply forallb_pointwise. intros m.
  unfold refersInto. rewrite (frame_field _ _ m Hf).
  apply existsb_pointwise. intros f.
  now rewrite (lookupType_frame _ _ _ _ Hf Hg).
Qed.

Section Cycles.

Variable cfg : Config.
Variable curPkg : PkgRef.
Variable group : list ptr.

Lemma fieldLoop_blocked
    (convert1 : FieldDescriptorProto.t -> M (result jsonschema_Type)) :
  (forall f st r st',
      convert1 f st = Done (r, st') ->
      frame st st' /\ globalPkg st' = globalPkg st) ->
  (forall f, blocked curPkg group convert1 f) ->
  forall fields t0 st t st',
    closedGroup st curPkg group = true ->
    existsb
      (fun f =>
         isMessageField f
         && match lookupType st curPkg (FieldDescriptorProto.GetTypeName f)
            with
            | Some target => existsb (Nat.eqb target) group
            | None => false
            end) fields = true ->
    fieldLoop convert1 fields t0 st <> Done (t, None, st').
Proof.
  intros Hframe Hblocked fields.
  induction fields as [|f fields IH]; intros t0 st t st' Hclosed Hex;
    [discriminate|].
  cbn [fieldLoop]. unfold bind.
  destruct (convert1 f st) as [[[t1|e] st1]| |] eqn:Hf; try discriminate.
  cbn [existsb] in Hex. apply orb_true_iff in Hex.
  destruct Hex as [Hhere | Hlater].
  - exfalso. exact (Hblocked f st t1 st1 Hclosed Hhere Hf).
  - apply Hframe in Hf. destruct Hf as [Hfr Hg].
    apply IH.
    + now rewrite (closedGroup_frame _ _ _ _ Hfr Hg).
    + rewrite <- Hlater. apply existsb_pointwise. intros f'.
      now rewrite (lookupType_frame _ _ _ _ Hfr Hg).
Qed.

Lemma convertMessageType_closedGroup fuel :
  forall msg st t st',
    closedGroup st curPkg group = true ->
    In msg group ->
    convertMessageType cfg fuel curPkg msg st <> Done (t, None, st').
Proof.
  induction fuel as [|fuel IH]; intros msg st t st' Hclosed Hin;
    [discriminate|].
  cbn [convertMessageType]. unfold bind at 1, get.
  apply fieldLoop_blocked.
  - intros f st0 r st0'. apply convertField_with_frame.
    intros pkg m s x s'. apply convertMessageType_frame.
  - intros f s t1 s1 Hcl Hf.
    apply andb_prop in Hf. destruct Hf as [Hmsg Hres].
    destruct (lookupType s curPkg (FieldDescriptorProto.GetTypeName f))
      as [target|] eqn:Hlook; [|discriminate].
    apply existsb_exists in Hres. destruct Hres as (m & Hm & Heq).
    apply Nat.eqb_eq in Heq. subst m.
    assert (Hname : FieldDescriptorProto.GetTypeName f
                    <> ".google.protobuf.Timestamp").
    { unfold isMessageField in Hmsg.
      destruct (FieldType_of_number (FieldDescriptorProto.GetType f))
        as [[]|]; try discriminate;
        now apply negb_true_iff, String.eqb_neq in Hmsg. }
    assert (Hswitch : convertField_switch cfg f msg s
                      = Done (Ok (messageCase cfg f emptyType), s)).
    { unfold isMessageField in Hmsg. unfold convertField_switch.
      destruct (FieldType_of_number (FieldDescriptorProto.GetType f))
        as [[]|]; try discriminate; reflexivity. }
    unfold convertField_with, bind at 1. rewrite Hswitch.
    rewrite (messageCase_object cfg f emptyType Hname).
    rewrite String.eqb_refl, andb_false_r.
    unfold bind, get. rewrite Hlook.
    destruct (enrich target msg s) as [[[] s2]| |] eqn:Hen;
      [|discriminate|discriminate].
    apply enrich_frame in Hen. destruct Hen as [Hfr Hg].
    destruct (convertMessageType cfg fuel curPkg target s2)
      as [[[x [e|]] s3]| |] eqn:Hrec; try discriminate.
    exfalso. revert Hrec. apply IH.
    + now rewrite (closedGroup_frame _ _ _ _ Hfr Hg).
    + exact Hm.
  - exact Hclosed.
  - unfold closedGroup in Hclosed.
    rewrite forallb_forall in Hclosed. exact (Hclosed msg Hin).
Qed.

End Cycles.

(** X22: a message on a cycle of references never converts. When every
    message of a group has a message field whose type resolves into the
    group (a message with a field of its own type is such a group), then
    no conversion of a member returns a schema, whatever the depth it is
    allowed: it ends in an error or a panic raised on the way, or it does
    not end. *)
Theorem X22_cyclic_messages_never_convert :
  forall (cfg : Config) (curPkg : PkgRef) (group : list ptr) (msg : ptr)
         (st : State),
    closedGroup st curPkg group = true ->
    In msg group ->
    forall (fuel : nat) (t : jsonschema_Type) (st' : State),
      convertMessageType cfg fuel curPkg msg st <> Done (t, None, st').
Proof.
  intros cfg curPkg group msg st Hclosed Hin fuel t st'.
  apply (convertMessageType_closedGroup cfg curPkg group); assumption.
Qed.

Lemma X22_cyclic_messages_never_convert_witness :
  convertMessageType defaultConfig 7 ["p"] 1 selfState
  <> Done (emptyType, None, selfState).
Proof.
  apply (X22_cyclic_messages_never_convert defaultConfig ["p"] [1%nat]
           1%nat selfState).
  - vm_compute. reflexivity.
  - left. reflexivity.
Defined.
